(** * Student management application: accounts, admin guard, learning paths

    A shallow embedding of [student_management/views.py],
    [student_management/decorators.py], [student_management/forms.py] and
    [student_management/models.py].

    Tables are lists of rows (a row is a record), because [objects.get]
    distinguishes no row, one row and several rows.  The session and the
    submitted form data are dictionaries and are finite maps.  A view is a
    function from a request and the state of the world to a response and the
    new state of the world. *)

From Stdlib Require Import ZArith List String Ascii Bool Lia.
From stdpp Require Import base option list gmap strings pretty.

Local Open Scope string_scope.
Local Open Scope Z_scope.

(** ** Python strings

    A [string] stands for a Python [str] whose characters are the code
    points U+0000 to U+00FF: each [ascii] is one character, its number the
    code point, so [len] counts characters and not bytes of an encoding.
    Strings with a character from U+0100 on are outside the model.  The
    character tests are those of [str] on this range:
    - [isupper]: A-Z, U+00C0-U+00D6 and U+00D8-U+00DE;
    - [islower]: a-z, U+00AA, U+00B5, U+00BA, U+00DF-U+00F6 and
      U+00F8-U+00FF;
    - [isdigit]: 0-9 and the superscripts U+00B2, U+00B3 and U+00B9. *)

Module Py.

(** [ord(c)] *)
Definition code (c : ascii) : Z := Z.of_nat (nat_of_ascii c).

Definition between (lo hi : Z) (c : ascii) : bool := (lo <=? code c) && (code c <=? hi).

Definition isupper (c : ascii) : bool :=
  between 65 90 c || between 192 214 c || between 216 222 c.
Definition islower (c : ascii) : bool :=
  between 97 122 c || between 170 170 c || between 181 181 c || between 186 186 c ||
  between 223 246 c || between 248 255 c.
Definition isdigit (c : ascii) : bool :=
  between 48 57 c || between 178 179 c || between 185 185 c.

(** [any(p(ch) for ch in s)] *)
Fixpoint any (p : ascii -> bool) (s : string) : bool :=
  match s with
  | EmptyString => false
  | String c r => p c || any p r
  end.

(** [len(s)] *)
Definition len (s : string) : Z := Z.of_nat (String.length s).

(** [ch in s] for a single character *)
Definition contains (ch : ascii) (s : string) : bool :=
  any (Ascii.eqb ch) s.

(** Whitespace as [str.strip()] sees it: tab, line feed, vertical tab,
    form feed, carriage return, the four separators 28-31, the space, the
    next-line control U+0085 and the no-break space U+00A0. *)
Definition isspace (c : ascii) : bool :=
  between 9 13 c || between 28 32 c || between 133 133 c || between 160 160 c.

Fixpoint lstrip (s : string) : string :=
  match s with
  | EmptyString => EmptyString
  | String c r => if isspace c then lstrip r else s
  end.

(** Drops trailing whitespace: a character is kept when it is not
    whitespace or when something is kept after it. *)
Fixpoint rstrip (s : string) : string :=
  match s with
  | EmptyString => EmptyString
  | String c r =>
      match rstrip r with
      | EmptyString => if isspace c then EmptyString else String c EmptyString
      | r' => String c r'
      end
  end.

Definition strip (s : string) : string := rstrip (lstrip s).

(** Truth value of an optional string, as in [if not email]: [None] and the
    empty string are false. *)
Definition truthy (o : option string) : bool :=
  match o with
  | None => false
  | Some s => negb (String.eqb s "")
  end.

End Py.

(** ** [validate_password] (views.py) *)

Module Password.

(** The character class of the regular expression searched in the
    password: the twenty punctuation characters below.  The double quote is
    written by its code, 34. *)
Definition special_chars : list ascii :=
  [ "!"; "@"; "#"; "$"; "%"; "^"; "&"; "*"; "("; ")"; ","; "."; "?";
    "034"; ":"; "{"; "}"; "|"; "<"; ">" ]%char.

Definition is_special (c : ascii) : bool :=
  existsb (Ascii.eqb c) special_chars.

Definition msg_length := "Password must be at least 8 characters long.".
Definition msg_upper := "Password must contain at least one uppercase letter.".
Definition msg_lower := "Password must contain at least one lowercase letter.".
Definition msg_digit := "Password must contain at least one digit.".
Definition msg_special :=
  "Password must contain at least one special character (e.g., !@#$%^&*" ++ ").".
Definition msg_space := "Password cannot contain spaces.".

(** [errors.append(m)] under a condition *)
Definition append_if (b : bool) (m : string) (errors : list string) : list string :=
  if b then errors ++ [m] else errors.

Definition validate_password (password : string) : list string :=
  let errors := [] in
  let errors := append_if (Py.len password <? 8) msg_length errors in
  let errors := append_if (negb (Py.any Py.isupper password)) msg_upper errors in
  let errors := append_if (negb (Py.any Py.islower password)) msg_lower errors in
  let errors := append_if (negb (Py.any Py.isdigit password)) msg_digit errors in
  let errors := append_if (negb (Py.any is_special password)) msg_special errors in
  let errors := append_if (Py.contains " " password) msg_space errors in
  errors.

End Password.

(** ** The data model (models.py)

    A UUID is its 128-bit integer, a timestamp is a count of microseconds
    (the project runs with [TIME_ZONE = 'UTC'], so wall clock and stored
    time agree), and [IntegerField] values are Python integers.  An id
    taken from an address is a 128-bit value as well; what the views do
    with a larger integer in a learning path address is outside the
    model. *)

Abbreviation UUID := N (only parsing).
Abbreviation Timestamp := Z (only parsing).

Module User.

Record t := mk {
  id : UUID;
  email : string;
  password : string;
  first_name : option string;
  last_name : option string;
  created_at : Timestamp;
  updated_at : Timestamp;
  is_active : bool;
  is_admin : bool;
  last_login : option Timestamp;
  last_logout : option Timestamp;
  failed_login_attempts : Z;
  is_locked : bool
}.

(** Attribute assignments [user.f = v]. *)
Definition set_email v u :=
  mk (id u) v (password u) (first_name u) (last_name u) (created_at u)
     (updated_at u) (is_active u) (is_admin u) (last_login u) (last_logout u)
     (failed_login_attempts u) (is_locked u).
Definition set_password v u :=
  mk (id u) (email u) v (first_name u) (last_name u) (created_at u)
     (updated_at u) (is_active u) (is_admin u) (last_login u) (last_logout u)
     (failed_login_attempts u) (is_locked u).
Definition set_first_name v u :=
  mk (id u) (email u) (password u) v (last_name u) (created_at u)
     (updated_at u) (is_active u) (is_admin u) (last_login u) (last_logout u)
     (failed_login_attempts u) (is_locked u).
Definition set_last_name v u :=
  mk (id u) (email u) (password u) (first_name u) v (created_at u)
     (updated_at u) (is_active u) (is_admin u) (last_login u) (last_logout u)
     (failed_login_attempts u) (is_locked u).
Definition set_updated_at v u :=
  mk (id u) (email u) (password u) (first_name u) (last_name u) (created_at u)
     v (is_active u) (is_admin u) (last_login u) (last_logout u)
     (failed_login_attempts u) (is_locked u).
Definition set_is_admin v u :=
  mk (id u) (email u) (password u) (first_name u) (last_name u) (created_at u)
     (updated_at u) (is_active u) v (last_login u) (last_logout u)
     (failed_login_attempts u) (is_locked u).
Definition set_last_login v u :=
  mk (id u) (email u) (password u) (first_name u) (last_name u) (created_at u)
     (updated_at u) (is_active u) (is_admin u) v (last_logout u)
     (failed_login_attempts u) (is_locked u).
Definition set_last_logout v u :=
  mk (id u) (email u) (password u) (first_name u) (last_name u) (created_at u)
     (updated_at u) (is_active u) (is_admin u) (last_login u) v
     (failed_login_attempts u) (is_locked u).
Definition set_failed_login_attempts v u :=
  mk (id u) (email u) (password u) (first_name u) (last_name u) (created_at u)
     (updated_at u) (is_active u) (is_admin u) (last_login u) (last_logout u)
     v (is_locked u).
Definition set_is_locked v u :=
  mk (id u) (email u) (password u) (first_name u) (last_name u) (created_at u)
     (updated_at u) (is_active u) (is_admin u) (last_login u) (last_logout u)
     (failed_login_attempts u) v.

End User.

Module Student.

Inductive Level := cozmez | kidemli.

Record t := mk {
  id : UUID;
  student_id : string;
  first_name : string;
  last_name : string;
  photo : option string;
  created_at : Timestamp;
  level : Level
}.

End Student.

Module LearningPath.

Record t := mk {
  id : UUID;
  student : UUID;                (* foreign key to [Student.id] *)
  task_name : string;
  start_date : Timestamp;
  estimated_end_date : Timestamp;
  used_leave : option string;
  notes : option string;
  required_duration : string;
  is_completed : bool;
  order : Z
}.

Definition set_is_completed v p :=
  mk (id p) (student p) (task_name p) (start_date p) (estimated_end_date p)
     (used_leave p) (notes p) (required_duration p) v (order p).
Definition set_student v p :=
  mk (id p) v (task_name p) (start_date p) (estimated_end_date p)
     (used_leave p) (notes p) (required_duration p) (is_completed p) (order p).
Definition set_order v p :=
  mk (id p) (student p) (task_name p) (start_date p) (estimated_end_date p)
     (used_leave p) (notes p) (required_duration p) (is_completed p) v.

(** [LearningPath()]: the [id] default is evaluated when the object is
    built, so a fresh instance already has a primary key; [is_completed]
    takes its default [False].  The remaining attributes are unset in
    Python and are placeholders here: a valid form and the view assign all
    of them before the row is written. *)
Definition blank (fresh : UUID) : t :=
  mk fresh 0%N "" 0 0 None None "" false 0.

End LearningPath.

(** ** Tables and queries *)

Module Db.

(** The three outcomes of [Model.objects.get(...)]. *)
Inductive GetResult (A : Type) :=
| Found (row : A)
| DoesNotExist
| MultipleObjectsReturned.
Arguments Found {A} row.
Arguments DoesNotExist {A}.
Arguments MultipleObjectsReturned {A}.

Definition get {A} (p : A -> bool) (rows : list A) : GetResult A :=
  match List.filter p rows with
  | [] => DoesNotExist
  | [row] => Found row
  | _ => MultipleObjectsReturned
  end.

(** [Model.objects.filter(...).exists()] *)
Definition exists_ {A} (p : A -> bool) (rows : list A) : bool := existsb p rows.

(** [DELETE ... WHERE p] *)
Definition delete {A} (p : A -> bool) (rows : list A) : list A :=
  List.filter (fun r => negb (p r)) rows.

(** [UPDATE ... WHERE p]: every matching row is replaced. *)
Definition update {A} (p : A -> bool) (new : A) (rows : list A) : list A :=
  List.map (fun r => if p r then new else r) rows.

(** [INSERT] *)
Definition insert {A} (new : A) (rows : list A) : list A := rows ++ [new].

(** [save()] of an instance that was loaded from the table: an update of
    the row with its primary key, and an insert when no row has it. *)
Definition save {A} (p : A -> bool) (new : A) (rows : list A) : list A :=
  if exists_ p rows then update p new rows else insert new rows.

(** [Max('order')] over a queryset: [None] when it is empty. *)
Fixpoint max_of (l : list Z) : option Z :=
  match l with
  | [] => None
  | x :: r => match max_of r with
              | None => Some x
              | Some m => Some (Z.max x m)
              end
  end.

End Db.

(** ** Requests, responses and the state the views act on *)

Inductive MessageLevel := SUCCESS | WARNING | ERROR.

Inductive Response :=
| Render (template : string)
| Redirect (to : string)
| JsonResponse (status : Z) (payload : list (string * string))
| NotAllowed                      (* 405, from [require_POST] *)
| Http404                         (* from [get_object_or_404] *)
| Raise (exc : string).           (* an exception no handler catches *)

Record World := mkWorld {
  users : list User.t;
  students : list Student.t;
  learning_paths : list LearningPath.t;
  session : gmap string string;
  flash : list (MessageLevel * string)   (* [messages], oldest first *)
}.

Definition set_users v w :=
  mkWorld v (students w) (learning_paths w) (session w) (flash w).
Definition set_students v w :=
  mkWorld (users w) v (learning_paths w) (session w) (flash w).
Definition set_learning_paths v w :=
  mkWorld (users w) (students w) v (session w) (flash w).
Definition set_session v w :=
  mkWorld (users w) (students w) (learning_paths w) v (flash w).

(** [messages.error(request, text)] and its siblings *)
Definition message (lvl : MessageLevel) (text : string) (w : World) : World :=
  mkWorld (users w) (students w) (learning_paths w) (session w)
          (flash w ++ [(lvl, text)]).

(** [request.session.flush()] *)
Definition session_flush (w : World) : World := set_session ∅ w.

(** What Django's own cleaning of one form field yields: the cleaned value,
    or the error messages of a field that is missing or did not parse (the
    field is then absent from [cleaned_data]). *)
Inductive FieldResult (A : Type) :=
| Cleaned (value : A)
| Rejected (errors : list string).
Arguments Cleaned {A} value.
Arguments Rejected {A} errors.

(** [request.POST] as the six fields of [LearningPathForm] see it. *)
Record LearningPathFields := mkFields {
  f_task_name : FieldResult string;
  f_start_date : FieldResult Timestamp;
  f_estimated_end_date : FieldResult Timestamp;
  f_required_duration : FieldResult string;
  f_used_leave : FieldResult (option string);
  f_notes : FieldResult (option string)
}.

Record Request := mkRequest {
  method : string;
  POST : gmap string string;
  path_form : LearningPathFields;   (* the bound data of [LearningPathForm] *)
  user : option User.t;             (* [request.user], set by the guard *)
  now : Timestamp;                  (* what [timezone.now()] returns *)
  uuid4 : UUID                      (* what [uuid.uuid4()] returns *)
}.

Definition set_user (u : User.t) (r : Request) : Request :=
  mkRequest (method r) (POST r) (path_form r) (Some u) (now r) (uuid4 r).

Definition View := Request -> World -> Response * World.

(** ** The views

    The password hasher, the UUID codec and the e-mail validator are
    library code; the views are stated over any implementation of them. *)

Section Views.

Variable verify_password : string -> string -> bool.  (* utils.verify_password *)
Variable hash_password : string -> string.            (* utils.hash_password *)
Variable uuid_parse : string -> option UUID.          (* [uuid.UUID(s)]; [None] is ValueError *)
Variable uuid_str : UUID -> string.                   (* [str(u)] *)
Variable validate_email : string -> bool.             (* Django's [validate_email] *)
Variable save_refused : User.t -> bool.   (* writing the row ends in a ValueError *)

Definition has_id (i : UUID) (u : User.t) : bool := N.eqb (User.id u) i.
Definition has_email (e : string) (u : User.t) : bool := String.eqb (User.email u) e.

(** [User.save]: stamps [updated_at], then writes the row. *)
Definition User_save (t : Timestamp) (u : User.t) (rows : list User.t) : list User.t :=
  Db.save (has_id (User.id u)) (User.set_updated_at t u) rows.

(** *** decorators.py *)

Definition msg_please_log_in := "Please log in to access this page".
Definition msg_invalid_session := "Invalid session. Please log in again.".
Definition msg_unexpected := "An unexpected error occurred. Please try again later.".
Definition msg_no_permission := "You do not have permission to access this page".

Definition admin_required (view_func : View) : View := fun request w =>
  let user_id := session w !! "user_id" in
  if negb (Py.truthy user_id) then
    (Redirect "login", message ERROR msg_please_log_in w)
  else
    match user_id ≫= uuid_parse with
    | None =>                                   (* ValueError *)
        (Redirect "login", session_flush (message ERROR msg_invalid_session w))
    | Some uid =>
        match Db.get (has_id uid) (users w) with
        | Db.DoesNotExist =>
            (Redirect "login", session_flush (message ERROR msg_invalid_session w))
        | Db.MultipleObjectsReturned =>         (* [except Exception] *)
            (Redirect "login", message ERROR msg_unexpected w)
        | Db.Found user =>
            if negb (User.is_admin user) then
              (Redirect "unauthorized", message ERROR msg_no_permission w)
            else
              view_func (set_user user request) w
        end
    end.

(** *** Authentication views *)

Definition msg_provide_both := "Please provide both email and password.".
Definition msg_invalid_credentials := "Invalid email or password.".
Definition msg_account_locked := "Your account is locked. Please contact an admin.".
Definition msg_now_locked :=
  "Your account has been locked due to too many failed login attempts. Please contact an admin.".
Definition msg_attempt (n : Z) :=
  "Invalid email or password. Attempt " ++ pretty n ++ "/5.".

Definition login_view : View := fun request w =>
  if String.eqb (method request) "POST" then
    let email := POST request !! "email" in
    let password := POST request !! "password" in
    match email, password with
    | Some email, Some password =>
      if negb (Py.truthy (Some email)) || negb (Py.truthy (Some password)) then
        (Render "login.html", message ERROR msg_provide_both w)
      else
        match Db.get (has_email email) (users w) with
        | Db.DoesNotExist =>
            (Render "login.html", message ERROR msg_invalid_credentials w)
        | Db.MultipleObjectsReturned =>
            (Raise "MultipleObjectsReturned", w)
        | Db.Found user =>
            if negb (User.is_admin user) && User.is_locked user then
              (Render "login.html", message ERROR msg_account_locked w)
            else if verify_password password (User.password user) then
              let user := User.set_failed_login_attempts 0 user in
              let user := User.set_last_login (Some (now request)) user in
              let w := set_users (User_save (now request) user (users w)) w in
              let w := set_session (<["user_id" := uuid_str (User.id user)]> (session w)) w in
              let w := set_session (<["user_email" := User.email user]> (session w)) w in
              (Redirect "dashboard", message SUCCESS "Login successful!" w)
            else if negb (User.is_admin user) then
              let user :=
                User.set_failed_login_attempts (User.failed_login_attempts user + 1) user in
              if User.failed_login_attempts user >=? 5 then
                let user := User.set_is_locked true user in
                let w := set_users (User_save (now request) user (users w)) w in
                (Render "login.html", message ERROR msg_now_locked w)
              else
                let w := set_users (User_save (now request) user (users w)) w in
                (Render "login.html",
                 message ERROR (msg_attempt (User.failed_login_attempts user)) w)
            else
              (Render "login.html", message ERROR msg_invalid_credentials w)
        end
    | _, _ => (Render "login.html", message ERROR msg_provide_both w)
    end
  else
    (Render "login.html", w).

Definition logout_view : View := fun request w =>
  let user_id := session w !! "user_id" in
  let after (w : World) :=
    (Redirect "login", message SUCCESS "Logout successful!" (session_flush w)) in
  if Py.truthy user_id then
    match user_id ≫= uuid_parse with
    | None => after w                           (* ValueError, logged *)
    | Some uid =>
        match Db.get (has_id uid) (users w) with
        | Db.Found user =>
            let user := User.set_last_logout (Some (now request)) user in
            after (set_users (User_save (now request) user (users w)) w)
        | Db.DoesNotExist => after w            (* logged *)
        | Db.MultipleObjectsReturned => (Raise "MultipleObjectsReturned", w)
        end
    end
  else after w.

Definition dashboard_view : View := fun request w =>
  let user_id := session w !! "user_id" in
  if negb (Py.truthy user_id) then
    (Redirect "login", message ERROR "Please log in to access the dashboard." w)
  else
    let invalid :=
      (Redirect "login",
       session_flush (message ERROR "User not found. Please log in again." w)) in
    match user_id ≫= uuid_parse with
    | None => invalid
    | Some uid =>
        match Db.get (has_id uid) (users w) with
        | Db.DoesNotExist => invalid
        | Db.MultipleObjectsReturned => (Raise "MultipleObjectsReturned", w)
        | Db.Found user => (Render "dashboard.html", w)
        end
    end.

(** *** User management views *)

Definition msg_email_too_long := "Email address is too long (max 255 characters).".
Definition msg_password_too_long := "Password is too long (max 128 characters).".
Definition msg_email_invalid := "Please enter a valid email address.".
Definition msg_email_taken := "This email is already registered.".

(** [for error in password_errors: messages.error(request, error)] *)
Definition report_all (errors : list string) (w : World) : World :=
  fold_left (fun w e => message ERROR e w) errors w.

(** [User(email=..., password=..., first_name=..., last_name=...,
    is_active=True, is_admin=...)]: the other fields take the defaults of
    the model. *)
Definition new_user (request : Request) (email hashed first last : string)
    (admin : bool) : User.t :=
  User.mk (uuid4 request) email hashed (Some first) (Some last)
          (now request) (now request) true admin None None 0 false.

(** How the write of a user row can end without storing it.  The columns
    of [users] are [varchar(255)] for the e-mail, [varchar(128)] for the
    password hash and [varchar(30)] for each name; PostgreSQL refuses a
    longer value with a [DataError], which no view catches.  Before the row
    reaches the database, handing its values over can end in a
    [ValueError], which the three views that fill a row from the request
    catch; which rows that happens for is the parameter [save_refused].
    The other views save rows whose strings are stored already. *)
Inductive Refusal := ValueError | DataError.

Definition fits_columns (u : User.t) : bool :=
  (Py.len (User.email u) <=? 255) && (Py.len (User.password u) <=? 128) &&
  (Py.len (default "" (User.first_name u)) <=? 30) &&
  (Py.len (default "" (User.last_name u)) <=? 30).

Definition refusal (u : User.t) : option Refusal :=
  if save_refused u then Some ValueError
  else if negb (fits_columns u) then Some DataError
  else None.

(** [user.save()] of a fresh instance: an insert, refused when the primary
    key is taken. *)
Definition create_user (request : Request) (u : User.t) (w : World) : option World :=
  if Db.exists_ (has_id (User.id u)) (users w) then None
  else Some (set_users (Db.insert (User.set_updated_at (now request) u) (users w)) w).

(** The checks and the insertion that [register_view] and [add_user_view]
    share; they differ in the template, the admin flag, the two final
    messages and the redirect target. *)
Definition signup (template : string) (admin : bool) (ok_msg ok_target fail_msg : string)
    (request : Request) (w : World) : Response * World :=
  let email := POST request !! "email" in
  let password := POST request !! "password" in
  let first_name := default "" (POST request !! "first_name") in
  let last_name := default "" (POST request !! "last_name") in
  match email, password with
  | Some email, Some password =>
    if negb (Py.truthy (Some email)) || negb (Py.truthy (Some password)) then
      (Render template, message ERROR msg_provide_both w)
    else if Py.len email >? 255 then
      (Render template, message ERROR msg_email_too_long w)
    else if Py.len password >? 128 then
      (Render template, message ERROR msg_password_too_long w)
    else if negb (validate_email email) then
      (Render template, message ERROR msg_email_invalid w)
    else
      match Password.validate_password password with
      | (_ :: _) as password_errors =>
          (Render template, report_all password_errors w)
      | [] =>
          if Db.exists_ (has_email email) (users w) then
            (Render template, message ERROR msg_email_taken w)
          else
            let user :=
              new_user request email (hash_password password) first_name last_name admin in
            match refusal user with
            | Some ValueError => (Render template, message ERROR fail_msg w)
            | Some DataError => (Raise "DataError", w)
            | None =>
                match create_user request user w with
                | None => (Raise "IntegrityError", w)
                | Some w => (Redirect ok_target, message SUCCESS ok_msg w)
                end
            end
      end
  | _, _ => (Render template, message ERROR msg_provide_both w)
  end.

Definition register_view : View := fun request w =>
  if String.eqb (method request) "POST" then
    signup "register.html" false "Registration successful! Please log in." "login"
           "An error occurred while registering. Please try again."
           request w
  else (Render "register.html", w).

Definition add_user_view : View := admin_required (fun request w =>
  if String.eqb (method request) "POST" then
    signup "add_user.html" (bool_decide (POST request !! "is_admin" = Some "on"))
           "User added successfully!" "list_users"
           "An error occurred while adding the user. Please try again."
           request w
  else (Render "add_user.html", w)).

Definition list_users_view : View := admin_required (fun request w =>
  (Render "list_users.html", w)).

Definition delete_user_view (user_id : UUID) : View := admin_required (fun request w =>
  match Db.get (has_id user_id) (users w) with
  | Db.DoesNotExist => (Http404, w)
  | Db.MultipleObjectsReturned => (Raise "MultipleObjectsReturned", w)
  | Db.Found user =>
      if User.is_admin user then
        (Redirect "list_users", message ERROR "Admin users cannot be deleted." w)
      else if String.eqb (method request) "POST" then
        let w := set_users (Db.delete (has_id (User.id user)) (users w)) w in
        (Redirect "list_users", message SUCCESS "User deleted successfully!" w)
      else
        (Redirect "list_users",
         message WARNING "Invalid request method for deleting a user." w)
  end).

Definition update_user_view (user_id : UUID) : View := admin_required (fun request w =>
  match Db.get (has_id user_id) (users w) with
  | Db.DoesNotExist => (Http404, w)
  | Db.MultipleObjectsReturned => (Raise "MultipleObjectsReturned", w)
  | Db.Found user =>
    let page := Render "update_user.html" in
    if String.eqb (method request) "POST" then
      let email := POST request !! "email" in
      let password := POST request !! "password" in
      let new_password := POST request !! "new_password" in
      let first_name := default "" (POST request !! "first_name") in
      let last_name := default "" (POST request !! "last_name") in
      let is_admin := bool_decide (POST request !! "is_admin" = Some "on") in
      match email with
      | None => (page, message ERROR "Please provide an email address." w)
      | Some email =>
        if negb (Py.truthy (Some email)) then
          (page, message ERROR "Please provide an email address." w)
        else if Py.len email >? 255 then
          (page, message ERROR msg_email_too_long w)
        else if negb (validate_email email) then
          (page, message ERROR msg_email_invalid w)
        else if Db.exists_ (fun u => has_email email u && negb (has_id user_id u)) (users w) then
          (page, message ERROR msg_email_taken w)
        else
          let store (user : User.t) :=
            let user := User.set_email email user in
            let user := User.set_first_name (Some first_name) user in
            let user := User.set_last_name (Some last_name) user in
            let user := User.set_is_admin is_admin user in
            match refusal user with
            | Some ValueError =>
                (page, message ERROR
                   "An error occurred while updating the user. Please try again." w)
            | Some DataError => (Raise "DataError", w)
            | None =>
                let w := set_users (User_save (now request) user (users w)) w in
                (Redirect "list_users", message SUCCESS "User updated successfully!" w)
            end in
          match new_password with
          | Some new_pw =>
            if Py.truthy (Some new_pw) then
              if negb (Py.truthy password) then
                (page, message ERROR
                   "Please provide the current password to change the password." w)
              else if negb (verify_password (default "" password) (User.password user)) then
                (page, message ERROR "Current password is incorrect." w)
              else if Py.len new_pw >? 128 then
                (page, message ERROR "New password is too long (max 128 characters)." w)
              else
                match Password.validate_password new_pw with
                | (_ :: _) as password_errors => (page, report_all password_errors w)
                | [] => store (User.set_password (hash_password new_pw) user)
                end
            else store user
          | None => store user
          end
      end
    else (page, w)
  end).

Definition toggle_lock_user (user_id : UUID) : View := admin_required (fun request w =>
  match Db.get (has_id user_id) (users w) with
  | Db.DoesNotExist => (Http404, w)
  | Db.MultipleObjectsReturned => (Raise "MultipleObjectsReturned", w)
  | Db.Found user =>
      if String.eqb (method request) "POST" then
        let is_locked := bool_decide (POST request !! "is_locked" = Some "on") in
        let user := User.set_is_locked is_locked user in
        let user := User.set_failed_login_attempts 0 user in
        let w := set_users (User_save (now request) user (users w)) w in
        let status := if is_locked then "locked" else "unlocked" in
        (Redirect "list_users",
         message SUCCESS ("User " ++ User.email user ++ " has been " ++ status ++ ".") w)
      else
        (Redirect "list_users",
         message WARNING "Invalid request method for toggling user lock status." w)
  end).

(** *** forms.py: [LearningPathForm] *)

Definition day : Z := 86400000000.

(** Midnight of the day a timestamp falls on.  It is both
    [datetime.combine(d, datetime.min.time())], which keeps the date of [d]
    and drops its time of day, and
    [now.replace(hour=0, minute=0, second=0, microsecond=0)]. *)
Definition midnight (t : Timestamp) : Timestamp := (t / day) * day.

Definition msg_start_after_end :=
  "Start date cannot be later than the estimated end date.".
Definition msg_start_in_past :=
  "Start date cannot be in the past for new learning paths.".

(** Truth value of [self.instance.pk]: a UUID object is always true, only
    [None] is false. *)
Definition pk_truthy (pk : option UUID) : bool :=
  match pk with Some _ => true | None => false end.

(** The date check of [LearningPathForm.clean]; [Some msg] is the
    [ValidationError] it raises.  Both cleaned values are [datetime]
    objects, and a [datetime] is an instance of [date], so the two
    [isinstance(..., date)] branches are taken and both values are replaced
    by the midnight of their day before they are compared. *)
Definition clean_dates (now_ : Timestamp) (instance_pk : option UUID)
    (start_date estimated_end_date : option Timestamp) : option string :=
  match start_date, estimated_end_date with
  | Some start_date, Some estimated_end_date =>
      let start_date := midnight start_date in
      let estimated_end_date := midnight estimated_end_date in
      if start_date >? estimated_end_date then Some msg_start_after_end
      else
        let today := midnight now_ in
        if (start_date <? today) && negb (pk_truthy instance_pk)
        then Some msg_start_in_past
        else None
  | _, _ => None
  end.

(** [cleaned_data.get(name)] *)
Definition cleaned {A} (f : FieldResult A) : option A :=
  match f with Cleaned v => Some v | Rejected _ => None end.

Definition field_errors {A} (name : string) (f : FieldResult A)
    : list (string * list string) :=
  match f with Cleaned _ => [] | Rejected es => [(name, es)] end.

(** [clean_required_duration], run on a value the field accepted. *)
Definition clean_required_duration (f : FieldResult string) : FieldResult string :=
  match f with
  | Cleaned v =>
      if Py.truthy (Some v) then Cleaned (Py.strip v)
      else Rejected ["Required duration is mandatory."]
  | Rejected es => Rejected es
  end.

(** [if x: x.strip() else: None] *)
Definition strip_or_none (x : option string) : option string :=
  if Py.truthy x then Py.strip <$> x else None.

Record CleanedData := mkCleaned {
  c_task_name : option string;
  c_start_date : option Timestamp;
  c_estimated_end_date : option Timestamp;
  c_required_duration : option string;
  c_used_leave : option string;
  c_notes : option string
}.

(** [form.errors] after [full_clean]: the errors of the fields in the order
    of [Meta.fields], then the error of [clean] under [__all__]. *)
Definition form_errors (now_ : Timestamp) (instance_pk : option UUID)
    (f : LearningPathFields) : list (string * list string) :=
  field_errors "task_name" (f_task_name f) ++
  field_errors "start_date" (f_start_date f) ++
  field_errors "estimated_end_date" (f_estimated_end_date f) ++
  field_errors "required_duration" (clean_required_duration (f_required_duration f)) ++
  field_errors "used_leave" (f_used_leave f) ++
  field_errors "notes" (f_notes f) ++
  match clean_dates now_ instance_pk
          (cleaned (f_start_date f)) (cleaned (f_estimated_end_date f)) with
  | Some e => [("__all__", [e])]
  | None => []
  end.

(** [form.is_valid()] *)
Definition is_valid (now_ : Timestamp) (instance_pk : option UUID)
    (f : LearningPathFields) : bool :=
  match form_errors now_ instance_pk f with [] => true | _ => false end.

(** [form.cleaned_data] of a form whose [clean] returned. *)
Definition cleaned_data (f : LearningPathFields) : CleanedData :=
  mkCleaned (cleaned (f_task_name f))
            (cleaned (f_start_date f))
            (cleaned (f_estimated_end_date f))
            (cleaned (clean_required_duration (f_required_duration f)))
            (strip_or_none (mjoin (cleaned (f_used_leave f))))
            (strip_or_none (mjoin (cleaned (f_notes f)))).

(** [construct_instance]: the six form fields are copied onto the instance,
    the other attributes are left as they are.  Only called on valid forms,
    where the four required values are present. *)
Definition construct_instance (d : CleanedData) (p : LearningPath.t) : LearningPath.t :=
  LearningPath.mk (LearningPath.id p) (LearningPath.student p)
    (default (LearningPath.task_name p) (c_task_name d))
    (default (LearningPath.start_date p) (c_start_date d))
    (default (LearningPath.estimated_end_date p) (c_estimated_end_date d))
    (c_used_leave d) (c_notes d)
    (default (LearningPath.required_duration p) (c_required_duration d))
    (LearningPath.is_completed p) (LearningPath.order p).

(** [for field, errors in form.errors.items(): for error in errors:
    messages.error(request, f"{field}: {error}")] *)
Definition report_form_errors (errors : list (string * list string)) (w : World) : World :=
  fold_left (fun w fe =>
    fold_left (fun w e => message ERROR (fst fe ++ ": " ++ e) w) (snd fe) w)
    errors w.

(** *** Learning path and student views *)

Definition has_path_id (i : UUID) (p : LearningPath.t) : bool :=
  N.eqb (LearningPath.id p) i.
Definition of_student (i : UUID) (p : LearningPath.t) : bool :=
  N.eqb (LearningPath.student p) i.
Definition has_student_id (i : UUID) (s : Student.t) : bool :=
  N.eqb (Student.id s) i.

(** [x or 0] for the result of an aggregate. *)
Definition or_zero (x : option Z) : Z :=
  match x with
  | None => 0
  | Some v => if v =? 0 then 0 else v
  end.

(** [existing_paths.aggregate(Max('order'))['order__max'] or 0] over
    [LearningPath.objects.filter(student=student)] *)
Definition max_order (student : UUID) (paths : list LearningPath.t) : Z :=
  let existing_paths := List.filter (of_student student) paths in
  or_zero (Db.max_of (List.map LearningPath.order existing_paths)).

(** [order] is a [PositiveIntegerField]: a 32-bit [integer] column with
    the check [order >= 0].  PostgreSQL refuses a value outside the 32-bit
    range with a [DataError] and a negative one with an [IntegrityError];
    the view catches neither. *)
Definition order_refusal (order : Z) : option string :=
  if (order >? 2147483647) || (order <? -2147483648) then Some "DataError"
  else if order <? 0 then Some "IntegrityError"
  else None.

(** How a write ends: with the new state, or with the exception the
    database raises. *)
Inductive Written :=
| Stored (w : World)
| Refused (exc : string).

(** [learning_path.save()] of a fresh instance: an insert, refused when the
    order does not fit its column or the primary key is taken. *)
Definition create_path (p : LearningPath.t) (w : World) : Written :=
  match order_refusal (LearningPath.order p) with
  | Some exc => Refused exc
  | None =>
      if Db.exists_ (has_path_id (LearningPath.id p)) (learning_paths w)
      then Refused "IntegrityError"
      else Stored (set_learning_paths (Db.insert p (learning_paths w)) w)
  end.

Definition manage_learning_paths : View := admin_required (fun request w =>
  (Render "manage_learning_paths.html", w)).

Definition add_learning_path (student_id : UUID) : View := admin_required (fun request w =>
  match Db.get (has_student_id student_id) (students w) with
  | Db.DoesNotExist => (Http404, w)
  | Db.MultipleObjectsReturned => (Raise "MultipleObjectsReturned", w)
  | Db.Found student =>
      if String.eqb (method request) "POST" then
        (* [LearningPathForm(request.POST)]: the form builds its own instance *)
        let instance := LearningPath.blank (uuid4 request) in
        let form := path_form request in
        if is_valid (now request) (Some (LearningPath.id instance)) form then
          let new_order := max_order (Student.id student) (learning_paths w) + 1 in
          let learning_path := construct_instance (cleaned_data form) instance in
          let learning_path := LearningPath.set_student (Student.id student) learning_path in
          let learning_path := LearningPath.set_order new_order learning_path in
          match create_path learning_path w with
          | Refused exc => (Raise exc, w)
          | Stored w =>
              (Redirect "dashboard",
               message SUCCESS
                 ("New learning path stage added to " ++ Student.first_name student
                  ++ " " ++ Student.last_name student ++ "!") w)
          end
        else
          (Render "add_learning_path.html",
           report_form_errors
             (form_errors (now request) (Some (LearningPath.id instance)) form) w)
      else (Render "add_learning_path.html", w)
  end).

Definition complete_learning_path (path_id : UUID) : View := admin_required (fun request w =>
  if String.eqb (method request) "POST" then
    match Db.get (has_path_id path_id) (learning_paths w) with
    | Db.DoesNotExist => (Http404, w)
    | Db.MultipleObjectsReturned => (Raise "MultipleObjectsReturned", w)
    | Db.Found path =>
        let path := LearningPath.set_is_completed true path in
        let w := set_learning_paths
                   (Db.save (has_path_id (LearningPath.id path)) path (learning_paths w)) w in
        (Redirect "dashboard", message SUCCESS "Learning path marked as completed!" w)
    end
  else
    (Redirect "dashboard",
     message WARNING "Invalid request method for completing a learning path." w)).

(** Decorated with [require_POST] only. *)
Definition delete_learning_path (path_id : UUID) : View := fun request w =>
  if String.eqb (method request) "POST" then
    match Db.get (has_path_id path_id) (learning_paths w) with
    | Db.DoesNotExist => (Http404, w)          (* Http404 is not caught by the handler *)
    | Db.MultipleObjectsReturned => (Raise "MultipleObjectsReturned", w)
    | Db.Found path =>
        let w := set_learning_paths
                   (Db.delete (has_path_id (LearningPath.id path)) (learning_paths w)) w in
        (JsonResponse 200 [("status", "success")],
         message SUCCESS "Learning path stage deleted successfully." w)
    end
  else (NotAllowed, w).

(** [form.errors.as_json()] is not rendered: the payload carries the
    messages themselves. *)
Definition errors_payload (errors : list (string * list string)) : list (string * string) :=
  ("status", "error") ::
  flat_map (fun fe => List.map (fun e => (fst fe, e)) (snd fe)) errors.

Definition update_learning_path (path_id : UUID) : View := admin_required (fun request w =>
  match Db.get (has_path_id path_id) (learning_paths w) with
  | Db.DoesNotExist => (Http404, w)
  | Db.MultipleObjectsReturned => (Raise "MultipleObjectsReturned", w)
  | Db.Found path =>
      if String.eqb (method request) "POST" then
        let form := path_form request in
        if is_valid (now request) (Some (LearningPath.id path)) form then
          let path := construct_instance (cleaned_data form) path in
          let w := set_learning_paths
                     (Db.save (has_path_id (LearningPath.id path)) path (learning_paths w)) w in
          (JsonResponse 200 [("status", "success")],
           message SUCCESS "Learning path stage updated successfully." w)
        else
          (JsonResponse 400
             (errors_payload (form_errors (now request) (Some (LearningPath.id path)) form)),
           w)
      else (Render "update_learning_path.html", w)
  end).

Definition list_student_view : View := admin_required (fun request w =>
  (Render "list_student.html", w)).

(** [student.delete()] removes the learning paths of the student with it
    ([on_delete=CASCADE]). *)
Definition delete_student_view (student_id : UUID) : View := admin_required (fun request w =>
  match Db.get (has_student_id student_id) (students w) with
  | Db.DoesNotExist => (Http404, w)
  | Db.MultipleObjectsReturned => (Raise "MultipleObjectsReturned", w)
  | Db.Found student =>
      if String.eqb (method request) "POST" then
        let w := set_learning_paths
                   (Db.delete (of_student (Student.id student)) (learning_paths w)) w in
        let w := set_students
                   (Db.delete (has_student_id (Student.id student)) (students w)) w in
        (Redirect "list_student", message SUCCESS "Student deleted successfully!" w)
      else
        (Redirect "list_student",
         message WARNING "Invalid request method for deleting a student." w)
  end).

Definition unauthorized_view : View := fun request w =>
  (Render "unauthorized.html", w).

(** *** urls.py

    The routes of the application, each with its path parameter.  The two
    routes [add-student/] and [update-student/] are left out: they write the
    students table and the media directory only. *)

Inductive Route :=
| login
| register
| logout
| dashboard
| add_user
| list_users
| delete_user (user_id : UUID)
| update_user (user_id : UUID)
| toggle_lock (user_id : UUID)
| list_student
| delete_student (student_id : UUID)
| manage_paths
| add_path (student_id : UUID)
| complete_path (path_id : UUID)
| unauthorized
| delete_path (path_id : UUID)
| update_path (path_id : UUID).

Definition dispatch (r : Route) : View :=
  match r with
  | login => login_view
  | register => register_view
  | logout => logout_view
  | dashboard => dashboard_view
  | add_user => add_user_view
  | list_users => list_users_view
  | delete_user i => delete_user_view i
  | update_user i => update_user_view i
  | toggle_lock i => toggle_lock_user i
  | list_student => list_student_view
  | delete_student i => delete_student_view i
  | manage_paths => manage_learning_paths
  | add_path i => add_learning_path i
  | complete_path i => complete_learning_path i
  | unauthorized => unauthorized_view
  | delete_path i => delete_learning_path i
  | update_path i => update_learning_path i
  end.

(** Requests served one after the other; the responses are dropped. *)
Fixpoint serve (calls : list (Route * Request)) (w : World) : World :=
  match calls with
  | [] => w
  | (r, request) :: rest => serve rest (snd (dispatch r request w))
  end.

(** The responses of a list of requests to one view, served in order. *)
Fixpoint responses (view : View) (requests : list Request) (w : World)
    : list Response :=
  match requests with
  | [] => []
  | request :: rest =>
      fst (view request w) :: responses view rest (snd (view request w))
  end.

Fixpoint after (view : View) (requests : list Request) (w : World) : World :=
  match requests with
  | [] => w
  | request :: rest => after view rest (snd (view request w))
  end.

End Views.

(** ** Requests in flight at the same time

    [add_learning_path] reads the largest order with one query and writes
    the new row with another; nothing ties the two together (no
    transaction, no lock, no uniqueness constraint in [models.py]).  Between
    the two statements of one request the statements of another request may
    run.  A call is at one of three points. *)

Inductive AddCall :=
| Reading (student : UUID) (instance : LearningPath.t)
| Saving (student : UUID) (instance : LearningPath.t) (new_order : Z)
| Finished.

(** One statement of a call: the aggregate query, then the insert (which
    the table refuses when the order is out of range or the primary key is
    taken). *)
Definition add_step (c : AddCall) (paths : list LearningPath.t)
    : AddCall * list LearningPath.t :=
  match c with
  | Reading student instance =>
      (Saving student instance (max_order student paths + 1), paths)
  | Saving student instance new_order =>
      let learning_path :=
        LearningPath.set_order new_order (LearningPath.set_student student instance) in
      (Finished,
       match order_refusal new_order with
       | Some _ => paths
       | None =>
           if Db.exists_ (has_path_id (LearningPath.id learning_path)) paths
           then paths else Db.insert learning_path paths
       end)
  | Finished => (Finished, paths)
  end.

(** A schedule names, statement by statement, the call that runs next. *)
Fixpoint run (schedule : list nat) (calls : list AddCall)
    (paths : list LearningPath.t) : list AddCall * list LearningPath.t :=
  match schedule with
  | [] => (calls, paths)
  | i :: rest =>
      match calls !! i with
      | None => run rest calls paths
      | Some c =>
          let (c', paths') := add_step c paths in
          run rest (<[i := c']> calls) paths'
      end
  end.

(** ** Properties of the stored data *)

(** [id] is the primary key of the users table. *)
Definition users_keyed (rows : list User.t) : Prop :=
  List.NoDup (List.map User.id rows).

(** The orders of the learning paths of one student, in table order. *)
Definition orders_of (student : UUID) (paths : list LearningPath.t) : list Z :=
  List.map LearningPath.order (List.filter (of_student student) paths).

(** No two learning paths of a student have the same order. *)
Definition orders_unique (paths : list LearningPath.t) : Prop :=
  forall student, List.NoDup (orders_of student paths).

(** [k] is the largest order among the learning paths of [student]. *)
Definition is_max_order (k : Z) (student : UUID) (paths : list LearningPath.t) : Prop :=
  In k (orders_of student paths) /\ forall j, In j (orders_of student paths) -> j <= k.

(** The session carries the id of a stored user. *)
Definition logged_in (uuid_parse : string -> option UUID) (u : User.t) (w : World) : Prop :=
  exists text,
    session w !! "user_id" = Some text /\ text <> "" /\
    uuid_parse text = Some (User.id u) /\
    Db.get (has_id (User.id u)) (users w) = Db.Found u.

(** A login form was posted with both fields filled in. *)
Definition credentials_posted (email password : string) (request : Request) : Prop :=
  method request = "POST" /\
  POST request !! "email" = Some email /\
  POST request !! "password" = Some password /\
  email <> "" /\ password <> "".

(** The row a successful login saves. *)
Definition logged (user : User.t) (t : Z) : User.t :=
  User.set_last_login (Some t) (User.set_failed_login_attempts 0 user).

(** The row a failed login of a non-admin saves. *)
Definition failed_once (user : User.t) : User.t :=
  User.set_failed_login_attempts (User.failed_login_attempts user + 1) user.

(** Every row after the request has the lock flag it had before, or is a
    newly created row, which is unlocked. *)
Definition lock_flags_kept (before after_ : list User.t) : Prop :=
  forall u', In u' after_ ->
    (exists u, In u before /\ User.id u = User.id u' /\
               User.is_locked u = User.is_locked u') \/
    (User.is_locked u' = false /\ forall u, In u before -> User.id u <> User.id u').

(** ** Properties the specification asks for, as propositions *)

(** A student whose largest order is [k] gets a stage with order [k + 1]
    from every request that [add_learning_path] lets through. *)
Definition next_order_always_stored (uuid_parse : string -> option UUID) : Prop :=
  forall student_id request w admin student k,
    logged_in uuid_parse admin w -> User.is_admin admin = true ->
    method request = "POST" ->
    Db.get (has_student_id student_id) (students w) = Db.Found student ->
    is_valid (now request) (Some (uuid4 request)) (path_form request) = true ->
    Db.exists_ (has_path_id (uuid4 request)) (learning_paths w) = false ->
    is_max_order k student_id (learning_paths w) ->
    exists added,
      In added (learning_paths (snd (add_learning_path uuid_parse student_id request w))) /\
      LearningPath.student added = student_id /\
      LearningPath.order added = k + 1.

Definition is_reading (c : AddCall) : Prop :=
  match c with Reading _ _ => True | _ => False end.

(** Orders stay unique whatever the order in which the statements of
    concurrent [add_learning_path] calls reach the database. *)
Definition orders_unique_under_any_schedule : Prop :=
  forall schedule calls paths,
    orders_unique paths -> Forall is_reading calls ->
    orders_unique (snd (run schedule calls paths)).

(** A wrong password draws the same messages whether or not a user has the
    submitted address. *)
Definition login_reveals_nothing
    (verify_password : string -> string -> bool) (uuid_str : UUID -> string) : Prop :=
  forall request email password absent present user,
    credentials_posted email password request ->
    flash absent = flash present ->
    Db.get (has_email email) (users absent) = Db.DoesNotExist ->
    Db.get (has_email email) (users present) = Db.Found user ->
    verify_password password (User.password user) = false ->
    flash (snd (login_view verify_password uuid_str request present))
      = flash (snd (login_view verify_password uuid_str request absent)).

(** The account with address [email] and id [uid] is stored, once, in a
    table keyed by id; it is not an admin and it is locked. *)
Definition locked_out (email : string) (uid : UUID) (rows : list User.t) : Prop :=
  users_keyed rows /\
  exists u, Db.get (has_email email) rows = Db.Found u /\ User.id u = uid /\
            User.is_admin u = false /\ User.is_locked u = true.

(** The routes on which an admin edits or removes the account [uid]. *)
Definition edits_account (uid : UUID) (r : Route) : Prop :=
  r = toggle_lock uid \/ r = update_user uid \/ r = delete_user uid.

(** A locked account that is not an admin is turned away at login for as
    long as no request to the lock toggle has been served. *)
Definition locked_until_toggle
    (verify_password : string -> string -> bool) (hash_password : string -> string)
    (uuid_parse : string -> option UUID) (uuid_str : UUID -> string)
    (validate_email : string -> bool) (save_refused : User.t -> bool) : Prop :=
  forall calls w email user attempt,
    users_keyed (users w) ->
    Db.get (has_email email) (users w) = Db.Found user ->
    User.is_admin user = false -> User.is_locked user = true ->
    Forall (fun call : Route * Request => forall i, fst call <> toggle_lock i) calls ->
    POST attempt !! "email" = Some email ->
    fst (login_view verify_password uuid_str attempt
           (serve verify_password hash_password uuid_parse uuid_str validate_email
              save_refused calls w))
      = Render "login.html".

(** ** Concrete collaborators and data for the examples

    A stand-in hasher (the hash is the password behind a fixed prefix), the
    canonical text form of a UUID (32 hexadecimal digits in groups of
    8-4-4-4-12), and an e-mail check that asks for an at sign. *)

Module Sample.

Definition hash_password (password : string) : string :=
  "pbkdf2_sha256$" ++ password.

Definition verify_password (password hashed : string) : bool :=
  String.eqb (hash_password password) hashed.

Definition validate_email (email : string) : bool := Py.contains "@" email.

(** A row is refused with a [ValueError] when one of its names holds the
    character U+0000. *)
Definition save_refused (u : User.t) : bool :=
  Py.contains "000" (default "" (User.first_name u)) ||
  Py.contains "000" (default "" (User.last_name u)).

Definition hex_digit (c : ascii) : option N :=
  let n := N_of_ascii c in
  if ((48 <=? n) && (n <=? 57))%N then Some (n - 48)%N
  else if ((97 <=? n) && (n <=? 102))%N then Some (n - 87)%N
  else if ((65 <=? n) && (n <=? 70))%N then Some (n - 55)%N
  else None.

Fixpoint hex_value (acc : N) (s : string) : option N :=
  match s with
  | EmptyString => Some acc
  | String c r =>
      match hex_digit c with
      | Some d => hex_value (16 * acc + d)%N r
      | None => None
      end
  end.

Fixpoint without_dashes (s : string) : string :=
  match s with
  | EmptyString => EmptyString
  | String c r =>
      if Ascii.eqb c "-" then without_dashes r else String c (without_dashes r)
  end.

Definition uuid_parse (s : string) : option UUID :=
  let digits := without_dashes s in
  if Nat.eqb (String.length digits) 32 then hex_value 0 digits else None.

Definition hex_char (d : N) : ascii :=
  if (d <? 10)%N then ascii_of_N (48 + d) else ascii_of_N (87 + d).

(** The [k] lowest hexadecimal digits of [n], most significant first. *)
Fixpoint hex_digits (k : nat) (n : N) : string :=
  match k with
  | O => EmptyString
  | S k' => hex_digits k' (n / 16)%N ++ String (hex_char (n mod 16)%N) EmptyString
  end.

Definition uuid_str (u : UUID) : string :=
  let h := hex_digits 32 u in
  substring 0 8 h ++ "-" ++ substring 8 4 h ++ "-" ++ substring 12 4 h ++ "-"
  ++ substring 16 4 h ++ "-" ++ substring 20 12 h.

(** Sample rows, sessions and requests. *)

Definition hour : Z := 3600000000.

(** Day [d] at [h] o'clock. *)
Definition at_ (d h : Z) : Timestamp := d * day + h * hour.

Definition today : Z := 20000.

Definition ada : User.t :=
  User.mk 1 "ada@school.org" (hash_password "Abcdef1!") (Some "Ada") (Some "Lovelace")
          0 0 true true None None 0 false.

Definition bob (failed : Z) (locked : bool) : User.t :=
  User.mk 2 "bob@school.org" (hash_password "Secret12#") (Some "Bob") (Some "Builder")
          0 0 true false None None failed locked.

Definition sam : Student.t :=
  Student.mk 7 "S-001" "Sam" "Student" None 0 Student.cozmez.

Definition stage (id : UUID) (order : Z) : LearningPath.t :=
  LearningPath.mk id 7 "Reading list" (at_ today 9) (at_ (today + 14) 9)
                  None None "2 weeks" false order.

Definition signed_in (u : User.t) : gmap string string :=
  {[ "user_id" := uuid_str (User.id u) ]}.

Definition world (rows : list User.t) (paths : list LearningPath.t)
    (session : gmap string string) : World :=
  mkWorld rows [sam] paths session [].

Definition no_form : LearningPathFields :=
  mkFields (Rejected ["This field is required."]) (Rejected ["This field is required."])
           (Rejected ["This field is required."]) (Rejected ["This field is required."])
           (Cleaned None) (Cleaned None).

Definition stage_form (start_date estimated_end_date : Timestamp) : LearningPathFields :=
  mkFields (Cleaned "Reading list") (Cleaned start_date) (Cleaned estimated_end_date)
           (Cleaned "2 weeks") (Cleaned None) (Cleaned None).

Definition post (data : gmap string string) (form : LearningPathFields) : Request :=
  mkRequest "POST" data form None (at_ today 12) 99.

Definition credentials (email password : string) : gmap string string :=
  {[ "email" := email; "password" := password ]}.

Definition login_as (email password : string) : Request :=
  post (credentials email password) no_form.

End Sample.

(** ** More of forms.py and views.py *)

(** An uploaded file: its name and the chunks [photo.chunks()] yields. *)
Module UploadedFile.
Record t := mk { name : string; chunks : list string }.
End UploadedFile.

(** [os.path.join(a, b)] on POSIX paths. *)
Definition path_join (a b : string) : string :=
  if String.prefix "/" b then b
  else if String.eqb a "" || String.eqb (substring (String.length a - 1) 1 a) "/"
       then a ++ b
       else a ++ "/" ++ b.

(** [save_student_photo] as a function of its arguments: the relative path
    it returns, the path it opens with [wb+] and the bytes it writes there,
    chunk after chunk.  The file system is not modelled: making the
    directory or writing the file can fail, and the function then raises
    and returns nothing; and two path strings can name one file. *)
Record PhotoWrite := mkPhotoWrite {
  returned : string;
  opened : string;
  written : string
}.

Definition save_student_photo (MEDIA_ROOT : string) (student_id : string)
    (photo : UploadedFile.t) : PhotoWrite :=
  let filename := student_id ++ "_" ++ UploadedFile.name photo in
  let photo_path := path_join "student_photos" filename in
  let full_path := path_join MEDIA_ROOT photo_path in
  mkPhotoWrite photo_path full_path (String.concat "" (UploadedFile.chunks photo)).

(** ** Predicates of the further properties *)

(** The three tables of the application. *)
Definition tables (w : World) : list User.t * list Student.t * list LearningPath.t :=
  (users w, students w, learning_paths w).

(** The failed-login counter is between 0 and 5, and a row at 5 is locked. *)
Definition counter_in_range (u : User.t) : Prop :=
  0 <= User.failed_login_attempts u <= 5 /\
  (User.failed_login_attempts u = 5 -> User.is_locked u = true).

(** The keys of the tables: user ids, user e-mail addresses, student ids and
    learning path ids are each without repetition. *)
Definition tables_keyed (w : World) : Prop :=
  List.NoDup (List.map User.id (users w)) /\
  List.NoDup (List.map User.email (users w)) /\
  List.NoDup (List.map Student.id (students w)) /\
  List.NoDup (List.map LearningPath.id (learning_paths w)).

(** A property holds of every stored user. *)
Definition every_user (P : User.t -> Prop) (w : World) : Prop :=
  forall u, In u (users w) -> P u.

(** The two keys of the users table. *)
Definition user_keys (rows : list User.t) : Prop :=
  List.NoDup (List.map User.id rows) /\ List.NoDup (List.map User.email rows).

(** The requests a student's stages are added with: POSTs with valid forms
    and ids that are new to the table and differ from one another. *)
Definition accepted_additions (requests : list Request) (paths : list LearningPath.t)
    : Prop :=
  Forall (fun r => method r = "POST" /\
                   is_valid (now r) (Some (uuid4 r)) (path_form r) = true /\
                   Db.exists_ (has_path_id (uuid4 r)) paths = false) requests /\
  List.NoDup (List.map uuid4 requests).

(** ** Facts about queries *)

Section Queries.

Context {A : Type}.
Implicit Types (p : A -> bool) (rows : list A) (r : A).

Lemma get_Found_filter p rows r :
  Db.get p rows = Db.Found r <-> List.filter p rows = [r].
Proof.
  unfold Db.get. destruct (List.filter p rows) as [|x [|y l]]; split; intros H;
    try discriminate; congruence.
Qed.

Lemma get_Found_In p rows r :
  Db.get p rows = Db.Found r -> In r rows /\ p r = true.
Proof.
  intros H. apply get_Found_filter in H.
  apply List.filter_In. rewrite H. now left.
Qed.

Lemma get_Found_only p rows r x :
  Db.get p rows = Db.Found r -> In x rows -> p x = true -> x = r.
Proof.
  intros H Hx Hp. apply get_Found_filter in H.
  assert (Hin : In x (List.filter p rows)) by (apply List.filter_In; auto).
  rewrite H in Hin. destruct Hin as [<-|[]]; reflexivity.
Qed.

Lemma get_DoesNotExist p rows :
  Db.get p rows = Db.DoesNotExist <-> List.filter p rows = [].
Proof.
  unfold Db.get. destruct (List.filter p rows) as [|x [|y l]]; split; intros H;
    try discriminate; congruence.
Qed.

Lemma exists_In p rows r : In r rows -> p r = true -> Db.exists_ p rows = true.
Proof. intros. apply existsb_exists. eauto. Qed.

Lemma get_Found_exists p rows r :
  Db.get p rows = Db.Found r -> Db.exists_ p rows = true.
Proof. intros H. apply get_Found_In in H as [? ?]. eauto using exists_In. Qed.

(** A row of an updated table is an old row the update does not select, or
    the new row. *)
Lemma In_update p new rows x :
  In x (Db.update p new rows) -> (In x rows /\ p x = false) \/ x = new.
Proof.
  unfold Db.update. rewrite in_map_iff. intros (y & Hy & Hin).
  destruct (p y) eqn:E; [right; congruence | left; subst; auto].
Qed.

Lemma In_save p new rows x :
  In x (Db.save p new rows) -> (In x rows /\ p x = false) \/ x = new.
Proof.
  unfold Db.save. destruct (Db.exists_ p rows) eqn:E.
  - apply In_update.
  - unfold Db.insert. rewrite in_app_iff. intros [H|[<-|[]]]; [left|right; auto].
    split; [assumption|].
    destruct (p x) eqn:Px; [|reflexivity].
    rewrite (exists_In p rows x H Px) in E. discriminate.
Qed.

Lemma update_keeps p new rows x :
  In x rows -> p x = false -> In x (Db.update p new rows).
Proof.
  intros Hin Hp. unfold Db.update. apply in_map_iff. exists x. now rewrite Hp.
Qed.

Lemma update_puts p new rows r :
  In r rows -> p r = true -> In new (Db.update p new rows).
Proof.
  intros Hin Hp. unfold Db.update. apply in_map_iff. exists r. now rewrite Hp.
Qed.

(** A projection the update respects is unchanged on the whole table. *)
Lemma map_update {B} (f : A -> B) p new rows :
  (forall x, In x rows -> p x = true -> f new = f x) ->
  List.map f (Db.update p new rows) = List.map f rows.
Proof.
  intros H. unfold Db.update. rewrite List.map_map. apply List.map_ext_in.
  intros x Hx. destruct (p x) eqn:E; auto.
Qed.

Lemma In_delete p rows x : In x (Db.delete p rows) <-> In x rows /\ p x = false.
Proof.
  unfold Db.delete. rewrite List.filter_In. now rewrite negb_true_iff.
Qed.

End Queries.

(** ** Facts about the users table *)

Lemma truthy_Some s : s <> "" -> Py.truthy (Some s) = true.
Proof. intros H. unfold Py.truthy. apply String.eqb_neq in H. now rewrite H. Qed.

Lemma has_id_true i u : has_id i u = true <-> User.id u = i.
Proof. unfold has_id. apply N.eqb_eq. Qed.

Lemma has_id_false i u : has_id i u = false <-> User.id u <> i.
Proof. unfold has_id. apply N.eqb_neq. Qed.

Lemma keyed_same_id rows a b :
  users_keyed rows -> In a rows -> In b rows -> User.id a = User.id b -> a = b.
Proof.
  unfold users_keyed. induction rows as [|x rows IH]; simpl; [tauto|].
  intros Hnd Ha Hb Heq. inversion Hnd as [|? ? Hnotin Hnd']; subst.
  destruct Ha as [->|Ha], Hb as [->|Hb]; auto.
  - exfalso. apply Hnotin. rewrite Heq. now apply List.in_map.
  - exfalso. apply Hnotin. rewrite <- Heq. now apply List.in_map.
Qed.

Lemma filter_map_commute {A} (q : A -> bool) (g : A -> A) rows :
  (forall x, In x rows -> q (g x) = q x) ->
  List.filter q (List.map g rows) = List.map g (List.filter q rows).
Proof.
  induction rows as [|x rows IH]; simpl; intros H; [reflexivity|].
  rewrite (H x) by now left.
  destruct (q x); simpl; rewrite IH; auto.
Qed.

Lemma filter_none {A} (p : A -> bool) rows :
  (forall x, In x rows -> p x = false) -> List.filter p rows = [].
Proof.
  induction rows as [|x rows IH]; simpl; intros H; [reflexivity|].
  rewrite (H x) by now left. apply IH. intros y Hy. apply H. now right.
Qed.

Section SavingAUser.

Variables (rows : list User.t) (u new : User.t) (t : Z).
Hypothesis keyed : users_keyed rows.
Hypothesis stored : In u rows.
Hypothesis same_id : User.id new = User.id u.

Let saved := User.set_updated_at t new.

Lemma User_save_is_update :
  User_save t new rows = Db.update (has_id (User.id u)) saved rows.
Proof.
  unfold User_save, Db.save. rewrite same_id.
  rewrite (exists_In _ _ u stored); [reflexivity|]. now apply has_id_true.
Qed.

Lemma User_save_ids : List.map User.id (User_save t new rows) = List.map User.id rows.
Proof.
  rewrite User_save_is_update. apply map_update.
  intros x _ Hx. apply has_id_true in Hx. simpl. congruence.
Qed.

Lemma User_save_keyed : users_keyed (User_save t new rows).
Proof. unfold users_keyed. now rewrite User_save_ids. Qed.

(** The rows of the table after the save: the saved row and the rows with
    another id, which are as they were. *)
Lemma In_User_save x :
  In x (User_save t new rows) <->
  x = saved \/ (In x rows /\ User.id x <> User.id u).
Proof.
  rewrite User_save_is_update. split.
  - intros H. apply In_update in H as [[H1 H2]|H]; [right|left; auto].
    split; [auto|]. now apply has_id_false.
  - intros [->|[H1 H2]].
    + apply (update_puts _ _ _ u stored). now apply has_id_true.
    + apply update_keeps; [auto|]. now apply has_id_false.
Qed.

(** A query that sees the old row alone sees the saved row alone, when it
    cannot tell the two apart. *)
Lemma get_after_User_save (q : User.t -> bool) :
  Db.get q rows = Db.Found u -> q saved = q u ->
  Db.get q (User_save t new rows) = Db.Found saved.
Proof.
  intros Hget Hq. rewrite User_save_is_update. apply get_Found_filter.
  apply get_Found_filter in Hget. unfold Db.update.
  rewrite filter_map_commute.
  - rewrite Hget. simpl. replace (has_id (User.id u) u) with true; [reflexivity|].
    symmetry. now apply has_id_true.
  - intros x Hx. destruct (has_id (User.id u) x) eqn:E; [|reflexivity].
    apply has_id_true in E.
    rewrite (keyed_same_id rows x u keyed Hx stored E). exact Hq.
Qed.

Lemma get_id_after_User_save :
  Db.get (has_id (User.id u)) (User_save t new rows) = Db.Found saved.
Proof.
  apply get_after_User_save.
  - apply get_Found_filter.
    assert (H : forall l, List.NoDup (List.map User.id l) -> In u l ->
                List.filter (has_id (User.id u)) l = [u]).
    { clear. induction l as [|x l IH]; simpl; [tauto|].
      intros Hnd Hin. inversion Hnd as [|? ? Hnotin Hnd']; subst.
      destruct Hin as [->|Hin].
      - replace (has_id (User.id u) u) with true
          by (symmetry; now apply has_id_true).
        f_equal. apply filter_none. intros y Hy. apply has_id_false.
        intros E. apply Hnotin. rewrite <- E. now apply List.in_map.
      - destruct (has_id (User.id u) x) eqn:E; [|auto].
        apply has_id_true in E. exfalso. apply Hnotin. rewrite E.
        now apply List.in_map. }
    now apply H.
  - unfold has_id. simpl. now rewrite same_id.
Qed.

End SavingAUser.

(** ** The login view, case by case *)

Section LoginCases.

Variable verify_password : string -> string -> bool.
Variable uuid_str : UUID -> string.

(** A POST that lacks the address or the password, or has one of them
    empty, is answered before any user is looked up and writes nothing. *)
Lemma login_incomplete request w :
  method request = "POST" ->
  Py.truthy (POST request !! "email") = false \/
  Py.truthy (POST request !! "password") = false ->
  login_view verify_password uuid_str request w =
    (Render "login.html", message ERROR msg_provide_both w).
Proof.
  intros Hm Hmissing. unfold login_view. rewrite Hm, String.eqb_refl.
  destruct (POST request !! "email") as [e|]; [|reflexivity].
  destruct (POST request !! "password") as [p|]; [|reflexivity].
  destruct Hmissing as [-> | ->]; [reflexivity|].
  now rewrite orb_true_r.
Qed.

Variables (request : Request) (w : World) (email password : string).
Hypothesis posted : credentials_posted email password request.

Ltac enter :=
  destruct posted as (Hm & He & Hp & Hne & Hnp);
  unfold login_view;
  rewrite Hm, He, Hp, String.eqb_refl, !truthy_Some by assumption;
  cbn [negb orb].

Lemma login_unknown_email :
  Db.get (has_email email) (users w) = Db.DoesNotExist ->
  login_view verify_password uuid_str request w =
    (Render "login.html", message ERROR msg_invalid_credentials w).
Proof. intros Hget. enter. now rewrite Hget. Qed.

Variable user : User.t.
Hypothesis found : Db.get (has_email email) (users w) = Db.Found user.

Lemma login_locked_out :
  User.is_admin user = false -> User.is_locked user = true ->
  login_view verify_password uuid_str request w =
    (Render "login.html", message ERROR msg_account_locked w).
Proof. intros Ha Hl. enter. now rewrite found, Ha, Hl. Qed.

Lemma login_success :
  User.is_admin user = true \/ User.is_locked user = false ->
  verify_password password (User.password user) = true ->
  login_view verify_password uuid_str request w =
    (Redirect "dashboard",
     message SUCCESS "Login successful!"
       (set_session
          (<["user_email" := User.email user]>
             (<["user_id" := uuid_str (User.id user)]> (session w)))
          (set_users (User_save (now request) (logged user (now request)) (users w)) w))).
Proof.
  intros Hor Hv. enter. rewrite found, Hv.
  replace (negb (User.is_admin user) && User.is_locked user) with false
    by (destruct Hor as [-> | ->]; [reflexivity | now rewrite andb_false_r]).
  reflexivity.
Qed.

Lemma login_failure_admin :
  User.is_admin user = true ->
  verify_password password (User.password user) = false ->
  login_view verify_password uuid_str request w =
    (Render "login.html", message ERROR msg_invalid_credentials w).
Proof. intros Ha Hv. enter. now rewrite found, Hv, Ha. Qed.

Lemma login_failure_counted :
  User.is_admin user = false -> User.is_locked user = false ->
  verify_password password (User.password user) = false ->
  User.failed_login_attempts user + 1 < 5 ->
  login_view verify_password uuid_str request w =
    (Render "login.html",
     message ERROR (msg_attempt (User.failed_login_attempts user + 1))
       (set_users (User_save (now request) (failed_once user) (users w)) w)).
Proof.
  intros Ha Hl Hv Hlt. enter. rewrite found, Hv, Ha, Hl. cbn [negb andb].
  cbn [User.failed_login_attempts User.set_failed_login_attempts].
  replace (User.failed_login_attempts user + 1 >=? 5) with false
    by (symmetry; rewrite Z.geb_leb; apply Z.leb_gt; lia).
  reflexivity.
Qed.

Lemma login_failure_locks :
  User.is_admin user = false -> User.is_locked user = false ->
  verify_password password (User.password user) = false ->
  5 <= User.failed_login_attempts user + 1 ->
  login_view verify_password uuid_str request w =
    (Render "login.html",
     message ERROR msg_now_locked
       (set_users
          (User_save (now request) (User.set_is_locked true (failed_once user)) (users w)) w)).
Proof.
  intros Ha Hl Hv Hge. enter. rewrite found, Hv, Ha, Hl. cbn [negb andb].
  cbn [User.failed_login_attempts User.set_failed_login_attempts].
  replace (User.failed_login_attempts user + 1 >=? 5) with true
    by (symmetry; rewrite Z.geb_leb; apply Z.leb_le; lia).
  reflexivity.
Qed.

End LoginCases.

(** ** Lockout *)

Section Lockout.

Variable uuid_str : UUID -> string.

(** A locked non-admin account is turned away whatever is submitted for its
    e-mail address and whatever the password check would say. *)
Lemma locked_attempt verify request w email user :
  POST request !! "email" = Some email ->
  Db.get (has_email email) (users w) = Db.Found user ->
  User.is_admin user = false -> User.is_locked user = true ->
  fst (login_view verify uuid_str request w) = Render "login.html" /\
  users (snd (login_view verify uuid_str request w)) = users w /\
  session (snd (login_view verify uuid_str request w)) = session w.
Proof.
  intros He Hget Ha Hl. unfold login_view. rewrite He.
  destruct (String.eqb (method request) "POST"); [|auto].
  destruct (POST request !! "password") as [p|]; [|auto].
  destruct (negb (Py.truthy (Some email)) || negb (Py.truthy (Some p))); [auto|].
  rewrite Hget, Ha, Hl. auto.
Qed.

Lemma locked_attempts verify requests : forall w email user,
  Forall (fun request => POST request !! "email" = Some email) requests ->
  Db.get (has_email email) (users w) = Db.Found user ->
  User.is_admin user = false -> User.is_locked user = true ->
  Forall (eq (Render "login.html"))
         (responses (login_view verify uuid_str) requests w) /\
  users (after (login_view verify uuid_str) requests w) = users w /\
  session (after (login_view verify uuid_str) requests w) = session w.
Proof.
  induction requests as [|request rest IH]; intros w email user Hall Hget Ha Hl.
  - simpl. auto.
  - inversion Hall as [|? ? He Hrest]; subst.
    destruct (locked_attempt verify request w email user He Hget Ha Hl)
      as (Hr & Hu & Hs).
    cbn [responses after].
    destruct (IH (snd (login_view verify uuid_str request w)) email user Hrest)
      as (Hrs & Hus & Hss); try assumption.
    { now rewrite Hu. }
    split; [constructor; [now rewrite Hr | assumption]|].
    split; congruence.
Qed.

End Lockout.

(** ** The admin guard *)

Section Guard.

Variable uuid_parse : string -> option UUID.

Implicit Types (view : View) (request : Request) (w : World).

Lemma truthy_inv o : Py.truthy o = true -> exists s, o = Some s /\ s <> "".
Proof.
  destruct o as [s|]; simpl; [|discriminate].
  intros H. exists s. split; [reflexivity|].
  apply negb_true_iff in H. now apply String.eqb_neq.
Qed.

Lemma guard_anonymous view request w :
  Py.truthy (session w !! "user_id") = false ->
  admin_required uuid_parse view request w =
    (Redirect "login", message ERROR msg_please_log_in w).
Proof. intros H. unfold admin_required. now rewrite H. Qed.




Lemma guard_not_admin view request w user :
  logged_in uuid_parse user w -> User.is_admin user = false ->
  admin_required uuid_parse view request w =
    (Redirect "unauthorized", message ERROR msg_no_permission w).
Proof.
  intros (text & Hs & Hne & Hp & Hget) Ha. unfold admin_required.
  rewrite Hs, truthy_Some by assumption. simpl. now rewrite Hp, Hget, Ha.
Qed.

Lemma guard_admits view request w user :
  logged_in uuid_parse user w -> User.is_admin user = true ->
  admin_required uuid_parse view request w = view (set_user user request) w.
Proof.
  intros (text & Hs & Hne & Hp & Hget) Ha. unfold admin_required.
  rewrite Hs, truthy_Some by assumption. simpl. now rewrite Hp, Hget, Ha.
Qed.


(** When the session does not resolve to an admin, the guard answers by
    itself: the wrapped view plays no part, the tables are untouched and the
    session is either untouched or emptied. *)
Lemma guard_turns_away view request w :
  (forall user, logged_in uuid_parse user w -> User.is_admin user = false) ->
  let w' := snd (admin_required uuid_parse view request w) in
  (forall view',
     admin_required uuid_parse view' request w = admin_required uuid_parse view request w) /\
  users w' = users w /\ students w' = students w /\
  learning_paths w' = learning_paths w /\
  (session w' = session w \/ session w' = ∅).
Proof.
  intros Hno. unfold admin_required.
  destruct (Py.truthy (session w !! "user_id")) eqn:Ht; cbn [negb]; [|simpl; auto 10].
  apply truthy_inv in Ht as (text & Hs & Hne). rewrite Hs. simpl.
  destruct (uuid_parse text) as [uid|] eqn:Hp; [|simpl; auto 10].
  destruct (Db.get (has_id uid) (users w)) as [user| |] eqn:Hget;
    [|simpl; auto 10|simpl; auto 10].
  assert (Hid : User.id user = uid).
  { apply get_Found_In in Hget as [_ H]. now apply has_id_true. }
  rewrite (Hno user); [simpl; auto 10|].
  exists text. rewrite Hid. auto.
Qed.

(** [dashboard_view] resolves the session the same way: a user id that does
    not parse or matches no user empties the session, and the next request
    is answered as one without a session. *)
Lemma dashboard_flushes_invalid_session request w text :
  session w !! "user_id" = Some text -> text <> "" ->
  (uuid_parse text = None \/
   exists uid, uuid_parse text = Some uid /\
               Db.get (has_id uid) (users w) = Db.DoesNotExist) ->
  let w' := snd (dashboard_view uuid_parse request w) in
  fst (dashboard_view uuid_parse request w) = Redirect "login" /\
  session w' = ∅ /\
  forall request',
    dashboard_view uuid_parse request' w' =
      (Redirect "login", message ERROR "Please log in to access the dashboard." w').
Proof.
  intros Hs Hne Hbad. unfold dashboard_view at 1 2 3.
  rewrite Hs, truthy_Some by assumption. cbn [negb mbind option_bind].
  assert (E : match uuid_parse text with
              | Some uid =>
                  match Db.get (has_id uid) (users w) with
                  | Db.Found _ => (Render "dashboard.html", w)
                  | Db.DoesNotExist =>
                      (Redirect "login",
                       session_flush
                         (message ERROR "User not found. Please log in again." w))
                  | Db.MultipleObjectsReturned => (Raise "MultipleObjectsReturned", w)
                  end
              | None =>
                  (Redirect "login",
                   session_flush
                     (message ERROR "User not found. Please log in again." w))
              end
              = (Redirect "login",
                 session_flush (message ERROR "User not found. Please log in again." w))).
  { destruct Hbad as [->|(uid & -> & ->)]; reflexivity. }
  rewrite E. repeat split.
Qed.

End Guard.

(** ** What a login attempt does to the users table *)

Section LoginEffect.

Variable verify_password : string -> string -> bool.
Variable uuid_str : UUID -> string.

(** Either nothing is written, or the row found by e-mail is saved in one
    of three shapes. *)
Lemma login_users_effect request w :
  users (snd (login_view verify_password uuid_str request w)) = users w \/
  exists email user new,
    Db.get (has_email email) (users w) = Db.Found user /\
    users (snd (login_view verify_password uuid_str request w))
      = User_save (now request) new (users w) /\
    (new = logged user (now request) \/
     (User.is_admin user = false /\ User.is_locked user = false /\
      ((new = failed_once user /\ User.failed_login_attempts user + 1 < 5) \/
       (new = User.set_is_locked true (failed_once user) /\
        5 <= User.failed_login_attempts user + 1)))).
Proof.
  unfold login_view.
  destruct (String.eqb (method request) "POST"); [|now left].
  destruct (POST request !! "email") as [email|]; [|now left].
  destruct (POST request !! "password") as [password|]; [|now left].
  destruct (negb (Py.truthy (Some email)) || negb (Py.truthy (Some password)));
    [now left|].
  destruct (Db.get (has_email email) (users w)) as [user| |] eqn:Hget;
    [|now left|now left].
  destruct (User.is_admin user) eqn:Ha; cbn [negb andb].
  - destruct (verify_password password (User.password user)); [|now left].
    right. exists email, user, (logged user (now request)). auto.
  - destruct (User.is_locked user) eqn:Hl; [now left|].
    destruct (verify_password password (User.password user)).
    + right. exists email, user, (logged user (now request)). auto.
    + cbn [User.failed_login_attempts User.set_failed_login_attempts].
      destruct (User.failed_login_attempts user + 1 >=? 5) eqn:Hge;
        rewrite Z.geb_leb in Hge; right.
      * apply Z.leb_le in Hge.
        exists email, user, (User.set_is_locked true (failed_once user)). auto 10.
      * apply Z.leb_gt in Hge.
        exists email, user, (failed_once user). auto 10.
Qed.

(** A login attempt keeps the primary keys. *)
Lemma login_keeps_keys request w :
  users_keyed (users w) ->
  users_keyed (users (snd (login_view verify_password uuid_str request w))).
Proof.
  intros Hk. destruct (login_users_effect request w) as [->|(e & u & new & Hget & -> & Hnew)];
    [assumption|].
  apply get_Found_In in Hget as [Hin _].
  apply (User_save_keyed _ u); [assumption|assumption|].
  destruct Hnew as [->|(_ & _ & [[-> _]|[-> _]])]; reflexivity.
Qed.

(** One attempt, seen from an admin row: the row keeps its id, its admin
    flag and its lock flag; its counter stays or is reset to 0. *)
Lemma login_spares_admin request w admin :
  users_keyed (users w) -> In admin (users w) -> User.is_admin admin = true ->
  exists admin', In admin' (users (snd (login_view verify_password uuid_str request w))) /\
    User.id admin' = User.id admin /\ User.is_admin admin' = true /\
    User.is_locked admin' = User.is_locked admin /\
    (User.failed_login_attempts admin' = User.failed_login_attempts admin \/
     User.failed_login_attempts admin' = 0).
Proof.
  intros Hk Hin Ha.
  destruct (login_users_effect request w) as [->|(e & u & new & Hget & -> & Hnew)].
  { exists admin. auto 10. }
  apply get_Found_In in Hget as [Hu _].
  assert (Hid : User.id new = User.id u)
    by (destruct Hnew as [->|(_ & _ & [[-> _]|[-> _]])]; reflexivity).
  destruct (N.eq_dec (User.id admin) (User.id u)) as [E|E].
  - assert (admin = u) by (eapply keyed_same_id; eauto). subst u.
    destruct Hnew as [->|(Hna & _)]; [|congruence].
    exists (User.set_updated_at (now request) (logged admin (now request))).
    split; [apply (In_User_save _ admin); auto|].
    simpl. auto 10.
  - exists admin. split; [apply (In_User_save _ u); auto|]. auto 10.
Qed.

Lemma logins_spare_admin requests : forall w admin,
  users_keyed (users w) -> In admin (users w) -> User.is_admin admin = true ->
  exists admin', In admin' (users (after (login_view verify_password uuid_str) requests w)) /\
    User.id admin' = User.id admin /\ User.is_admin admin' = true /\
    User.is_locked admin' = User.is_locked admin /\
    (User.failed_login_attempts admin' = User.failed_login_attempts admin \/
     User.failed_login_attempts admin' = 0).
Proof.
  induction requests as [|request rest IH]; intros w admin Hk Hin Ha.
  - exists admin. simpl. auto 10.
  - cbn [after].
    destruct (login_spares_admin request w admin Hk Hin Ha)
      as (mid & Hmid & Hid & Hadm & Hlock & Hcount).
    destruct (IH _ mid (login_keeps_keys request w Hk) Hmid Hadm)
      as (final & Hfinal & Hid' & Hadm' & Hlock' & Hcount').
    exists final. repeat split; try congruence; try assumption.
    destruct Hcount' as [H|H]; [|now right].
    destruct Hcount as [H0|H0]; [left|right]; congruence.
Qed.

End LoginEffect.

(** ** The lock toggle and the other routes *)

Section LockFlag.

Variable verify_password : string -> string -> bool.
Variable hash_password : string -> string.
Variable uuid_parse : string -> option UUID.
Variable uuid_str : UUID -> string.
Variable validate_email : string -> bool.
Variable save_refused : User.t -> bool.

(** The guard either answers by itself and leaves the tables alone, or
    hands the request, with the admin attached, to the view. *)
Lemma guard_cases view request w :
  (users (snd (admin_required uuid_parse view request w)) = users w /\
   students (snd (admin_required uuid_parse view request w)) = students w /\
   learning_paths (snd (admin_required uuid_parse view request w)) = learning_paths w) \/
  (exists admin, User.is_admin admin = true /\
     admin_required uuid_parse view request w = view (set_user admin request) w).
Proof.
  unfold admin_required.
  destruct (negb (Py.truthy (session w !! "user_id"))); [left; auto|].
  destruct (session w !! "user_id" ≫= uuid_parse) as [uid|]; [|left; auto].
  destruct (Db.get (has_id uid) (users w)) as [user| |]; [|left; auto|left; auto].
  destruct (User.is_admin user) eqn:Ha; [|left; auto].
  right. exists user. auto.
Qed.

Lemma toggle_sets_lock admin target uid request w :
  logged_in uuid_parse admin w -> User.is_admin admin = true ->
  method request = "POST" ->
  users_keyed (users w) ->
  Db.get (has_id uid) (users w) = Db.Found target ->
  let requested := bool_decide (POST request !! "is_locked" = Some "on") in
  let saved :=
    User.set_updated_at (now request)
      (User.set_failed_login_attempts 0 (User.set_is_locked requested target)) in
  exists w',
    toggle_lock_user uuid_parse uid request w = (Redirect "list_users", w') /\
    Db.get (has_id uid) (users w') = Db.Found saved /\
    User.is_locked saved = requested /\
    User.failed_login_attempts saved = 0.
Proof.
  intros Hlog Ha Hm Hk Hget requested saved.
  unfold toggle_lock_user. rewrite (guard_admits _ _ _ _ admin Hlog Ha).
  rewrite Hget. cbn [method set_user]. rewrite Hm, String.eqb_refl.
  eexists. split; [reflexivity|]. split; [|auto].
  cbn [users message set_users].
  pose proof (get_Found_In _ _ _ Hget) as [Hin Hid]. apply has_id_true in Hid.
  subst uid.
  apply (get_id_after_User_save (users w) target
           (User.set_failed_login_attempts 0 (User.set_is_locked requested target))
           (now request) Hk Hin eq_refl).
Qed.

End LockFlag.

(** ** Lock flags under the routes that are neither login nor the toggle *)

Lemma kept_same rows : lock_flags_kept rows rows.
Proof. intros u' H. left. exists u'. auto. Qed.

Lemma kept_delete p rows : lock_flags_kept rows (Db.delete p rows).
Proof. intros u' H. apply In_delete in H as [H _]. left. exists u'. auto. Qed.

Lemma kept_save rows user new t :
  In user rows -> User.id new = User.id user ->
  User.is_locked new = User.is_locked user ->
  lock_flags_kept rows (User_save t new rows).
Proof.
  intros Hin Hid Hl u' H. left.
  apply (In_User_save rows user new t Hin Hid) in H as [->|[H _]].
  - exists user. simpl. auto.
  - exists u'. auto.
Qed.

Lemma users_report_all errors : forall w, users (report_all errors w) = users w.
Proof.
  unfold report_all. induction errors as [|e errors IH]; intros w; simpl; [reflexivity|].
  now rewrite IH.
Qed.

Lemma users_report_form_errors errors : forall w,
  users (report_form_errors errors w) = users w.
Proof.
  unfold report_form_errors.
  induction errors as [|[field es] errors IH]; intros w; simpl; [reflexivity|].
  rewrite IH. clear IH. revert w.
  induction es as [|e es IH]; intros w; simpl; [reflexivity|]. now rewrite IH.
Qed.

Lemma kept_signup hash_password validate_email save_refused template admin ok_msg
    ok_target fail_msg request w :
  lock_flags_kept (users w)
    (users (snd (signup hash_password validate_email save_refused template admin ok_msg
                   ok_target fail_msg request w))).
Proof.
  unfold signup.
  repeat match goal with
         | |- context [match ?x with _ => _ end] => destruct x eqn:?
         end;
    cbn [snd users message]; rewrite ?users_report_all; try apply kept_same.
  match goal with H : create_user _ _ _ = Some _ |- _ =>
    unfold create_user in H;
    destruct (Db.exists_ _ _) eqn:Hex in H; [discriminate|];
    injection H as <- end.
  cbn [users set_users]. intros u' Hin. unfold Db.insert in Hin.
  apply in_app_iff in Hin as [Hin|[<-|[]]]; [left; exists u'; auto|].
  right. split; [reflexivity|].
  intros u Hu E.
  match goal with Hex : Db.exists_ ?p _ = false |- _ =>
    rewrite (exists_In p _ u Hu) in Hex; [discriminate | now apply has_id_true]
  end.
Qed.

Section Routes.

Variable verify_password : string -> string -> bool.
Variable hash_password : string -> string.
Variable uuid_parse : string -> option UUID.
Variable uuid_str : UUID -> string.
Variable validate_email : string -> bool.
Variable save_refused : User.t -> bool.

Local Abbreviation handle :=
  (dispatch verify_password hash_password uuid_parse uuid_str validate_email save_refused).

Ltac through_guard :=
  match goal with
  | |- context [admin_required ?parse ?view ?request ?w] =>
      let Hu := fresh "Hu" in
      let admin := fresh "admin" in
      let Ha := fresh "Ha" in
      let Hrun := fresh "Hrun" in
      destruct (guard_cases parse view request w) as [(Hu & _ & _)|(admin & Ha & Hrun)];
      [rewrite Hu; apply kept_same | rewrite Hrun; clear Hrun]
  end.

Ltac split_cases :=
  repeat match goal with
         | |- context [match ?x with _ => _ end] => destruct x eqn:?
         end.

Lemma routes_keep_lock_flags route request w :
  route <> login -> (forall i, route <> toggle_lock i) ->
  lock_flags_kept (users w) (users (snd (handle route request w))).
Proof.
  intros Hlogin Htoggle.
  destruct route; cbn [dispatch]; try congruence;
    try (exfalso; eapply Htoggle; reflexivity).
  - (* register *)
    unfold register_view. destruct (String.eqb _ _); [apply kept_signup|apply kept_same].
  - (* logout *)
    unfold logout_view. split_cases; cbn [snd users message session_flush set_session set_users];
      try apply kept_same.
    match goal with H : Db.get _ _ = Db.Found ?u |- _ =>
      apply get_Found_In in H as [Hin _];
      apply (kept_save _ u); [assumption|reflexivity|reflexivity] end.
  - (* dashboard *)
    unfold dashboard_view. split_cases; apply kept_same.
  - (* add_user *)
    unfold add_user_view. through_guard.
    destruct (String.eqb _ _); [apply kept_signup|apply kept_same].
  - (* list_users *)
    unfold list_users_view. through_guard. apply kept_same.
  - (* delete_user *)
    unfold delete_user_view. through_guard.
    split_cases; cbn [snd users message set_users]; try apply kept_same.
    apply kept_delete.
  - (* update_user *)
    unfold update_user_view. through_guard.
    split_cases; cbn [snd users message set_users]; rewrite ?users_report_all;
      try apply kept_same;
      match goal with H : Db.get _ _ = Db.Found ?u |- _ =>
        apply get_Found_In in H as [Hin _];
        apply (kept_save _ u); [assumption|reflexivity|reflexivity] end.
  - (* list_student *)
    unfold list_student_view. through_guard. apply kept_same.
  - (* delete_student *)
    unfold delete_student_view. through_guard. split_cases; apply kept_same.
  - (* manage_paths *)
    unfold manage_learning_paths. through_guard. apply kept_same.
  - (* add_path *)
    unfold add_learning_path. through_guard.
    split_cases; cbn [snd users message]; try apply kept_same.
    + match goal with H : create_path _ _ = Stored _ |- _ =>
        unfold create_path in H; destruct (order_refusal _) in H; [discriminate|];
        destruct (Db.exists_ _ _) in H; [discriminate|];
        injection H as <- end.
      apply kept_same.
    + rewrite users_report_form_errors. apply kept_same.
  - (* complete_path *)
    unfold complete_learning_path. through_guard. split_cases; apply kept_same.
  - (* unauthorized *)
    apply kept_same.
  - (* delete_path *)
    unfold delete_learning_path. split_cases; apply kept_same.
  - (* update_path *)
    unfold update_learning_path. through_guard. split_cases; apply kept_same.
Qed.

End Routes.

(** ** Claims about accounts *)

Section Accounts.

Variable verify_password : string -> string -> bool.
Variable hash_password : string -> string.
Variable uuid_parse : string -> option UUID.
Variable uuid_str : UUID -> string.
Variable validate_email : string -> bool.
Variable save_refused : User.t -> bool.

(** A login attempt changes a lock flag in one way only: the automatic
    lockout of a non-admin whose counter reaches 5. *)
Lemma login_locks_by_lockout_only request w u' :
  users_keyed (users w) ->
  In u' (users (snd (login_view verify_password uuid_str request w))) ->
  exists u, In u (users w) /\ User.id u = User.id u' /\
    (User.is_locked u = User.is_locked u' \/
     (User.is_admin u = false /\ User.is_locked u = false /\
      User.is_locked u' = true /\
      User.failed_login_attempts u' = User.failed_login_attempts u + 1 /\
      5 <= User.failed_login_attempts u')).
Proof.
  intros Hk Hin.
  destruct (login_users_effect verify_password uuid_str request w)
    as [E|(e & u & new & Hget & E & Hnew)]; rewrite E in Hin.
  { exists u'. auto. }
  apply get_Found_In in Hget as [Hu _].
  assert (Hid : User.id new = User.id u)
    by (destruct Hnew as [->|(_ & _ & [[-> _]|[-> _]])]; reflexivity).
  apply (In_User_save (users w) u new (now request) Hu Hid) in Hin as [->|[Hin _]].
  - exists u. split; [assumption|].
    destruct Hnew as [->|(Ha & Hl & [[-> _]|[-> Hge]])]; simpl; auto 10.
  - exists u'. auto.
Qed.

(** C10. An admin whose lock flag is set still logs in with the right
    password: the lock check is for non-admin accounts only.  The response
    is the redirect to the dashboard, the session carries the id and the
    e-mail of the admin, and the stored row has its counter at 0 and
    [last_login] at the time of the request; the lock flag stays set. *)
Theorem locked_admin_logs_in request w email password admin :
  credentials_posted email password request ->
  users_keyed (users w) ->
  Db.get (has_email email) (users w) = Db.Found admin ->
  User.is_admin admin = true ->
  User.is_locked admin = true ->
  verify_password password (User.password admin) = true ->
  exists w' admin',
    login_view verify_password uuid_str request w = (Redirect "dashboard", w') /\
    session w' !! "user_id" = Some (uuid_str (User.id admin)) /\
    session w' !! "user_email" = Some (User.email admin) /\
    Db.get (has_email email) (users w') = Db.Found admin' /\
    User.id admin' = User.id admin /\
    User.failed_login_attempts admin' = 0 /\
    User.last_login admin' = Some (now request) /\
    User.is_locked admin' = true.
Proof.
  intros Hposted Hk Hget Ha Hl Hv.
  rewrite (login_success verify_password uuid_str request w email password Hposted
             admin Hget (or_introl Ha) Hv).
  eexists. exists (User.set_updated_at (now request) (logged admin (now request))).
  split; [reflexivity|].
  cbn [session users message set_session set_users].
  split; [now rewrite lookup_insert_ne, lookup_insert_eq|].
  split; [now rewrite lookup_insert_eq|].
  split; [|simpl; auto].
  pose proof (get_Found_In _ _ _ Hget) as [Hin _].
  apply (get_after_User_save (users w) admin (logged admin (now request))
           (now request) Hk Hin eq_refl _ Hget).
  reflexivity.
Qed.

End Accounts.

Section Accounts2.

Variable verify_password : string -> string -> bool.
Variable hash_password : string -> string.
Variable uuid_parse : string -> option UUID.
Variable uuid_str : UUID -> string.
Variable validate_email : string -> bool.
Variable save_refused : User.t -> bool.

Local Abbreviation handle :=
  (dispatch verify_password hash_password uuid_parse uuid_str validate_email save_refused).

(** C3. Admin accounts and the lock flag.
    (1) After any sequence of requests to the login view, an admin row
    still has its id, its admin flag and the lock flag it had; its counter
    is the one it had or 0 (a successful login resets it), never a counter
    raised by a failure.
    (2) A wrong password for an admin writes nothing to the users table.
    (3) Every route other than login and the lock toggle leaves the lock
    flag of every stored user as it was (a newly created user is unlocked).
    (4) The login view changes a lock flag only from unlocked to locked, on a
    non-admin row whose counter it has just raised to 5 or more.
    (5) The lock toggle, called by an admin with POST, stores the requested
    lock flag and the counter 0, whatever the counter was. *)
Theorem admin_exempt_and_toggle_only :
  (forall requests w admin,
     users_keyed (users w) -> In admin (users w) -> User.is_admin admin = true ->
     exists admin', In admin' (users (after (login_view verify_password uuid_str) requests w)) /\
       User.id admin' = User.id admin /\ User.is_admin admin' = true /\
       User.is_locked admin' = User.is_locked admin /\
       (User.failed_login_attempts admin' = User.failed_login_attempts admin \/
        User.failed_login_attempts admin' = 0)) /\
  (forall request w email password admin,
     credentials_posted email password request ->
     Db.get (has_email email) (users w) = Db.Found admin ->
     User.is_admin admin = true ->
     verify_password password (User.password admin) = false ->
     users (snd (login_view verify_password uuid_str request w)) = users w) /\
  (forall route request w,
     route <> login -> (forall i, route <> toggle_lock i) ->
     lock_flags_kept (users w) (users (snd (handle route request w)))) /\
  (forall request w u',
     users_keyed (users w) ->
     In u' (users (snd (login_view verify_password uuid_str request w))) ->
     exists u, In u (users w) /\ User.id u = User.id u' /\
       (User.is_locked u = User.is_locked u' \/
        (User.is_admin u = false /\ User.is_locked u = false /\
         User.is_locked u' = true /\
         User.failed_login_attempts u' = User.failed_login_attempts u + 1 /\
         5 <= User.failed_login_attempts u'))) /\
  (forall admin target uid request w,
     logged_in uuid_parse admin w -> User.is_admin admin = true ->
     method request = "POST" ->
     users_keyed (users w) ->
     Db.get (has_id uid) (users w) = Db.Found target ->
     exists w' saved,
       toggle_lock_user uuid_parse uid request w = (Redirect "list_users", w') /\
       Db.get (has_id uid) (users w') = Db.Found saved /\
       User.is_locked saved = bool_decide (POST request !! "is_locked" = Some "on") /\
       User.failed_login_attempts saved = 0).
Proof.
  split; [|split; [|split; [|split]]].
  - intros requests w admin. apply logins_spare_admin.
  - intros request w email password admin Hposted Hget Ha Hv.
    now rewrite (login_failure_admin verify_password uuid_str request w email password
                   Hposted admin Hget Ha Hv).
  - intros route request w. apply routes_keep_lock_flags.
  - intros request w u'. apply login_locks_by_lockout_only.
  - intros admin target uid request w Hlog Ha Hm Hk Hget.
    destruct (toggle_sets_lock uuid_parse admin target uid request w Hlog Ha Hm Hk Hget)
      as (w' & H1 & H2 & H3 & H4).
    exists w'. eexists. eauto.
Qed.

(** C7 as the code has it.  Take a login POST with a wrong password, once
    against a table where no user has the address and once against a table
    where one user has it.  When that user is an admin the two runs show the
    same single message.  When the user is not an admin the second run
    shows the locked-account message, the locked-now message or the attempt
    count, and none of them is the message of the first run. *)
Theorem login_message_reveals_only_non_admins
    request email password absent present user :
  credentials_posted email password request ->
  flash absent = flash present ->
  Db.get (has_email email) (users absent) = Db.DoesNotExist ->
  Db.get (has_email email) (users present) = Db.Found user ->
  verify_password password (User.password user) = false ->
  flash (snd (login_view verify_password uuid_str request absent))
    = (flash absent ++ [(ERROR, msg_invalid_credentials)])%list /\
  (User.is_admin user = true ->
   flash (snd (login_view verify_password uuid_str request present))
     = flash (snd (login_view verify_password uuid_str request absent))) /\
  (User.is_admin user = false ->
   exists text,
     flash (snd (login_view verify_password uuid_str request present))
       = (flash present ++ [(ERROR, text)])%list /\
     text <> msg_invalid_credentials /\
     (text = msg_account_locked \/ text = msg_now_locked \/
      text = msg_attempt (User.failed_login_attempts user + 1))).
Proof.
  intros Hposted Hflash Habsent Hpresent Hv.
  rewrite (login_unknown_email verify_password uuid_str request absent email password
             Hposted Habsent).
  split; [reflexivity|]. split.
  - intros Ha.
    rewrite (login_failure_admin verify_password uuid_str request present email password
               Hposted user Hpresent Ha Hv).
    cbn [snd flash message]. now rewrite Hflash.
  - intros Ha. destruct (User.is_locked user) eqn:Hl.
    + rewrite (login_locked_out verify_password uuid_str request present email password
                 Hposted user Hpresent Ha Hl).
      exists msg_account_locked. split; [reflexivity|]. split; [discriminate|auto].
    + destruct (Z_lt_le_dec (User.failed_login_attempts user + 1) 5) as [Hlt|Hge].
      * rewrite (login_failure_counted verify_password uuid_str request present email
                   password Hposted user Hpresent Ha Hl Hv Hlt).
        exists (msg_attempt (User.failed_login_attempts user + 1)).
        split; [reflexivity|]. split; [|auto].
        unfold msg_attempt, msg_invalid_credentials. simpl. discriminate.
      * rewrite (login_failure_locks verify_password uuid_str request present email
                   password Hposted user Hpresent Ha Hl Hv Hge).
        exists msg_now_locked. split; [reflexivity|]. split; [discriminate|auto].
Qed.


End Accounts2.

(** C9. [validate_password] on the three passwords of the specification:
    no violation for [Abcdef1!]; three for [abcdefgh] (uppercase, digit,
    special character); four for [short] (length, uppercase, digit, special
    character). *)
Theorem validate_password_examples :
  Password.validate_password "Abcdef1!" = [] /\
  Password.validate_password "abcdefgh"
    = [Password.msg_upper; Password.msg_digit; Password.msg_special] /\
  Password.validate_password "short"
    = [Password.msg_length; Password.msg_upper; Password.msg_digit;
       Password.msg_special].
Proof. repeat split; reflexivity. Qed.

(** ** Orders of learning paths *)

Lemma has_path_id_true i p : has_path_id i p = true <-> LearningPath.id p = i.
Proof. unfold has_path_id. apply N.eqb_eq. Qed.

Lemma of_student_true i p : of_student i p = true <-> LearningPath.student p = i.
Proof. unfold of_student. apply N.eqb_eq. Qed.

Lemma max_of_bound l : forall m, Db.max_of l = Some m ->
  In m l /\ forall j, In j l -> j <= m.
Proof.
  induction l as [|x l IH]; simpl; [discriminate|].
  intros m. destruct (Db.max_of l) as [m'|] eqn:E.
  - intros [= <-]. destruct (IH m' eq_refl) as [Hin Hle]. split.
    + destruct (Z.max_spec x m') as [[_ ->]|[_ ->]]; auto.
    + intros j [<-|Hj]; [lia|]. specialize (Hle j Hj). lia.
  - intros [= <-]. split; [now left|].
    intros j [<-|Hj]; [lia|]. destruct l; [destruct Hj|simpl in E].
    destruct (Db.max_of l); discriminate.
Qed.

Lemma max_of_None l : Db.max_of l = None -> l = [].
Proof.
  destruct l as [|x l]; [reflexivity|]. simpl. destruct (Db.max_of l); discriminate.
Qed.

Lemma or_zero_Some v : or_zero (Some v) = v.
Proof. unfold or_zero. destruct (Z.eqb_spec v 0); congruence. Qed.

(** [max_order] bounds every order of the student. *)
Lemma max_order_bound student paths j :
  In j (orders_of student paths) -> j <= max_order student paths.
Proof.
  unfold max_order, orders_of. intros Hj.
  destruct (Db.max_of _) as [m|] eqn:E.
  - rewrite or_zero_Some. now apply (max_of_bound _ m E).
  - apply max_of_None in E. rewrite E in Hj. destruct Hj.
Qed.

Lemma max_order_none student paths :
  orders_of student paths = [] -> max_order student paths = 0.
Proof. unfold max_order, orders_of. now intros ->. Qed.

Lemma max_order_is_max k student paths :
  is_max_order k student paths -> max_order student paths = k.
Proof.
  intros [Hin Hle]. unfold max_order. fold (orders_of student paths).
  destruct (Db.max_of (orders_of student paths)) as [m|] eqn:E.
  - rewrite or_zero_Some. destruct (max_of_bound _ m E) as [Hm Hb].
    specialize (Hle m Hm). specialize (Hb k Hin). lia.
  - apply max_of_None in E. rewrite E in Hin. destruct Hin.
Qed.

Lemma orders_of_app student l1 l2 :
  orders_of student (l1 ++ l2) = (orders_of student l1 ++ orders_of student l2)%list.
Proof. unfold orders_of. now rewrite List.filter_app, List.map_app. Qed.

Lemma In_orders_of_delete student p paths j :
  In j (orders_of student (Db.delete p paths)) -> In j (orders_of student paths).
Proof.
  unfold orders_of. rewrite !in_map_iff. intros (x & Hx & Hin).
  exists x. split; [assumption|].
  apply List.filter_In in Hin as [Hin Hs]. apply In_delete in Hin as [Hin _].
  apply List.filter_In. auto.
Qed.

Lemma unique_delete p paths :
  orders_unique paths -> orders_unique (Db.delete p paths).
Proof.
  intros H student. specialize (H student). revert H.
  induction paths as [|x paths IH]; [auto|].
  unfold orders_of in *. unfold Db.delete in *. simpl.
  destruct (p x); simpl; destruct (of_student student x) eqn:Es; simpl;
    intros Hnd; auto.
  - inversion Hnd; auto.
  - inversion Hnd as [|? ? Hnot Hnd']; subst. constructor; [|auto].
    intros Hin. apply Hnot.
    exact (In_orders_of_delete student p paths _ Hin).
Qed.

(** Appending a row whose order is the successor of [max_order]. *)
Lemma unique_insert new paths :
  orders_unique paths ->
  LearningPath.order new = max_order (LearningPath.student new) paths + 1 ->
  orders_unique (Db.insert new paths).
Proof.
  intros H Hnew student. unfold Db.insert. rewrite orders_of_app.
  unfold orders_of at 2. simpl.
  destruct (of_student student new) eqn:Es; simpl; [|now rewrite List.app_nil_r].
  apply of_student_true in Es. subst student.
  apply List.NoDup_app; [apply H|repeat constructor; auto|].
  intros j Hj [<-|[]].
  apply max_order_bound in Hj. lia.
Qed.

(** Saving a row found by its key, with its student and its order as they
    were. *)
Lemma orders_of_save student p new old paths :
  Db.get p paths = Db.Found old ->
  LearningPath.student new = LearningPath.student old ->
  LearningPath.order new = LearningPath.order old ->
  orders_of student (Db.save p new paths) = orders_of student paths.
Proof.
  intros Hget Hs Ho. unfold Db.save. rewrite (get_Found_exists _ _ _ Hget).
  unfold orders_of, Db.update.
  assert (Hsame : forall x, In x paths -> p x = true -> x = old)
    by (intros x; apply (get_Found_only _ _ _ _ Hget)).
  rewrite filter_map_commute.
  - rewrite List.map_map. apply List.map_ext_in. intros x Hx.
    apply List.filter_In in Hx as [Hx _].
    destruct (p x) eqn:E; [|reflexivity]. rewrite (Hsame x Hx E). exact Ho.
  - intros x Hx. destruct (p x) eqn:E; [|reflexivity].
    rewrite (Hsame x Hx E). unfold of_student. now rewrite Hs.
Qed.

Lemma unique_save p new old paths :
  Db.get p paths = Db.Found old ->
  LearningPath.student new = LearningPath.student old ->
  LearningPath.order new = LearningPath.order old ->
  orders_unique paths -> orders_unique (Db.save p new paths).
Proof.
  intros Hget Hs Ho H student. rewrite (orders_of_save student p new old); auto.
Qed.

Lemma learning_paths_report_form_errors errors : forall w,
  learning_paths (report_form_errors errors w) = learning_paths w.
Proof.
  unfold report_form_errors.
  induction errors as [|[field es] errors IH]; intros w; simpl; [reflexivity|].
  rewrite IH. clear IH. revert w.
  induction es as [|e es IH]; intros w; simpl; [reflexivity|]. now rewrite IH.
Qed.

Lemma learning_paths_report_all errors : forall w,
  learning_paths (report_all errors w) = learning_paths w.
Proof.
  unfold report_all. induction errors as [|e errors IH]; intros w; simpl; [reflexivity|].
  now rewrite IH.
Qed.

Section PathRoutes.

Variable verify_password : string -> string -> bool.
Variable hash_password : string -> string.
Variable uuid_parse : string -> option UUID.
Variable uuid_str : UUID -> string.
Variable validate_email : string -> bool.
Variable save_refused : User.t -> bool.

Local Abbreviation handle :=
  (dispatch verify_password hash_password uuid_parse uuid_str validate_email save_refused).

Ltac split_cases :=
  repeat match goal with
         | |- context [match ?x with _ => _ end] => destruct x eqn:?
         end.

Ltac open_create :=
  match goal with
  | H : create_user _ _ _ = Some _ |- _ =>
      unfold create_user in H; destruct (Db.exists_ _ _) in H; [discriminate|];
      injection H as <-
  | H : create_path _ _ = Stored _ |- _ =>
      unfold create_path in H; destruct (order_refusal _) in H; [discriminate|];
      destruct (Db.exists_ _ _) in H; [discriminate|];
      injection H as <-
  end.

Ltac through_guard_paths :=
  match goal with
  | |- context [admin_required ?parse ?view ?request ?w] =>
      let Hp := fresh "Hp" in
      let admin := fresh "admin" in
      let Ha := fresh "Ha" in
      let Hrun := fresh "Hrun" in
      destruct (guard_cases parse view request w) as [(_ & _ & Hp)|(admin & Ha & Hrun)];
      [rewrite Hp; assumption | rewrite Hrun; clear Hrun]
  end.

Lemma signup_keeps_paths template admin ok_msg ok_target fail_msg request w :
  learning_paths
    (snd (signup hash_password validate_email
        save_refused template admin ok_msg ok_target fail_msg request w))
  = learning_paths w.
Proof.
  unfold signup. split_cases; cbn [snd learning_paths message];
    rewrite ?learning_paths_report_all; try reflexivity.
  open_create. reflexivity.
Qed.

(** Every route keeps the orders of each student free of duplicates. *)
Lemma routes_keep_orders_unique route request w :
  orders_unique (learning_paths w) ->
  orders_unique (learning_paths (snd (handle route request w))).
Proof.
  intros H.
  destruct route; cbn [dispatch].
  - (* login *)
    unfold login_view. split_cases; exact H.
  - (* register *)
    unfold register_view. destruct (String.eqb _ _); [|exact H].
    now rewrite signup_keeps_paths.
  - (* logout *)
    unfold logout_view. split_cases; exact H.
  - (* dashboard *)
    unfold dashboard_view. split_cases; exact H.
  - (* add_user *)
    unfold add_user_view. through_guard_paths.
    destruct (String.eqb _ _); [|exact H]. now rewrite signup_keeps_paths.
  - (* list_users *)
    unfold list_users_view. through_guard_paths. exact H.
  - (* delete_user *)
    unfold delete_user_view. through_guard_paths. split_cases; exact H.
  - (* update_user *)
    unfold update_user_view. through_guard_paths.
    split_cases; cbn [snd learning_paths message set_users];
      rewrite ?learning_paths_report_all; exact H.
  - (* toggle_lock *)
    unfold toggle_lock_user. through_guard_paths. split_cases; exact H.
  - (* list_student *)
    unfold list_student_view. through_guard_paths. exact H.
  - (* delete_student *)
    unfold delete_student_view. through_guard_paths.
    split_cases; cbn [snd learning_paths message set_students set_learning_paths];
      try exact H.
    now apply unique_delete.
  - (* manage_paths *)
    unfold manage_learning_paths. through_guard_paths. exact H.
  - (* add_path *)
    unfold add_learning_path. through_guard_paths.
    split_cases; cbn [snd learning_paths message];
      rewrite ?learning_paths_report_form_errors; try exact H.
    open_create. cbn [learning_paths set_learning_paths].
    apply unique_insert; [exact H|reflexivity].
  - (* complete_path *)
    unfold complete_learning_path. through_guard_paths.
    split_cases; cbn [snd learning_paths message set_learning_paths]; try exact H.
    match goal with Hget : Db.get (has_path_id ?i) _ = Db.Found ?old |- _ =>
      pose proof (get_Found_In _ _ _ Hget) as [_ Hid];
      apply has_path_id_true in Hid;
      apply (unique_save _ _ old); [|reflexivity|reflexivity|exact H];
      cbn [LearningPath.id LearningPath.set_is_completed]; now rewrite Hid
    end.
  - (* unauthorized *)
    exact H.
  - (* delete_path *)
    unfold delete_learning_path.
    split_cases; cbn [snd learning_paths message set_learning_paths]; try exact H.
    now apply unique_delete.
  - (* update_path *)
    unfold update_learning_path. through_guard_paths.
    split_cases; cbn [snd learning_paths message set_learning_paths]; try exact H.
    match goal with Hget : Db.get (has_path_id ?i) _ = Db.Found ?old |- _ =>
      pose proof (get_Found_In _ _ _ Hget) as [_ Hid];
      apply has_path_id_true in Hid;
      apply (unique_save _ _ old); [|reflexivity|reflexivity|exact H];
      cbn [LearningPath.id construct_instance]; now rewrite Hid
    end.
Qed.

Lemma serve_keeps_orders_unique calls : forall w,
  orders_unique (learning_paths w) ->
  orders_unique
    (learning_paths
       (serve verify_password hash_password uuid_parse uuid_str validate_email
           save_refused calls w)).
Proof.
  induction calls as [|[route request] calls IH]; intros w H; [exact H|].
  cbn [serve]. apply IH. now apply routes_keep_orders_unique.
Qed.

End PathRoutes.

(** ** Claims about learning paths *)

Section PathClaims.

Variable verify_password : string -> string -> bool.
Variable hash_password : string -> string.
Variable uuid_parse : string -> option UUID.
Variable uuid_str : UUID -> string.
Variable validate_email : string -> bool.
Variable save_refused : User.t -> bool.

Lemma order_refusal_None order :
  0 <= order <= 2147483647 -> order_refusal order = None.
Proof.
  intros H. unfold order_refusal.
  destruct (Z.gtb_spec order 2147483647); [lia|].
  destruct (Z.ltb_spec order (-2147483648)); [lia|].
  destruct (Z.ltb_spec order 0); [lia|reflexivity].
Qed.

Lemma order_refusal_DataError order :
  2147483647 < order -> order_refusal order = Some "DataError".
Proof.
  intros H. unfold order_refusal.
  destruct (Z.gtb_spec order 2147483647); [reflexivity|lia].
Qed.

Lemma order_refusal_names order exc :
  order_refusal order = Some exc -> exc = "DataError" \/ exc = "IntegrityError".
Proof.
  unfold order_refusal.
  destruct (_ || _); [intros [= <-]; now left|].
  destruct (_ <? _); [intros [= <-]; now right|discriminate].
Qed.

Lemma create_path_refusals p w exc :
  create_path p w = Refused exc -> exc = "DataError" \/ exc = "IntegrityError".
Proof.
  unfold create_path. destruct (order_refusal _) eqn:E.
  - intros [= <-]. now apply (order_refusal_names (LearningPath.order p)).
  - destruct (Db.exists_ _ _); [intros [= <-]; now right|discriminate].
Qed.

Lemma order_refusal_inv order :
  order_refusal order = None -> 0 <= order <= 2147483647.
Proof.
  unfold order_refusal.
  destruct (Z.gtb_spec order 2147483647); [discriminate|].
  destruct (Z.ltb_spec order (-2147483648)); [discriminate|].
  destruct (Z.ltb_spec order 0); [discriminate|]. intros _. lia.
Qed.

(** What [add_learning_path] does once the guard, the student lookup and
    the form have let the request through and the next order fits the
    column. *)
Lemma add_learning_path_runs student_id request w admin student :
  logged_in uuid_parse admin w -> User.is_admin admin = true ->
  method request = "POST" ->
  Db.get (has_student_id student_id) (students w) = Db.Found student ->
  is_valid (now request) (Some (uuid4 request)) (path_form request) = true ->
  Db.exists_ (has_path_id (uuid4 request)) (learning_paths w) = false ->
  0 <= max_order student_id (learning_paths w) + 1 <= 2147483647 ->
  add_learning_path uuid_parse student_id request w =
    (Redirect "dashboard",
     message SUCCESS
       ("New learning path stage added to " ++ Student.first_name student
        ++ " " ++ Student.last_name student ++ "!")
       (set_learning_paths
          (Db.insert
             (LearningPath.set_order
                (max_order (Student.id student) (learning_paths w) + 1)
                (LearningPath.set_student (Student.id student)
                   (construct_instance (cleaned_data (path_form request))
                      (LearningPath.blank (uuid4 request)))))
             (learning_paths w)) w)).
Proof.
  intros Hlog Ha Hm Hget Hvalid Hfresh Hrange.
  unfold add_learning_path. rewrite (guard_admits _ _ _ _ admin Hlog Ha).
  rewrite Hget. cbn [method set_user now uuid4 path_form LearningPath.blank LearningPath.id].
  rewrite Hm, String.eqb_refl, Hvalid.
  pose proof (get_Found_In _ _ _ Hget) as [_ Hid].
  unfold has_student_id in Hid. apply N.eqb_eq in Hid. rewrite Hid.
  unfold create_path. cbn [LearningPath.order LearningPath.set_order].
  rewrite (order_refusal_None _ Hrange).
  change (LearningPath.id (LearningPath.set_order _ _)) with (uuid4 request).
  now rewrite Hfresh.
Qed.

(** When the next order is beyond the column, the insert is refused and
    nothing is stored. *)
Lemma add_learning_path_out_of_range student_id request w admin student :
  logged_in uuid_parse admin w -> User.is_admin admin = true ->
  method request = "POST" ->
  Db.get (has_student_id student_id) (students w) = Db.Found student ->
  is_valid (now request) (Some (uuid4 request)) (path_form request) = true ->
  2147483647 < max_order student_id (learning_paths w) + 1 ->
  add_learning_path uuid_parse student_id request w = (Raise "DataError", w).
Proof.
  intros Hlog Ha Hm Hget Hvalid Hrange.
  unfold add_learning_path. rewrite (guard_admits _ _ _ _ admin Hlog Ha).
  rewrite Hget. cbn [method set_user now uuid4 path_form LearningPath.blank LearningPath.id].
  rewrite Hm, String.eqb_refl, Hvalid.
  pose proof (get_Found_In _ _ _ Hget) as [_ Hid].
  unfold has_student_id in Hid. apply N.eqb_eq in Hid. rewrite Hid.
  unfold create_path. cbn [LearningPath.order LearningPath.set_order].
  now rewrite (order_refusal_DataError _ Hrange).
Qed.

(** C1, as the code has it.  The order column holds 0 to 2147483647.  A
    request that [add_learning_path] accepts, for a student whose next
    order [max_order + 1] fits the column, appends one row to the table: it
    belongs to the student, is not completed, and its order is
    [max_order + 1]; that is 1 when the student has no learning path and
    [k + 1] when the largest order of the student is [k], whatever orders
    below [k] are in use.  A student without learning paths always gets
    order 1.  When the next order is beyond 2147483647 the insert ends in a
    [DataError] and the state is the one before the request.
    [delete_learning_path] either leaves the table as it is or removes the
    rows with the given id; every other row stays in the table unchanged,
    order included. *)
Theorem add_learning_path_next_order student_id request w admin student :
  logged_in uuid_parse admin w -> User.is_admin admin = true ->
  method request = "POST" ->
  Db.get (has_student_id student_id) (students w) = Db.Found student ->
  is_valid (now request) (Some (uuid4 request)) (path_form request) = true ->
  Db.exists_ (has_path_id (uuid4 request)) (learning_paths w) = false ->
  (0 <= max_order student_id (learning_paths w) + 1 <= 2147483647 ->
   exists w' added,
     add_learning_path uuid_parse student_id request w = (Redirect "dashboard", w') /\
     learning_paths w' = (learning_paths w ++ [added])%list /\
     LearningPath.student added = student_id /\
     LearningPath.is_completed added = false /\
     LearningPath.order added = max_order student_id (learning_paths w) + 1 /\
     (forall k, is_max_order k student_id (learning_paths w) ->
                LearningPath.order added = k + 1)) /\
  (orders_of student_id (learning_paths w) = [] ->
   exists w' added,
     add_learning_path uuid_parse student_id request w = (Redirect "dashboard", w') /\
     learning_paths w' = (learning_paths w ++ [added])%list /\
     LearningPath.order added = 1) /\
  (2147483647 < max_order student_id (learning_paths w) + 1 ->
   add_learning_path uuid_parse student_id request w = (Raise "DataError", w)) /\
  (forall path_id request' w0,
     let w1 := snd (delete_learning_path path_id request' w0) in
     (learning_paths w1 = learning_paths w0 \/
      learning_paths w1 = Db.delete (has_path_id path_id) (learning_paths w0)) /\
     (forall p, In p (learning_paths w1) -> In p (learning_paths w0)) /\
     (forall p, In p (learning_paths w0) -> LearningPath.id p <> path_id ->
                In p (learning_paths w1))).
Proof.
  intros Hlog Ha Hm Hget Hvalid Hfresh.
  pose proof (get_Found_In _ _ _ Hget) as [_ Hid].
  unfold has_student_id in Hid. apply N.eqb_eq in Hid.
  split; [|split; [|split]].
  - intros Hrange.
    rewrite (add_learning_path_runs student_id request w admin student
               Hlog Ha Hm Hget Hvalid Hfresh Hrange).
    rewrite Hid.
    eexists. eexists. split; [reflexivity|].
    split; [reflexivity|]. split; [reflexivity|]. split; [reflexivity|].
    split; [reflexivity|]. cbn [LearningPath.order LearningPath.set_order].
    intros k Hk. now rewrite (max_order_is_max _ _ _ Hk).
  - intros Hnone.
    assert (Hrange : 0 <= max_order student_id (learning_paths w) + 1 <= 2147483647)
      by (rewrite (max_order_none _ _ Hnone); lia).
    rewrite (add_learning_path_runs student_id request w admin student
               Hlog Ha Hm Hget Hvalid Hfresh Hrange).
    rewrite Hid.
    eexists. eexists. split; [reflexivity|]. split; [reflexivity|].
    cbn [LearningPath.order LearningPath.set_order].
    now rewrite (max_order_none _ _ Hnone).
  - now apply (add_learning_path_out_of_range student_id request w admin student).
  - intros path_id request' w0 w1. subst w1. unfold delete_learning_path.
    destruct (String.eqb (method request') "POST"); [|cbn [snd]; auto].
    destruct (Db.get (has_path_id path_id) (learning_paths w0)) as [path| |] eqn:Hp;
      [|cbn [snd]; auto|cbn [snd]; auto].
    pose proof (get_Found_In _ _ _ Hp) as [_ Hpid]. apply has_path_id_true in Hpid.
    cbn [snd learning_paths message set_learning_paths]. rewrite Hpid.
    split; [now right|]. split.
    + intros p Hin. now apply In_delete in Hin.
    + intros p Hin Hne. apply In_delete. split; [assumption|].
      unfold has_path_id. now apply N.eqb_neq.
Qed.

(** [delete_learning_path] never looks at the session or at the users: a
    POST for a stored path removes it. *)
Lemma delete_learning_path_unguarded path_id request w path :
  method request = "POST" ->
  Db.get (has_path_id path_id) (learning_paths w) = Db.Found path ->
  delete_learning_path path_id request w =
    (JsonResponse 200 [("status", "success")],
     message SUCCESS "Learning path stage deleted successfully."
       (set_learning_paths (Db.delete (has_path_id path_id) (learning_paths w)) w)).
Proof.
  intros Hm Hget. unfold delete_learning_path. rewrite Hm, String.eqb_refl, Hget.
  pose proof (get_Found_In _ _ _ Hget) as [_ Hid]. apply has_path_id_true in Hid.
  now rewrite Hid.
Qed.

(** The two statements of a call, run back to back, write what the view
    writes. *)
Lemma add_learning_path_is_read_then_save student_id request w admin student :
  logged_in uuid_parse admin w -> User.is_admin admin = true ->
  method request = "POST" ->
  Db.get (has_student_id student_id) (students w) = Db.Found student ->
  is_valid (now request) (Some (uuid4 request)) (path_form request) = true ->
  Db.exists_ (has_path_id (uuid4 request)) (learning_paths w) = false ->
  learning_paths (snd (add_learning_path uuid_parse student_id request w)) =
  snd (run [0%nat; 0%nat]
         [Reading (Student.id student)
            (construct_instance (cleaned_data (path_form request))
               (LearningPath.blank (uuid4 request)))]
         (learning_paths w)).
Proof.
  intros Hlog Ha Hm Hget Hvalid Hfresh.
  unfold add_learning_path. rewrite (guard_admits _ _ _ _ admin Hlog Ha).
  rewrite Hget. cbn [method set_user now uuid4 path_form LearningPath.blank LearningPath.id].
  rewrite Hm, String.eqb_refl, Hvalid.
  cbn [run add_step lookup list_lookup insert list_insert snd].
  unfold create_path. cbn [LearningPath.order LearningPath.set_order].
  destruct (order_refusal _); [reflexivity|].
  change (LearningPath.id (LearningPath.set_order _ _)) with (uuid4 request).
  now rewrite Hfresh.
Qed.

(** C6 as the code has it.  Requests served one after the other, on any of
    the routes, keep the orders of every student free of duplicates. *)
Theorem orders_unique_when_served_in_turn calls w :
  orders_unique (learning_paths w) ->
  orders_unique
    (learning_paths
       (serve verify_password hash_password uuid_parse uuid_str validate_email
           save_refused calls w)).
Proof. apply serve_keeps_orders_unique. Qed.

End PathClaims.

(** The past-date rule of [clean] cannot fire on an instance that has a
    primary key. *)
Lemma past_rule_skipped now_ pk start_date estimated_end_date :
  clean_dates now_ (Some pk) start_date estimated_end_date <> Some msg_start_in_past.
Proof.
  unfold clean_dates. destruct start_date, estimated_end_date; try discriminate.
  destruct (_ >? _); [discriminate|]. cbn [pk_truthy negb]. rewrite andb_false_r.
  discriminate.
Qed.

(** [clean] compares days: two timestamps of one day pass in either order. *)
Lemma same_day_passes now_ pk start_date estimated_end_date :
  midnight start_date = midnight estimated_end_date ->
  clean_dates now_ (Some pk) (Some start_date) (Some estimated_end_date) = None.
Proof.
  intros E. unfold clean_dates. rewrite E.
  replace (_ >? _) with false by (symmetry; rewrite Z.gtb_ltb; apply Z.ltb_irrefl).
  cbn [pk_truthy negb]. now rewrite andb_false_r.
Qed.

(** What does hold: a start day after the end day is refused, for new and
    for stored records alike. *)
Lemma later_day_refused now_ pk start_date estimated_end_date :
  midnight estimated_end_date < midnight start_date ->
  clean_dates now_ pk (Some start_date) (Some estimated_end_date)
    = Some msg_start_after_end.
Proof.
  intros H. unfold clean_dates.
  replace (_ >? _) with true by (symmetry; rewrite Z.gtb_ltb; now apply Z.ltb_lt).
  reflexivity.
Qed.

(** ** The claims at concrete inputs *)

Ltac check :=
  first [ reflexivity
        | vm_compute; reflexivity
        | vm_compute; discriminate
        | vm_compute; congruence ].

Ltac keyed :=
  unfold users_keyed; simpl;
  repeat (constructor; [simpl; intuition discriminate|]); constructor.

Ltac posted := unfold credentials_posted; repeat split; check.

Ltac signed_in_as u :=
  exists (Sample.uuid_str (User.id u)); repeat split; check.

(** C5, at three requests the claim says must not delete: no session, a
    session whose user id is not a UUID, and the session of a non-admin.
    Each time the guarded sibling [complete_learning_path] turns the request
    away and [delete_learning_path] removes the row. *)
Theorem delete_learning_path_without_admin :
  let rows := [Sample.ada; Sample.bob 0 false] in
  let paths := [Sample.stage 10 1; Sample.stage 11 2] in
  let request := Sample.post ∅ Sample.no_form in
  let anonymous := Sample.world rows paths ∅ in
  let invalid := Sample.world rows paths {[ "user_id" := "not-a-uuid" ]} in
  let non_admin := Sample.world rows paths (Sample.signed_in (Sample.bob 0 false)) in
  (fst (complete_learning_path Sample.uuid_parse 10 request anonymous) = Redirect "login" /\
   fst (delete_learning_path 10 request anonymous)
     = JsonResponse 200 [("status", "success")] /\
   learning_paths (snd (delete_learning_path 10 request anonymous))
     = [Sample.stage 11 2]) /\
  (fst (complete_learning_path Sample.uuid_parse 10 request invalid) = Redirect "login" /\
   fst (delete_learning_path 10 request invalid)
     = JsonResponse 200 [("status", "success")] /\
   learning_paths (snd (delete_learning_path 10 request invalid))
     = [Sample.stage 11 2]) /\
  (fst (complete_learning_path Sample.uuid_parse 10 request non_admin)
     = Redirect "unauthorized" /\
   fst (delete_learning_path 10 request non_admin)
     = JsonResponse 200 [("status", "success")] /\
   learning_paths (snd (delete_learning_path 10 request non_admin))
     = [Sample.stage 11 2]).
Proof. repeat split; vm_compute; reflexivity. Qed.

(** C8, at two forms the claim says must be refused.  The form of a new
    record is bound to a fresh [LearningPath()], which has a primary key.
    With the clock at noon of a day: a start at nine the day before is
    accepted, and [add_learning_path] stores it; a start at 18:00 with an
    end at 08:00 of the same day is accepted. *)
Theorem clean_accepts_past_start_and_same_day_reversal :
  let noon := Sample.at_ Sample.today 12 in
  let yesterday := Sample.at_ (Sample.today - 1) 9 in
  let tomorrow := Sample.at_ (Sample.today + 1) 9 in
  let fresh := LearningPath.id (LearningPath.blank 99) in
  let request := Sample.post ∅ (Sample.stage_form yesterday tomorrow) in
  let w := Sample.world [Sample.ada] [] (Sample.signed_in Sample.ada) in
  yesterday < midnight noon /\
  is_valid noon (Some fresh) (Sample.stage_form yesterday tomorrow) = true /\
  fst (add_learning_path Sample.uuid_parse 7 request w) = Redirect "dashboard" /\
  List.map LearningPath.start_date
    (learning_paths (snd (add_learning_path Sample.uuid_parse 7 request w)))
    = [yesterday] /\
  Sample.at_ Sample.today 8 < Sample.at_ Sample.today 18 /\
  is_valid noon (Some fresh)
    (Sample.stage_form (Sample.at_ Sample.today 18) (Sample.at_ Sample.today 8)) = true.
Proof. repeat split; vm_compute; reflexivity. Qed.

(** C6 as stated fails: two calls for one student, each reading before the
    other writes, store the order 1 twice. *)
Lemma interleaved_adds_share_an_order : ~ orders_unique_under_any_schedule.
Proof.
  intros H.
  specialize (H [0; 1; 0; 1]%nat
                [Reading 7 (LearningPath.blank 10); Reading 7 (LearningPath.blank 11)]
                []).
  assert (Hnd : List.NoDup [1; 1]).
  { apply (H ltac:(intros s; constructor) ltac:(repeat constructor) 7%N). }
  inversion Hnd as [|? ? Hnot _]. apply Hnot. now left.
Qed.

(** C7 as stated fails: a wrong password for the address of a non-admin
    user is answered with the attempt count, a wrong password for an
    unknown address is not. *)
Lemma login_reveals_existing_email :
  ~ login_reveals_nothing Sample.verify_password Sample.uuid_str.
Proof.
  intros H.
  specialize (H (Sample.login_as "bob@school.org" "wrong")
                "bob@school.org" "wrong"
                (Sample.world [Sample.ada] [] ∅)
                (Sample.world [Sample.ada; Sample.bob 0 false] [] ∅)
                (Sample.bob 0 false)
                ltac:(posted) eq_refl eq_refl eq_refl eq_refl).
  vm_compute in H. discriminate H.
Qed.

(** C1 as stated fails at the largest order the column holds: the next
    order is refused and no stage is stored. *)
Lemma next_order_beyond_the_column_is_refused :
  ~ next_order_always_stored Sample.uuid_parse.
Proof.
  intros H.
  set (w := Sample.world [Sample.ada] [Sample.stage 10 2147483647]
              (Sample.signed_in Sample.ada)).
  set (request := Sample.post ∅ (Sample.stage_form (Sample.at_ Sample.today 9)
                                   (Sample.at_ (Sample.today + 7) 9))).
  destruct (H 7%N request w Sample.ada Sample.sam 2147483647
              ltac:(signed_in_as Sample.ada) eq_refl eq_refl eq_refl
              ltac:(check) ltac:(check))
    as (added & Hin & _ & Horder).
  - split; [vm_compute; auto|].
    intros j Hj. vm_compute in Hj. destruct Hj as [<-|[]]. lia.
  - vm_compute in Hin. destruct Hin as [<-|[]].
    cbn [LearningPath.order Sample.stage] in Horder. lia.
Qed.

(** ** The theorems applied to sample data *)

(** C1 at a student whose orders are 1, 3 and 7: the new stage gets 8. *)
Lemma add_learning_path_next_order_witness :
  let w := Sample.world [Sample.ada]
             [Sample.stage 10 1; Sample.stage 11 3; Sample.stage 12 7]
             (Sample.signed_in Sample.ada) in
  let request :=
    Sample.post ∅ (Sample.stage_form (Sample.at_ Sample.today 9)
                                      (Sample.at_ (Sample.today + 7) 9)) in
  is_max_order 7 7%N (learning_paths w) /\
  exists w',
    add_learning_path Sample.uuid_parse 7 request w = (Redirect "dashboard", w') /\
    List.map LearningPath.order (learning_paths w') = [1; 3; 7; 8] /\
    List.map LearningPath.is_completed (learning_paths w') = [false; false; false; false].
Proof.
  intros w request.
  assert (Hmax : is_max_order 7 7%N (learning_paths w)).
  { split; [vm_compute; auto|]. vm_compute. intros j [<-|[<-|[<-|[]]]]; discriminate. }
  split; [exact Hmax|].
  destruct (add_learning_path_next_order Sample.uuid_parse 7 request w Sample.ada Sample.sam
              ltac:(signed_in_as Sample.ada) eq_refl eq_refl eq_refl
              ltac:(check) ltac:(check))
    as [Hfits _].
  destruct (Hfits ltac:(vm_compute; split; discriminate))
    as (w' & added & Hrun & Hpaths & _ & Hdone & _ & Hk).
  exists w'. split; [exact Hrun|].
  rewrite Hpaths, !List.map_app. cbn [List.map]. rewrite (Hk 7 Hmax), Hdone.
  split; reflexivity.
Defined.

(** C10 at an admin whose lock flag is set. *)
Lemma locked_admin_logs_in_witness :
  let locked_ada := User.set_is_locked true Sample.ada in
  let w := Sample.world [locked_ada; Sample.bob 0 false] [] ∅ in
  User.is_admin locked_ada = true /\ User.is_locked locked_ada = true /\
  exists w' admin',
    login_view Sample.verify_password Sample.uuid_str
      (Sample.login_as "ada@school.org" "Abcdef1!") w = (Redirect "dashboard", w') /\
    session w' !! "user_id" = Some "00000000-0000-0000-0000-000000000001" /\
    Db.get (has_email "ada@school.org") (users w') = Db.Found admin' /\
    User.failed_login_attempts admin' = 0 /\
    User.last_login admin' = Some (Sample.at_ Sample.today 12) /\
    User.is_locked admin' = true.
Proof.
  intros locked_ada w. split; [reflexivity|]. split; [reflexivity|].
  destruct (locked_admin_logs_in Sample.verify_password Sample.uuid_str
              (Sample.login_as "ada@school.org" "Abcdef1!") w
              "ada@school.org" "Abcdef1!" locked_ada
              ltac:(posted) ltac:(keyed) eq_refl eq_refl eq_refl eq_refl)
    as (w' & admin' & Hrun & Hsid & _ & Hget & _ & Hcount & Hlast & Hlock).
  exists w', admin'. repeat split; assumption.
Defined.

(** C7 as amended, at an admin: the wrong password and the unknown address
    draw the same message. *)
Lemma login_message_reveals_only_non_admins_witness :
  let request := Sample.login_as "ada@school.org" "wrong" in
  let absent := Sample.world [Sample.bob 0 false] [] ∅ in
  let present := Sample.world [Sample.ada; Sample.bob 0 false] [] ∅ in
  flash (snd (login_view Sample.verify_password Sample.uuid_str request present))
    = [(ERROR, msg_invalid_credentials)] /\
  flash (snd (login_view Sample.verify_password Sample.uuid_str request absent))
    = [(ERROR, msg_invalid_credentials)].
Proof.
  intros request absent present.
  destruct (login_message_reveals_only_non_admins Sample.verify_password Sample.uuid_str
              request "ada@school.org" "wrong" absent present Sample.ada
              ltac:(posted) eq_refl eq_refl eq_refl eq_refl)
    as (Habsent & Hadmin & _).
  rewrite (Hadmin eq_refl), Habsent. split; reflexivity.
Defined.

(** C6 as amended, at two additions for one student served in turn. *)
Lemma orders_unique_when_served_in_turn_witness :
  let form := Sample.stage_form (Sample.at_ Sample.today 9) (Sample.at_ Sample.today 17) in
  let first := mkRequest "POST" ∅ form None (Sample.at_ Sample.today 12) 20 in
  let second := mkRequest "POST" ∅ form None (Sample.at_ Sample.today 13) 21 in
  let w := Sample.world [Sample.ada] [] (Sample.signed_in Sample.ada) in
  let w' := serve Sample.verify_password Sample.hash_password Sample.uuid_parse
              Sample.uuid_str Sample.validate_email Sample.save_refused
              [(add_path 7, first); (add_path 7, second)] w in
  orders_of 7 (learning_paths w') = [1; 2] /\ orders_unique (learning_paths w').
Proof.
  intros form first second w w'. split; [check|].
  apply (orders_unique_when_served_in_turn Sample.verify_password Sample.hash_password
           Sample.uuid_parse Sample.uuid_str Sample.validate_email Sample.save_refused
           [(add_path 7, first); (add_path 7, second)] w).
  intros student. constructor.
Defined.

(** C3 at an admin: a hundred wrong passwords leave the row unlocked with
    its counter at 0, and the toggle locks it all the same. *)
Lemma admin_exempt_and_toggle_only_witness :
  let w := Sample.world [Sample.ada; Sample.bob 3 false] [] (Sample.signed_in Sample.ada) in
  let wrong := Sample.login_as "ada@school.org" "wrong" in
  let lock := Sample.post {[ "is_locked" := "on" ]} Sample.no_form in
  (exists ada',
     In ada' (users (after (login_view Sample.verify_password Sample.uuid_str)
                       (repeat wrong 100) w)) /\
     User.id ada' = 1%N /\ User.is_locked ada' = false /\
     User.failed_login_attempts ada' = 0) /\
  (exists w' saved,
     toggle_lock_user Sample.uuid_parse 1 lock w = (Redirect "list_users", w') /\
     Db.get (has_id 1) (users w') = Db.Found saved /\
     User.is_locked saved = true /\ User.failed_login_attempts saved = 0).
Proof.
  intros w wrong lock.
  destruct (admin_exempt_and_toggle_only Sample.verify_password Sample.hash_password
              Sample.uuid_parse Sample.uuid_str Sample.validate_email Sample.save_refused)
    as (Hspared & _ & _ & _ & Htoggle).
  split.
  - destruct (Hspared (repeat wrong 100) w Sample.ada
                ltac:(keyed) ltac:(now left) eq_refl)
      as (ada' & Hin & Hid & _ & Hlock & Hcount).
    exists ada'. split; [exact Hin|]. split; [exact Hid|]. split; [exact Hlock|].
    destruct Hcount as [H|H]; exact H.
  - destruct (Htoggle Sample.ada Sample.ada 1%N lock w
                ltac:(signed_in_as Sample.ada) eq_refl eq_refl ltac:(keyed) eq_refl)
      as (w' & saved & Hrun & Hget & Hlock & Hcount).
    exists w', saved. split; [exact Hrun|]. split; [exact Hget|].
    split; [exact Hlock|exact Hcount].
Defined.


(** ** Further properties: the learning path form *)

Lemma midnight_le s e : midnight s <= midnight e <-> s / day <= e / day.
Proof. unfold midnight, day. nia. Qed.

(** When the form of a keyed instance is valid. *)
Lemma is_valid_characterised now_ pk f :
  is_valid now_ (Some pk) f = true <->
  exists task start end_ duration leave notes,
    f = mkFields (Cleaned task) (Cleaned start) (Cleaned end_) (Cleaned duration)
                 (Cleaned leave) (Cleaned notes) /\
    duration <> "" /\ start / day <= end_ / day.
Proof.
  unfold is_valid, form_errors.
  destruct f as [[task|?] [start|?] [end_|?] [duration|?] [leave|?] [notes|?]];
    cbn [f_task_name f_start_date f_estimated_end_date f_required_duration
         f_used_leave f_notes field_errors cleaned app];
    try (split; [discriminate | intros (? & ? & ? & ? & ? & ? & [=] & _)]).
  - unfold clean_required_duration, Py.truthy.
    destruct (String.eqb_spec duration "") as [->|Hne]; cbn [negb field_errors app].
    + split; [discriminate|]. intros (? & ? & ? & ? & ? & ? & [= <- <- <- <- <- <-] & H & _).
      now destruct H.
    + unfold clean_dates. cbn [pk_truthy negb]. rewrite andb_false_r.
      destruct (Z.gtb_spec (midnight start) (midnight end_)) as [Hgt|Hle].
      * split; [discriminate|].
        intros (? & ? & ? & ? & ? & ? & [= <- <- <- <- <- <-] & _ & H).
        apply midnight_le in H. lia.
      * split; [|reflexivity]. intros _.
        exists task, start, end_, duration, leave, notes.
        split; [reflexivity|]. split; [assumption|]. now apply midnight_le.
  - unfold clean_required_duration, Py.truthy.
    destruct (String.eqb duration ""); cbn [negb field_errors app];
      split; try discriminate; intros (? & ? & ? & ? & ? & ? & [=] & _).
  - unfold clean_required_duration, Py.truthy.
    destruct (String.eqb duration ""); cbn [negb field_errors app];
      split; try discriminate; intros (? & ? & ? & ? & ? & ? & [=] & _).
  - unfold clean_required_duration, Py.truthy.
    destruct (String.eqb duration ""); cbn [negb field_errors app];
      split; try discriminate; intros (? & ? & ? & ? & ? & ? & [=] & _).
Qed.

(** X2. [LearningPathForm] bound to an instance that has a primary key (a
    stored row, or the fresh instance the form builds for itself) is valid
    exactly when Django accepted all six fields, the required duration is
    not empty and the start day is not after the end day.  The clock and the
    times of day play no part. *)
Theorem is_valid_iff now_ pk f :
  is_valid now_ (Some pk) f = true <->
  exists task start end_ duration leave notes,
    f = mkFields (Cleaned task) (Cleaned start) (Cleaned end_) (Cleaned duration)
                 (Cleaned leave) (Cleaned notes) /\
    duration <> "" /\ start / day <= end_ / day.
Proof. apply is_valid_characterised. Qed.

Lemma prefix_slash_app s t :
  s <> "" -> String.prefix "/" (s ++ t) = String.prefix "/" s.
Proof.
  destruct s as [|c s]; [congruence|]. intros _.
  change (String c s ++ t) with (String c (s ++ t)). cbn [String.prefix].
  destruct (ascii_dec "/" c); [|reflexivity].
  generalize (s ++ t). intros r. now destruct s, r.
Qed.

(** X3. Where [save_student_photo] writes.  As long as the student id does
    not begin with a slash, the path returned is
    [student_photos/<student_id>_<name>] and the path opened is that path
    under [MEDIA_ROOT] (joined with one slash when [MEDIA_ROOT] is not empty
    and does not end in one).  When the student id begins with a slash,
    both joins let the absolute file name win: the path returned and the
    path opened are [<student_id>_<name>] itself, whatever [MEDIA_ROOT] is.
    The bytes written are the chunks of the upload, in order. *)
Theorem save_student_photo_writes MEDIA_ROOT student_id photo :
  let result := save_student_photo MEDIA_ROOT student_id photo in
  let file := student_id ++ "_" ++ UploadedFile.name photo in
  written result = String.concat "" (UploadedFile.chunks photo) /\
  (String.prefix "/" student_id = false ->
   returned result = "student_photos/" ++ file /\
   (MEDIA_ROOT <> "" ->
    substring (String.length MEDIA_ROOT - 1) 1 MEDIA_ROOT <> "/" ->
    opened result = MEDIA_ROOT ++ "/student_photos/" ++ file) /\
   (MEDIA_ROOT = "" \/ substring (String.length MEDIA_ROOT - 1) 1 MEDIA_ROOT = "/" ->
    opened result = MEDIA_ROOT ++ "student_photos/" ++ file)) /\
  (String.prefix "/" student_id = true ->
   returned result = file /\ opened result = file).
Proof.
  cbn zeta. unfold save_student_photo. cbn [returned opened written].
  split; [reflexivity|].
  assert (Hfile : String.prefix "/" (student_id ++ "_" ++ UploadedFile.name photo)
                  = String.prefix "/" student_id).
  { destruct student_id as [|c s]; [reflexivity|]. now apply prefix_slash_app. }
  split; intros Hslash.
  - assert (Hrel : path_join "student_photos"
                     (student_id ++ "_" ++ UploadedFile.name photo)
                   = "student_photos/" ++ student_id ++ "_" ++ UploadedFile.name photo).
    { unfold path_join. now rewrite Hfile, Hslash. }
    rewrite Hrel. split; [reflexivity|].
    unfold path_join.
    change (String.prefix "/" ("student_photos/" ++ _)) with false. cbv iota.
    split.
    + intros Hroot Hend.
      apply String.eqb_neq in Hroot, Hend. now rewrite Hroot, Hend.
    + intros [Hroot|Hend].
      * rewrite Hroot. reflexivity.
      * apply String.eqb_eq in Hend. rewrite Hend. now rewrite orb_true_r.
  - unfold path_join. rewrite Hfile, Hslash. cbv iota. now rewrite Hfile, Hslash.
Qed.

(** X3 at a student id, and at one that begins with a slash. *)
Lemma save_student_photo_writes_witness :
  let photo := UploadedFile.mk "me.png" ["PNG"; "data"] in
  (returned (save_student_photo "/srv/app/media" "S-001" photo)
     = "student_photos/S-001_me.png" /\
   opened (save_student_photo "/srv/app/media" "S-001" photo)
     = "/srv/app/media/student_photos/S-001_me.png") /\
  opened (save_student_photo "/srv/app/media" "/tmp/x" photo) = "/tmp/x_me.png".
Proof.
  intros photo.
  destruct (save_student_photo_writes "/srv/app/media" "S-001" photo)
    as (_ & Hrel & _).
  destruct (save_student_photo_writes "/srv/app/media" "/tmp/x" photo)
    as (_ & _ & Habs).
  destruct (Hrel eq_refl) as (Hreturned & Hopened & _).
  split; [split|].
  - exact Hreturned.
  - exact (Hopened ltac:(discriminate) ltac:(discriminate)).
  - exact (proj2 (Habs eq_refl)).
Defined.

(** ** Further properties: accounts *)

Section AccountsMore.

Variable verify_password : string -> string -> bool.
Variable hash_password : string -> string.
Variable uuid_parse : string -> option UUID.
Variable uuid_str : UUID -> string.
Variable validate_email : string -> bool.
Variable save_refused : User.t -> bool.

Ltac split_cases :=
  repeat match goal with
         | |- context [match ?x with _ => _ end] => destruct x eqn:?
         end.

(** The login view redirects to the dashboard in one case only. *)
Lemma login_redirect_inv request w :
  fst (login_view verify_password uuid_str request w) = Redirect "dashboard" ->
  exists email password user,
    credentials_posted email password request /\
    Db.get (has_email email) (users w) = Db.Found user /\
    (User.is_admin user = true \/ User.is_locked user = false) /\
    verify_password password (User.password user) = true.
Proof.
  unfold login_view.
  destruct (String.eqb_spec (method request) "POST") as [Hm|]; [|discriminate].
  destruct (POST request !! "email") as [email|] eqn:He; [|discriminate].
  destruct (POST request !! "password") as [password|] eqn:Hp; [|discriminate].
  destruct (Py.truthy (Some email)) eqn:Hte; [|discriminate].
  destruct (Py.truthy (Some password)) eqn:Htp; [|discriminate].
  cbn [negb orb].
  destruct (Db.get (has_email email) (users w)) as [user| |] eqn:Hget;
    [|discriminate|discriminate].
  destruct (User.is_admin user) eqn:Ha, (User.is_locked user) eqn:Hl; cbn [negb andb];
    try discriminate;
    destruct (verify_password password (User.password user)) eqn:Hv;
    cbn [fst]; try discriminate;
    try (destruct (_ >=? _); discriminate);
    intros _; exists email, password, user;
    (split; [|auto]);
    (repeat split; try assumption;
     [apply truthy_inv in Hte as (s & [= <-] & H); exact H
     |apply truthy_inv in Htp as (s & [= <-] & H); exact H]).
Qed.

(** What the sign-up code shared by [register_view] and [add_user_view]
    does: it creates the account when every check passes, and otherwise
    writes nothing. *)
Lemma signup_outcome template admin ok_msg ok_target fail_msg request w :
  let r := signup hash_password validate_email save_refused template admin ok_msg ok_target fail_msg
             request w in
  (exists email password,
     POST request !! "email" = Some email /\
     POST request !! "password" = Some password /\
     email <> "" /\ password <> "" /\
     Py.len email <= 255 /\ Py.len password <= 128 /\
     validate_email email = true /\
     Password.validate_password password = [] /\
     Db.exists_ (has_email email) (users w) = false /\
     Db.exists_ (has_id (uuid4 request)) (users w) = false /\
     refusal save_refused
       (new_user request email (hash_password password)
          (default "" (POST request !! "first_name"))
          (default "" (POST request !! "last_name")) admin) = None /\
     r = (Redirect ok_target,
          message SUCCESS ok_msg
            (set_users
               (users w ++
                [new_user request email (hash_password password)
                   (default "" (POST request !! "first_name"))
                   (default "" (POST request !! "last_name")) admin])%list
               w))) \/
  ((fst r = Render template \/ fst r = Raise "IntegrityError" \/
    fst r = Raise "DataError") /\
   users (snd r) = users w /\ students (snd r) = students w /\
   learning_paths (snd r) = learning_paths w /\ session (snd r) = session w).
Proof.
  cbn zeta. unfold signup.
  destruct (POST request !! "email") as [email|] eqn:He; [|right; auto 10].
  destruct (POST request !! "password") as [password|] eqn:Hp; [|right; auto 10].
  destruct (Py.truthy (Some email)) eqn:Hte; [|right; auto 10].
  destruct (Py.truthy (Some password)) eqn:Htp; [|right; auto 10].
  cbn [negb orb].
  destruct (Z.gtb_spec (Py.len email) 255); [right; auto 10|].
  destruct (Z.gtb_spec (Py.len password) 128); [right; auto 10|].
  destruct (validate_email email) eqn:Hve; [|right; auto 10]. cbn [negb].
  destruct (Password.validate_password password) as [|e es] eqn:Hvp.
  2:{ right. cbn [fst snd]. split; [auto|].
      split; [apply users_report_all|]. unfold report_all.
      assert (Hall : forall errors w0,
                students (fold_left (fun w1 e0 => message ERROR e0 w1) errors w0) = students w0 /\
                learning_paths (fold_left (fun w1 e0 => message ERROR e0 w1) errors w0)
                  = learning_paths w0 /\
                session (fold_left (fun w1 e0 => message ERROR e0 w1) errors w0) = session w0).
      { clear. induction errors as [|x xs IH]; intros w0; [auto|]. simpl.
        destruct (IH (message ERROR x w0)) as (-> & -> & ->). auto. }
      apply Hall. }
  destruct (Db.exists_ (has_email email) (users w)) eqn:Hex; [right; auto 10|].
  destruct (refusal save_refused _) as [[|]|] eqn:Hfits; [right; auto 10|right; auto 10|].
  unfold create_user. cbn [User.id new_user].
  destruct (Db.exists_ (has_id (uuid4 request)) (users w)) eqn:Hid; [right; auto 10|].
  left. exists email, password.
  apply truthy_inv in Hte as (s & [= <-] & Hne).
  apply truthy_inv in Htp as (s & [= <-] & Hnp).
  do 11 (split; [first [assumption | reflexivity | lia]|]).
  reflexivity.
Qed.

(** A row that is written fits its columns. *)
Lemma refusal_None_inv u :
  refusal save_refused u = None ->
  save_refused u = false /\
  Py.len (User.email u) <= 255 /\ Py.len (User.password u) <= 128 /\
  Py.len (default "" (User.first_name u)) <= 30 /\
  Py.len (default "" (User.last_name u)) <= 30.
Proof.
  unfold refusal, fits_columns.
  destruct (save_refused u); [discriminate|].
  destruct (Z.leb_spec (Py.len (User.email u)) 255); [|discriminate].
  destruct (Z.leb_spec (Py.len (User.password u)) 128); [|discriminate].
  destruct (Z.leb_spec (Py.len (default "" (User.first_name u))) 30); [|discriminate].
  destruct (Z.leb_spec (Py.len (default "" (User.last_name u))) 30); [|discriminate].
  auto.
Qed.

(** What [register_view] does, by the response it gives. *)
Lemma register_view_cases request w :
  let r := register_view hash_password validate_email save_refused request w in
  (fst r = Redirect "login" /\
   exists email password created,
     method request = "POST" /\
     POST request !! "email" = Some email /\
     POST request !! "password" = Some password /\
     email <> "" /\ password <> "" /\
     Py.len email <= 255 /\ Py.len password <= 128 /\
     validate_email email = true /\
     Password.validate_password password = [] /\
     Db.exists_ (has_email email) (users w) = false /\
     Db.exists_ (has_id (uuid4 request)) (users w) = false /\
     users (snd r) = (users w ++ [created])%list /\
     User.id created = uuid4 request /\
     User.email created = email /\
     User.password created = hash_password password /\
     User.first_name created = Some (default "" (POST request !! "first_name")) /\
     User.last_name created = Some (default "" (POST request !! "last_name")) /\
     User.is_admin created = false /\ User.is_active created = true /\
     User.is_locked created = false /\ User.failed_login_attempts created = 0 /\
     save_refused created = false /\
     Py.len (hash_password password) <= 128 /\
     Py.len (default "" (POST request !! "first_name")) <= 30 /\
     Py.len (default "" (POST request !! "last_name")) <= 30) \/
  (fst r <> Redirect "login" /\ users (snd r) = users w).
Proof.
  cbn zeta. unfold register_view.
  destruct (String.eqb_spec (method request) "POST") as [Hm|];
    [|right; split; [discriminate|reflexivity]].
  destruct (signup_outcome "register.html" false
              "Registration successful! Please log in." "login"
              "An error occurred while registering. Please try again." request w)
    as [(email & password & He & Hp & Hne & Hnp & Hle & Hlp & Hve & Hvp & Hex & Hid
         & Hfits & ->)
       |([Hr|[Hr|Hr]] & Hu & _)].
  - left. split; [reflexivity|]. exists email, password. eexists.
    apply refusal_None_inv in Hfits as (Hsave & _ & Hhash & Hfirst & Hlast).
    do 11 (split; [first [eassumption | reflexivity]|]).
    split; [reflexivity|].
    do 9 (split; [reflexivity|]).
    split; [exact Hsave|]. split; [exact Hhash|]. split; [exact Hfirst|exact Hlast].
  - right. split; [rewrite Hr; discriminate|exact Hu].
  - right. split; [rewrite Hr; discriminate|exact Hu].
  - right. split; [rewrite Hr; discriminate|exact Hu].
Qed.


End AccountsMore.

Section Sessions.

Variable verify_password : string -> string -> bool.
Variable hash_password : string -> string.
Variable uuid_parse : string -> option UUID.
Variable uuid_str : UUID -> string.
Variable validate_email : string -> bool.
Variable save_refused : User.t -> bool.

Lemma get_appended {A} (p : A -> bool) rows new :
  Db.exists_ p rows = false -> p new = true ->
  Db.get p (rows ++ [new]) = Db.Found new.
Proof.
  intros Hnone Hnew. apply get_Found_filter. rewrite List.filter_app. simpl.
  rewrite Hnew. rewrite filter_none; [reflexivity|].
  intros x Hx. destruct (p x) eqn:E; [|reflexivity].
  rewrite (exists_In p rows x Hx E) in Hnone. discriminate.
Qed.

(** X5. Registration followed by login.  When the hasher accepts the
    password it hashed, an account that [register_view] has just created
    logs in with the address and password it registered: the login view
    redirects to the dashboard and stores the new id in the session. *)
Theorem register_then_login request attempt w email password :
  verify_password password (hash_password password) = true ->
  fst (register_view hash_password validate_email save_refused request w) = Redirect "login" ->
  POST request !! "email" = Some email ->
  POST request !! "password" = Some password ->
  credentials_posted email password attempt ->
  let w1 := snd (register_view hash_password validate_email save_refused request w) in
  let w2 := snd (login_view verify_password uuid_str attempt w1) in
  fst (login_view verify_password uuid_str attempt w1) = Redirect "dashboard" /\
  session w2 !! "user_id" = Some (uuid_str (uuid4 request)) /\
  session w2 !! "user_email" = Some email.
Proof.
  intros Hhash Hok He Hp Hposted w1 w2.
  destruct (register_view_cases hash_password validate_email save_refused request w)
    as [(_ & e & p & created & _ & He' & Hp' & _ & _ & _ & _ & _ & _ & Hex & _ & Hu
         & Hid & Hem & Hpw & _ & _ & Hadm & _ & Hlock & _)|[Hno _]]; [|contradiction].
  assert (Ee : e = email) by congruence. assert (Ep : p = password) by congruence.
  rewrite Ee, Ep in *. clear Ee Ep He' Hp'.
  assert (Hget : Db.get (has_email email) (users w1) = Db.Found created).
  { unfold w1. rewrite Hu. apply get_appended; [exact Hex|].
    unfold has_email. rewrite Hem. apply String.eqb_refl. }
  assert (Hv : verify_password password (User.password created) = true)
    by now rewrite Hpw.
  subst w2.
  rewrite (login_success verify_password uuid_str attempt w1 email password Hposted
             created Hget (or_intror Hlock) Hv).
  cbn [fst snd session message set_session set_users].
  split; [reflexivity|].
  split; [now rewrite lookup_insert_ne, lookup_insert_eq, Hid|].
  now rewrite lookup_insert_eq, Hem.
Qed.

(** X6. A login that redirects to the dashboard leaves a session that
    resolves to the user who logged in, provided [uuid.UUID] reads back what
    [str] wrote for the stored ids.  The password of that user was verified
    and the account was an admin or not locked; the stored row has its
    counter at 0 and [last_login] at the time of the request.  Afterwards
    the dashboard renders, and the admin guard admits the user exactly when
    the row is an admin. *)
Theorem login_opens_session request w :
  users_keyed (users w) ->
  (forall u, In u (users w) ->
     uuid_parse (uuid_str (User.id u)) = Some (User.id u) /\
     uuid_str (User.id u) <> "") ->
  fst (login_view verify_password uuid_str request w) = Redirect "dashboard" ->
  let w' := snd (login_view verify_password uuid_str request w) in
  exists email password before user,
    credentials_posted email password request /\
    Db.get (has_email email) (users w) = Db.Found before /\
    verify_password password (User.password before) = true /\
    (User.is_admin before = true \/ User.is_locked before = false) /\
    logged_in uuid_parse user w' /\
    User.id user = User.id before /\
    User.is_admin user = User.is_admin before /\
    User.failed_login_attempts user = 0 /\
    User.last_login user = Some (now request) /\
    (forall request', dashboard_view uuid_parse request' w' = (Render "dashboard.html", w')) /\
    (forall view request',
       admin_required uuid_parse view request' w' =
         if User.is_admin user then view (set_user user request') w'
         else (Redirect "unauthorized", message ERROR msg_no_permission w')).
Proof.
  intros Hk Hcodec Hok w'.
  destruct (login_redirect_inv verify_password uuid_str request w Hok)
    as (email & password & before & Hposted & Hget & Hallowed & Hv).
  pose proof (get_Found_In _ _ _ Hget) as [Hin _].
  destruct (Hcodec before Hin) as [Hparse Hne].
  set (user := User.set_updated_at (now request) (logged before (now request))).
  assert (Hrun : login_view verify_password uuid_str request w =
                 (Redirect "dashboard",
                  message SUCCESS "Login successful!"
                    (set_session
                       (<["user_email" := User.email before]>
                          (<["user_id" := uuid_str (User.id before)]> (session w)))
                       (set_users
                          (User_save (now request) (logged before (now request)) (users w))
                          w))))
    by exact (login_success verify_password uuid_str request w email password Hposted
                before Hget Hallowed Hv).
  assert (Hlog : logged_in uuid_parse user w').
  { exists (uuid_str (User.id before)). unfold w'. rewrite Hrun.
    cbn [snd session users message set_session set_users].
    split; [now rewrite lookup_insert_ne, lookup_insert_eq|].
    split; [exact Hne|]. split; [exact Hparse|].
    apply (get_id_after_User_save (users w) before (logged before (now request))
             (now request) Hk Hin eq_refl). }
  exists email, password, before, user.
  do 4 (split; [assumption|]). split; [exact Hlog|].
  do 4 (split; [reflexivity|]).
  split.
  - intros request'. destruct Hlog as (text & Hs & Hnt & Hp & Hg).
    unfold dashboard_view. rewrite Hs, truthy_Some by assumption.
    cbn [negb mbind option_bind]. now rewrite Hp, Hg.
  - intros view request'. destruct (User.is_admin user) eqn:Ha.
    + now apply guard_admits.
    + now apply (guard_not_admin uuid_parse view request' w' user).
Qed.

Lemma keyed_get_id rows i :
  users_keyed rows -> Db.get (has_id i) rows <> Db.MultipleObjectsReturned.
Proof.
  unfold users_keyed, Db.get. intros Hk.
  destruct (List.filter (has_id i) rows) as [|a [|b l]] eqn:E; try discriminate.
  intros _.
  assert (Ha : In a (List.filter (has_id i) rows)) by (rewrite E; now left).
  assert (Hb : In b (List.filter (has_id i) rows)) by (rewrite E; right; now left).
  apply List.filter_In in Ha as [Ha Hia]. apply List.filter_In in Hb as [Hb Hib].
  apply has_id_true in Hia, Hib.
  assert (Hnd : List.NoDup (List.map User.id (List.filter (has_id i) rows))).
  { clear -Hk. induction rows as [|x rows IH]; simpl; [constructor|].
    inversion Hk as [|? ? Hnot Hk']; subst.
    destruct (has_id i x); [|auto]. simpl. constructor; [|auto].
    intros Hin. apply Hnot. apply in_map_iff in Hin as (y & Hy & Hin).
    apply List.filter_In in Hin as [Hin _]. rewrite <- Hy. now apply List.in_map. }
  rewrite E in Hnd. simpl in Hnd. inversion Hnd as [|? ? Hnot _]. apply Hnot.
  left. congruence.
Qed.

(** X7. [logout_view], with [id] a key of the users table, always redirects
    to the login page and leaves an empty session, so that the guard then
    asks to log in whatever the session held.  When the session named a
    stored user, that row, and no other, is saved with [last_logout] at
    the time of the request; otherwise the users table is as it was. *)
Theorem logout_clears_session request w :
  users_keyed (users w) ->
  let w' := snd (logout_view uuid_parse request w) in
  fst (logout_view uuid_parse request w) = Redirect "login" /\
  session w' = ∅ /\
  (forall view request',
     admin_required uuid_parse view request' w' =
       (Redirect "login", message ERROR msg_please_log_in w')) /\
  (forall user,
     logged_in uuid_parse user w ->
     Db.get (has_id (User.id user)) (users w')
       = Db.Found (User.set_updated_at (now request)
                     (User.set_last_logout (Some (now request)) user)) /\
     forall other, User.id other <> User.id user ->
                   (In other (users w') <-> In other (users w))) /\
  ((forall user, ~ logged_in uuid_parse user w) -> users w' = users w).
Proof.
  intros Hk w'. subst w'. unfold logout_view.
  destruct (Py.truthy (session w !! "user_id")) eqn:Ht.
  2:{ cbn [fst snd session message session_flush set_session users].
      split; [reflexivity|]. split; [reflexivity|].
      split; [intros; now apply guard_anonymous|].
      split; [|reflexivity].
      intros user (text & Hs & Hne & _). rewrite Hs, truthy_Some in Ht by assumption.
      discriminate. }
  apply truthy_inv in Ht as (text & Hs & Hne). rewrite Hs. cbn [mbind option_bind].
  destruct (uuid_parse text) as [uid|] eqn:Hp.
  2:{ cbn [fst snd session message session_flush set_session users].
      split; [reflexivity|]. split; [reflexivity|].
      split; [intros; now apply guard_anonymous|].
      split; [|reflexivity].
      intros user (text' & Hs' & _ & Hp' & _). congruence. }
  destruct (Db.get (has_id uid) (users w)) as [found| |] eqn:Hget.
  - cbn [fst snd session message session_flush set_session set_users users].
    split; [reflexivity|]. split; [reflexivity|].
    split; [intros; now apply guard_anonymous|].
    pose proof (get_Found_In _ _ _ Hget) as [Hin Hid]. apply has_id_true in Hid.
    split.
    + intros user (text' & Hs' & _ & Hp' & Hg').
      assert (uid = User.id user) by congruence. subst uid.
      assert (found = user) by congruence. subst found.
      split.
      * apply (get_id_after_User_save (users w) user
                 (User.set_last_logout (Some (now request)) user) (now request)
                 Hk Hin eq_refl).
      * intros other Hother.
        rewrite (In_User_save (users w) user
                   (User.set_last_logout (Some (now request)) user) (now request)
                   Hin eq_refl other).
        split; [intros [->|[Hold _]]; [now destruct Hother|exact Hold]
               | intros Hold; right; auto].
    + intros Hnone. exfalso. apply (Hnone found).
      exists text. rewrite Hid. auto.
  - cbn [fst snd session message session_flush set_session users].
    split; [reflexivity|]. split; [reflexivity|].
    split; [intros; now apply guard_anonymous|].
    split; [|reflexivity].
    intros user (text' & Hs' & _ & Hp' & Hg'). congruence.
  - exfalso. exact (keyed_get_id _ _ Hk Hget).
Qed.

End Sessions.

(** ** Further properties: what the routes never do *)

Section RoutesMore.

Variable verify_password : string -> string -> bool.
Variable hash_password : string -> string.
Variable uuid_parse : string -> option UUID.
Variable uuid_str : UUID -> string.
Variable validate_email : string -> bool.
Variable save_refused : User.t -> bool.

Local Abbreviation handle :=
  (dispatch verify_password hash_password uuid_parse uuid_str validate_email save_refused).

Ltac split_cases :=
  repeat match goal with
         | |- context [match ?x with _ => _ end] => destruct x eqn:?
         end.

Lemma tables_eq w w' :
  users w' = users w -> students w' = students w ->
  learning_paths w' = learning_paths w -> tables w' = tables w.
Proof. unfold tables. now intros -> -> ->. Qed.

(** Through the guard, for a goal about the tables. *)
Ltac guard_tables :=
  match goal with
  | |- context [admin_required ?parse ?view ?request ?w] =>
      let Hu := fresh "Hu" in
      let Hs := fresh "Hs" in
      let Hp := fresh "Hp" in
      let admin := fresh "admin" in
      let Ha := fresh "Ha" in
      let Hrun := fresh "Hrun" in
      destruct (guard_cases parse view request w) as [(Hu & Hs & Hp)|(admin & Ha & Hrun)];
      [now apply tables_eq | rewrite Hrun; clear Hrun; cbn [method set_user]]
  end.

(** X8. A request that is not a POST writes none of the three tables, on
    every route but the logout route (which stamps [last_logout] whatever
    the method). *)
Theorem only_post_writes route request w :
  route <> logout -> method request <> "POST" ->
  tables (snd (handle route request w)) = tables w.
Proof.
  intros Hroute Hm. apply String.eqb_neq in Hm.
  destruct route; cbn [dispatch]; try congruence.
  - unfold login_view. now rewrite Hm.
  - unfold register_view. now rewrite Hm.
  - unfold dashboard_view. split_cases; reflexivity.
  - unfold add_user_view. guard_tables. now rewrite Hm.
  - unfold list_users_view. guard_tables. reflexivity.
  - unfold delete_user_view. guard_tables. rewrite Hm. split_cases; reflexivity.
  - unfold update_user_view. guard_tables. rewrite Hm. split_cases; reflexivity.
  - unfold toggle_lock_user. guard_tables. rewrite Hm. split_cases; reflexivity.
  - unfold list_student_view. guard_tables. reflexivity.
  - unfold delete_student_view. guard_tables. rewrite Hm. split_cases; reflexivity.
  - unfold manage_learning_paths. guard_tables. reflexivity.
  - unfold add_learning_path. guard_tables. rewrite Hm. split_cases; reflexivity.
  - unfold complete_learning_path. guard_tables. now rewrite Hm.
  - reflexivity.
  - unfold delete_learning_path. now rewrite Hm.
  - unfold update_learning_path. guard_tables. rewrite Hm. split_cases; reflexivity.
Qed.

(** X9. Without an admin session the tables can be written through four
    routes only: login, register, logout and the deletion of a learning
    path.  Every other route leaves the three tables as they are when the
    session does not resolve to an admin. *)
Theorem writes_need_admin route request w :
  (forall user, logged_in uuid_parse user w -> User.is_admin user = false) ->
  route <> login -> route <> register -> route <> logout ->
  (forall i, route <> delete_path i) ->
  tables (snd (handle route request w)) = tables w.
Proof.
  intros Hno H1 H2 H3 H4.
  destruct route; cbn [dispatch]; try congruence;
    try (exfalso; eapply H4; reflexivity);
    try (unfold add_user_view, list_users_view, delete_user_view, update_user_view,
           toggle_lock_user, list_student_view, delete_student_view,
           manage_learning_paths, add_learning_path, complete_learning_path,
           update_learning_path;
         match goal with
         | |- context [admin_required ?parse ?view ?request ?w] =>
             destruct (guard_turns_away parse view request w Hno)
               as (_ & Hu & Hs & Hp & _); now apply tables_eq
         end).
  - unfold dashboard_view. split_cases; reflexivity.
  - reflexivity.
Qed.

(** X10. [delete_user_view] never removes an admin row, whoever asks and
    whatever the id in the address; for an admin session, a POST and the id
    of a stored non-admin user it removes the rows with that id and no
    other. *)
Theorem delete_user_spares_admins user_id request w :
  (forall admin, In admin (users w) -> User.is_admin admin = true ->
     In admin (users (snd (delete_user_view uuid_parse user_id request w)))) /\
  (forall caller target,
     logged_in uuid_parse caller w -> User.is_admin caller = true ->
     method request = "POST" ->
     Db.get (has_id user_id) (users w) = Db.Found target ->
     User.is_admin target = false ->
     fst (delete_user_view uuid_parse user_id request w) = Redirect "list_users" /\
     forall u, In u (users (snd (delete_user_view uuid_parse user_id request w)))
               <-> In u (users w) /\ User.id u <> user_id).
Proof.
  split.
  - intros admin Hin Hadm. unfold delete_user_view.
    destruct (guard_cases uuid_parse
                (fun request w =>
                   match Db.get (has_id user_id) (users w) with
                   | Db.Found user =>
                       if User.is_admin user
                       then (Redirect "list_users",
                             message ERROR "Admin users cannot be deleted." w)
                       else if String.eqb (method request) "POST"
                       then (Redirect "list_users",
                             message SUCCESS "User deleted successfully!"
                               (set_users (Db.delete (has_id (User.id user)) (users w)) w))
                       else (Redirect "list_users",
                             message WARNING
                               "Invalid request method for deleting a user." w)
                   | Db.DoesNotExist => (Http404, w)
                   | Db.MultipleObjectsReturned => (Raise "MultipleObjectsReturned", w)
                   end) request w) as [(Hu & _)|(caller & _ & Hrun)].
    + now rewrite Hu.
    + rewrite Hrun. clear Hrun.
      destruct (Db.get (has_id user_id) (users w)) as [user| |] eqn:Hget;
        [|exact Hin|exact Hin].
      destruct (User.is_admin user) eqn:Hua; [exact Hin|].
      destruct (String.eqb _ _); [|exact Hin].
      cbn [snd users message set_users]. apply In_delete. split; [exact Hin|].
      apply has_id_false. intros E.
      pose proof (get_Found_In _ _ _ Hget) as [_ Hid]. apply has_id_true in Hid.
      assert (admin = user).
      { apply (get_Found_only _ _ _ _ Hget Hin). apply has_id_true. congruence. }
      congruence.
  - intros caller target Hlog Hadm Hm Hget Hnot.
    unfold delete_user_view. rewrite (guard_admits _ _ _ _ caller Hlog Hadm).
    rewrite Hget, Hnot. cbn [method set_user]. rewrite Hm, String.eqb_refl.
    split; [reflexivity|]. intros u. cbn [snd users message set_users].
    pose proof (get_Found_In _ _ _ Hget) as [_ Hid]. apply has_id_true in Hid.
    rewrite Hid, In_delete. now rewrite has_id_false.
Qed.

End RoutesMore.

(** ** Further properties: invariants of the users table *)

Section Invariants.

Variable verify_password : string -> string -> bool.
Variable hash_password : string -> string.
Variable uuid_parse : string -> option UUID.
Variable uuid_str : UUID -> string.
Variable validate_email : string -> bool.
Variable save_refused : User.t -> bool.

Local Abbreviation handle :=
  (dispatch verify_password hash_password uuid_parse uuid_str validate_email save_refused).

Ltac split_cases :=
  repeat match goal with
         | |- context [match ?x with _ => _ end] => destruct x eqn:?
         end.

Ltac guard_same :=
  match goal with |- context [admin_required ?parse ?view ?request ?w] =>
    let admin := fresh "admin" in
    destruct (guard_cases parse view request w) as [(-> & _)|(admin & _ & ->)];
    [assumption|]
  end.

Lemma every_User_save (P : User.t -> Prop) rows u new t :
  In u rows -> User.id new = User.id u ->
  (forall x, In x rows -> P x) -> P (User.set_updated_at t new) ->
  forall x, In x (User_save t new rows) -> P x.
Proof.
  intros Hin Hid Hall Hnew x Hx.
  apply (In_User_save rows u new t Hin Hid) in Hx as [->|[Hx _]]; auto.
Qed.

Lemma every_delete (P : User.t -> Prop) p rows :
  (forall x, In x rows -> P x) -> forall x, In x (Db.delete p rows) -> P x.
Proof. intros Hall x Hx. apply In_delete in Hx as [Hx _]. auto. Qed.

(** A property of rows that every write of the application respects is kept
    by every route.  The writes are: the three rows a login saves, the row a
    sign-up creates, and the changes of [last_logout], of the profile fields
    and of the lock. *)
Lemma routes_keep_every (P : User.t -> Prop) :
  (forall u t, P u -> P (User.set_updated_at t u)) ->
  (forall u t, P u -> P (logged u t)) ->
  (forall u, P u -> User.is_admin u = false -> User.is_locked u = false ->
             User.failed_login_attempts u + 1 < 5 -> P (failed_once u)) ->
  (forall u, P u -> User.is_admin u = false -> User.is_locked u = false ->
             5 <= User.failed_login_attempts u + 1 ->
             P (User.set_is_locked true (failed_once u))) ->
  (forall request e h f l a, P (new_user request e h f l a)) ->
  (forall u t, P u -> P (User.set_last_logout t u)) ->
  (forall u e f l a, P u ->
     P (User.set_is_admin a (User.set_last_name l (User.set_first_name f
          (User.set_email e u))))) ->
  (forall u h, P u -> P (User.set_password h u)) ->
  (forall u b, P u -> P (User.set_failed_login_attempts 0 (User.set_is_locked b u))) ->
  forall route request w,
    every_user P w -> every_user P (snd (handle route request w)).
Proof.
  intros Hstamp Hlogged Hfail Hlock Hnew Hout Hprofile Hpw Htoggle route request w Hall.
  unfold every_user in *.
  assert (Hsignup : forall template admin ok_msg ok_target fail_msg request,
            forall u, In u (users (snd (signup hash_password validate_email
                save_refused template admin
                                          ok_msg ok_target fail_msg request w))) -> P u).
  { intros template admin ok_msg ok_target fail_msg req u.
    destruct (signup_outcome hash_password validate_email save_refused template admin ok_msg
                ok_target fail_msg req w)
      as [(e & p & _ & _ & _ & _ & _ & _ & _ & _ & _ & _ & _ & ->)|(_ & -> & _)];
      [|apply Hall].
    cbn [snd users message set_users]. rewrite in_app_iff.
    intros [Hin|[<-|[]]]; [now apply Hall|apply Hnew]. }
  destruct route; cbn [dispatch].
  - (* login *)
    destruct (login_users_effect verify_password uuid_str request w)
      as [->|(e & u & new & Hget & -> & Hcases)]; [exact Hall|].
    apply get_Found_In in Hget as [Hin _].
    assert (Hid : User.id new = User.id u)
      by (destruct Hcases as [->|(_ & _ & [[-> _]|[-> _]])]; reflexivity).
    apply (every_User_save P _ u new _ Hin Hid Hall). apply Hstamp.
    destruct Hcases as [->|(Ha & Hl & [[-> Hlt]|[-> Hge]])]; auto.
  - (* register *)
    unfold register_view. destruct (String.eqb _ _); [apply Hsignup|exact Hall].
  - (* logout *)
    unfold logout_view.
    split_cases; cbn [snd users message session_flush set_session set_users];
      try exact Hall.
    match goal with Hget : Db.get _ _ = Db.Found ?u |- _ =>
      apply get_Found_In in Hget as [Hin _];
      eapply (every_User_save P _ u); [exact Hin|reflexivity|exact Hall|auto 6] end.
  - (* dashboard *)
    unfold dashboard_view. split_cases; exact Hall.
  - (* add_user *)
    unfold add_user_view.
    match goal with |- context [admin_required ?parse ?view ?request ?w] =>
      destruct (guard_cases parse view request w) as [(-> & _)|(admin & _ & ->)] end;
      [exact Hall|].
    destruct (String.eqb _ _); [apply Hsignup|exact Hall].
  - (* list_users *)
    unfold list_users_view.
    match goal with |- context [admin_required ?parse ?view ?request ?w] =>
      destruct (guard_cases parse view request w) as [(-> & _)|(admin & _ & ->)] end;
      exact Hall.
  - (* delete_user *)
    unfold delete_user_view.
    match goal with |- context [admin_required ?parse ?view ?request ?w] =>
      destruct (guard_cases parse view request w) as [(-> & _)|(admin & _ & ->)] end;
      [exact Hall|].
    split_cases; cbn [snd users message set_users]; try exact Hall.
    now apply every_delete.
  - (* update_user *)
    unfold update_user_view.
    match goal with |- context [admin_required ?parse ?view ?request ?w] =>
      destruct (guard_cases parse view request w) as [(-> & _)|(admin & _ & ->)] end;
      [exact Hall|].
    split_cases; cbn [snd users message set_users]; rewrite ?users_report_all;
      try exact Hall;
      match goal with Hget : Db.get _ _ = Db.Found ?u |- _ =>
        apply get_Found_In in Hget as [Hin _];
        eapply (every_User_save P _ u); [exact Hin|reflexivity|exact Hall|auto 6] end.
  - (* toggle_lock *)
    unfold toggle_lock_user.
    match goal with |- context [admin_required ?parse ?view ?request ?w] =>
      destruct (guard_cases parse view request w) as [(-> & _)|(admin & _ & ->)] end;
      [exact Hall|].
    split_cases; cbn [snd users message set_users]; try exact Hall.
    all: match goal with Hget : Db.get _ _ = Db.Found ?u |- _ =>
      apply get_Found_In in Hget as [Hin _];
      eapply (every_User_save P _ u); [exact Hin|reflexivity|exact Hall|auto 6] end.
  - (* list_student *)
    unfold list_student_view. guard_same. exact Hall.
  - (* delete_student *)
    unfold delete_student_view. guard_same. split_cases; exact Hall.
  - (* manage_paths *)
    unfold manage_learning_paths. guard_same. exact Hall.
  - (* add_path *)
    unfold add_learning_path. guard_same.
    split_cases; cbn [snd users message]; rewrite ?users_report_form_errors;
      try exact Hall.
    match goal with H : create_path _ _ = Stored _ |- _ =>
      unfold create_path in H; destruct (order_refusal _) in H; [discriminate|];
      destruct (Db.exists_ _ _) in H; [discriminate|];
      injection H as <- end.
    exact Hall.
  - (* complete_path *)
    unfold complete_learning_path. guard_same. split_cases; exact Hall.
  - (* unauthorized *)
    exact Hall.
  - (* delete_path *)
    unfold delete_learning_path. split_cases; exact Hall.
  - (* update_path *)
    unfold update_learning_path. guard_same. split_cases; exact Hall.
Qed.

End Invariants.

Section CounterRange.

Variable verify_password : string -> string -> bool.
Variable hash_password : string -> string.
Variable uuid_parse : string -> option UUID.
Variable uuid_str : UUID -> string.
Variable validate_email : string -> bool.
Variable save_refused : User.t -> bool.

(** X11. The failed-login counter stays between 0 and 5 and a row whose
    counter is 5 is locked: when every stored user is so, every stored user
    is so after any list of requests served in turn, on any route. *)
Theorem counter_stays_in_range calls w :
  every_user counter_in_range w ->
  every_user counter_in_range
    (serve verify_password hash_password uuid_parse uuid_str validate_email save_refused calls w).
Proof.
  revert w. induction calls as [|[route request] calls IH]; intros w H; [exact H|].
  cbn [serve]. apply IH.
  apply (routes_keep_every verify_password hash_password uuid_parse uuid_str
           validate_email save_refused counter_in_range); try exact H;
    unfold counter_in_range;
    cbn [User.failed_login_attempts User.is_locked User.set_updated_at logged
         failed_once User.set_is_locked User.set_failed_login_attempts new_user
         User.set_last_login User.set_last_logout User.set_is_admin User.set_last_name
         User.set_first_name User.set_email User.set_password];
    intros; try tauto;
    repeat match goal with H : _ /\ _ |- _ => destruct H end;
    split; try lia; intros; try reflexivity; try lia;
    match goal with
    | Hl : User.is_locked ?u = false, Hi : _ = 5 -> User.is_locked ?u = true |- _ =>
        assert (User.failed_login_attempts u <> 5) by (intros E; rewrite (Hi E) in Hl;
                                                        discriminate); lia
    end.
Qed.

End CounterRange.

(** ** Further properties: the keys of the tables *)

Section KeyFacts.

Context {A B : Type}.
Implicit Types (f : A -> B) (p : A -> bool) (rows : list A).

Lemma NoDup_map_filter f p rows :
  List.NoDup (List.map f rows) -> List.NoDup (List.map f (List.filter p rows)).
Proof.
  induction rows as [|x rows IH]; simpl; [auto|].
  intros Hnd. inversion Hnd as [|? ? Hnot Hnd']; subst.
  destruct (p x); [|auto]. simpl. constructor; [|auto].
  intros Hin. apply Hnot. apply in_map_iff in Hin as (y & Hy & Hin).
  apply List.filter_In in Hin as [Hin _]. rewrite <- Hy. now apply List.in_map.
Qed.

Lemma NoDup_map_delete f p rows :
  List.NoDup (List.map f rows) -> List.NoDup (List.map f (Db.delete p rows)).
Proof. apply NoDup_map_filter. Qed.

(** Appending a row whose key no row has. *)
Lemma NoDup_map_insert f rows new :
  List.NoDup (List.map f rows) -> (forall x, In x rows -> f x <> f new) ->
  List.NoDup (List.map f (Db.insert new rows)).
Proof.
  intros Hnd Hnew. unfold Db.insert. rewrite List.map_app. simpl.
  apply List.NoDup_app; [exact Hnd|repeat constructor; auto|].
  intros k Hk [<-|[]]. apply in_map_iff in Hk as (x & Hx & Hin).
  exact (Hnew x Hin Hx).
Qed.

(** Replacing the one selected row by a row whose key no other row has. *)
Lemma NoDup_map_update f p new rows :
  List.NoDup (List.map f rows) ->
  (forall x y, In x rows -> In y rows -> p x = true -> p y = true -> x = y) ->
  (forall x, In x rows -> p x = false -> f x <> f new) ->
  List.NoDup (List.map f (Db.update p new rows)).
Proof.
  unfold Db.update. induction rows as [|x rows IH]; simpl; [auto|].
  intros Hnd Hone Hother. inversion Hnd as [|? ? Hnot Hnd']; subst.
  assert (IH' : List.NoDup (List.map f (List.map (fun r => if p r then new else r) rows))).
  { apply IH; [exact Hnd'| |]; intros; [apply Hone|apply Hother]; auto. }
  destruct (p x) eqn:Px.
  - assert (Hrest : forall y, In y rows -> p y = false).
    { intros y Hy. destruct (p y) eqn:Py; [|reflexivity]. exfalso. apply Hnot.
      rewrite (Hone x y (or_introl eq_refl) (or_intror Hy) Px Py).
      now apply List.in_map. }
    replace (List.map (fun r => if p r then new else r) rows) with rows.
    + constructor; [|exact Hnd']. intros Hin. apply in_map_iff in Hin as (y & Hy & Hin).
      exact (Hother y (or_intror Hin) (Hrest y Hin) Hy).
    + rewrite <- (List.map_id rows) at 1. apply List.map_ext_in.
      intros y Hy. now rewrite (Hrest y Hy).
  - constructor; [|exact IH']. intros Hin. rewrite List.map_map in Hin.
    apply in_map_iff in Hin as (y & Hy & Hin). destruct (p y) eqn:Py.
    + symmetry in Hy. exact (Hother x (or_introl eq_refl) Px Hy).
    + apply Hnot. rewrite <- Hy. now apply List.in_map.
Qed.

(** A key finds at most one row. *)
Lemma get_by_key f (eqb : B -> B -> bool) rows k :
  (forall a b, eqb a b = true -> a = b) ->
  List.NoDup (List.map f rows) ->
  Db.get (fun x => eqb (f x) k) rows <> Db.MultipleObjectsReturned.
Proof.
  intros Heqb Hnd. unfold Db.get.
  pose proof (NoDup_map_filter f (fun x => eqb (f x) k) rows Hnd) as Hf.
  destruct (List.filter (fun x => eqb (f x) k) rows) as [|a [|b l]] eqn:E;
    try discriminate.
  intros _.
  assert (Ha : In a (List.filter (fun x => eqb (f x) k) rows)) by (rewrite E; now left).
  assert (Hb : In b (List.filter (fun x => eqb (f x) k) rows))
    by (rewrite E; right; now left).
  apply List.filter_In in Ha as [_ Ha]. apply List.filter_In in Hb as [_ Hb].
  apply Heqb in Ha, Hb. simpl in Hf. inversion Hf as [|? ? Hnot _]. apply Hnot.
  left. congruence.
Qed.

End KeyFacts.

Lemma N_eqb_true a b : N.eqb a b = true -> a = b.
Proof. apply N.eqb_eq. Qed.

Lemma String_eqb_true a b : String.eqb a b = true -> a = b.
Proof. apply String.eqb_eq. Qed.

Lemma keys_save_same rows u new t :
  user_keys rows -> In u rows ->
  User.id new = User.id u -> User.email new = User.email u ->
  user_keys (User_save t new rows).
Proof.
  intros [Hid Hem] Hin Hi He. split.
  - now apply (User_save_keyed rows u).
  - rewrite (User_save_is_update rows u new t Hin Hi).
    rewrite map_update; [exact Hem|].
    intros x Hx Hp. apply has_id_true in Hp.
    rewrite (keyed_same_id rows x u Hid Hx Hin Hp). simpl. exact He.
Qed.

Lemma keys_save_email rows u new t i :
  user_keys rows -> Db.get (has_id i) rows = Db.Found u -> User.id new = i ->
  Db.exists_ (fun x => has_email (User.email new) x && negb (has_id i x)) rows = false ->
  user_keys (User_save t new rows).
Proof.
  intros [Hid Hem] Hget Hi Hfree.
  pose proof (get_Found_In _ _ _ Hget) as [Hin Hu]. apply has_id_true in Hu.
  assert (Hsame : User.id new = User.id u) by congruence.
  split; [now apply (User_save_keyed rows u)|].
  rewrite (User_save_is_update rows u new t Hin Hsame).
  apply NoDup_map_update; [exact Hem| |].
  - intros x y Hx Hy Px Py. apply has_id_true in Px, Py.
    apply (keyed_same_id rows x y Hid Hx Hy). congruence.
  - intros x Hx Px E. simpl in E.
    assert (Hex : Db.exists_ (fun x => has_email (User.email new) x && negb (has_id i x))
                    rows = true).
    { apply (exists_In _ _ x Hx). unfold has_email. rewrite E, String.eqb_refl.
      rewrite Hu in Px. now rewrite Px. }
    congruence.
Qed.

Lemma keys_insert rows new :
  user_keys rows ->
  Db.exists_ (has_id (User.id new)) rows = false ->
  Db.exists_ (has_email (User.email new)) rows = false ->
  user_keys (Db.insert new rows).
Proof.
  intros [Hid Hem] Hi He. split; apply NoDup_map_insert; try assumption.
  - intros x Hx E. rewrite (exists_In _ _ x Hx) in Hi; [discriminate|].
    now apply has_id_true.
  - intros x Hx E. rewrite (exists_In _ _ x Hx) in He; [discriminate|].
    unfold has_email. rewrite E. apply String.eqb_refl.
Qed.

Lemma keys_delete p rows : user_keys rows -> user_keys (Db.delete p rows).
Proof. intros [Hid Hem]. split; now apply NoDup_map_delete. Qed.

Section Keys.

Variable verify_password : string -> string -> bool.
Variable hash_password : string -> string.
Variable uuid_parse : string -> option UUID.
Variable uuid_str : UUID -> string.
Variable validate_email : string -> bool.
Variable save_refused : User.t -> bool.

Local Abbreviation handle :=
  (dispatch verify_password hash_password uuid_parse uuid_str validate_email save_refused).

Ltac split_cases :=
  repeat match goal with
         | |- context [match ?x with _ => _ end] => destruct x eqn:?
         end.

(** The guard answers with a redirect and leaves the state of the tables,
    or hands over to the view. *)
Lemma guard_answers view request w :
  ((exists target, fst (admin_required uuid_parse view request w) = Redirect target) /\
   tables (snd (admin_required uuid_parse view request w)) = tables w) \/
  (exists admin, User.is_admin admin = true /\
     admin_required uuid_parse view request w = view (set_user admin request) w).
Proof.
  unfold admin_required.
  destruct (negb (Py.truthy (session w !! "user_id"))); [left; eauto|].
  destruct (session w !! "user_id" ≫= uuid_parse) as [uid|]; [|left; eauto].
  destruct (Db.get (has_id uid) (users w)) as [user| |]; [|left; eauto|left; eauto].
  destruct (User.is_admin user) eqn:Ha; [|left; eauto].
  right. exists user. auto.
Qed.

Lemma tables_keyed_same w w' :
  tables w' = tables w -> tables_keyed w -> tables_keyed w'.
Proof. unfold tables, tables_keyed. intros [= -> -> ->]. auto. Qed.

Ltac guard_keys :=
  match goal with |- context [admin_required ?parse ?view ?request ?w] =>
    let admin := fresh "admin" in
    let Hsame := fresh "Hsame" in
    let Hrun := fresh "Hrun" in
    destruct (guard_answers view request w) as [[_ Hsame]|(admin & _ & Hrun)];
    [now apply (tables_keyed_same _ _ Hsame) | rewrite Hrun; clear Hrun]
  end.

Ltac open_keys :=
  unfold tables_keyed;
  cbn [snd users students learning_paths message set_users set_students
       set_learning_paths set_session session_flush];
  repeat split; try assumption.

Ltac saved_same :=
  match goal with
  | Hget : Db.get _ ?rows = Db.Found ?u
    |- List.NoDup (List.map User.id (User_save ?t ?new ?rows)) =>
      apply (User_save_keyed rows u);
      [assumption | exact (proj1 (get_Found_In _ _ _ Hget)) | reflexivity]
  | Hget : Db.get _ ?rows = Db.Found ?u
    |- List.NoDup (List.map User.email (User_save ?t ?new ?rows)) =>
      refine (proj2 (keys_save_same rows u new t (conj _ _)
                       (proj1 (get_Found_In _ _ _ Hget)) eq_refl eq_refl));
      assumption
  end.

Ltac saved_path :=
  match goal with
  | Hget : Db.get (has_path_id ?i) ?rows = Db.Found ?old
    |- List.NoDup (List.map LearningPath.id (Db.save _ ?new ?rows)) =>
      let E := fresh "E" in
      let x := fresh "x" in
      let Hx := fresh "Hx" in
      let Px := fresh "Px" in
      pose proof (proj1 (has_path_id_true _ _) (proj2 (get_Found_In _ _ _ Hget))) as E;
      cbn [LearningPath.id LearningPath.set_is_completed construct_instance];
      rewrite E; unfold Db.save;
      rewrite (get_Found_exists _ _ _ Hget), map_update; [assumption|];
      intros x Hx Px; rewrite (get_Found_only _ _ _ _ Hget Hx Px); reflexivity
  end.

Lemma tables_report_all errors : forall w, tables (report_all errors w) = tables w.
Proof.
  unfold report_all. induction errors as [|e errors IH]; intros w; simpl; [reflexivity|].
  now rewrite IH.
Qed.

Lemma tables_report_form_errors errors : forall w,
  tables (report_form_errors errors w) = tables w.
Proof.
  unfold report_form_errors.
  induction errors as [|[field es] errors IH]; intros w; simpl; [reflexivity|].
  rewrite IH. clear IH. revert w.
  induction es as [|e es IH]; intros w; simpl; [reflexivity|]. now rewrite IH.
Qed.

Ltac saved_email :=
  match goal with
  | Hid : List.NoDup (List.map User.id ?rows),
    Hem : List.NoDup (List.map User.email ?rows),
    Hget : Db.get (has_id ?i) ?rows = Db.Found ?u,
    Hfree : Db.exists_ _ ?rows = false
    |- tables_keyed (snd (_, message _ _ (set_users (User_save ?t ?new ?rows) _))) =>
      let H1 := fresh "H1" in
      let H2 := fresh "H2" in
      destruct (keys_save_email rows u new t i (conj Hid Hem) Hget
                  (proj1 (has_id_true i u) (proj2 (get_Found_In _ _ _ Hget))) Hfree)
        as [H1 H2];
      unfold tables_keyed; cbn [snd users students learning_paths message set_users];
      auto
  end.

Lemma signup_keeps_keys template admin ok_msg ok_target fail_msg request w :
  tables_keyed w ->
  tables_keyed (snd (signup hash_password validate_email
      save_refused template admin ok_msg ok_target fail_msg
                       request w)).
Proof.
  intros (Hid & Hem & Hst & Hlp).
  destruct (signup_outcome hash_password validate_email save_refused template admin ok_msg
              ok_target fail_msg request w)
    as [(e & p & _ & _ & _ & _ & _ & _ & _ & _ & Hfe & Hfi & _ & ->)
      |(_ & Hu & Hs & Hp & _)].
  - unfold tables_keyed. cbn [snd users students learning_paths message set_users].
    destruct (keys_insert (users w)
                (new_user request e (hash_password p)
                   (default "" (POST request !! "first_name"))
                   (default "" (POST request !! "last_name")) admin)
                (conj Hid Hem) Hfi Hfe) as [H1 H2].
    auto.
  - unfold tables_keyed. rewrite Hu, Hs, Hp. auto.
Qed.

Lemma routes_keep_keys route request w :
  tables_keyed w -> tables_keyed (snd (handle route request w)).
Proof.
  intros Hkeys. pose proof Hkeys as (Hid & Hem & Hst & Hlp).
  destruct route; cbn [dispatch].
  - (* login *)
    destruct (login_users_effect verify_password uuid_str request w)
      as [Hu|(e & u & new & Hget & Hu & Hcases)].
    + unfold tables_keyed.
      assert (Hrest : students (snd (login_view verify_password uuid_str request w))
                        = students w /\
                      learning_paths (snd (login_view verify_password uuid_str request w))
                        = learning_paths w).
      { unfold login_view. split_cases; auto. }
      destruct Hrest as [-> ->]. now rewrite Hu.
    + unfold tables_keyed.
      assert (Hrest : students (snd (login_view verify_password uuid_str request w))
                        = students w /\
                      learning_paths (snd (login_view verify_password uuid_str request w))
                        = learning_paths w).
      { unfold login_view. split_cases; auto. }
      destruct Hrest as [-> ->]. rewrite Hu.
      pose proof (get_Found_In _ _ _ Hget) as [Hin _].
      assert (Hsame : User.id new = User.id u /\ User.email new = User.email u)
        by (destruct Hcases as [->|(_ & _ & [[-> _]|[-> _]])]; auto).
      destruct (keys_save_same (users w) u new (now request) (conj Hid Hem) Hin
                  (proj1 Hsame) (proj2 Hsame)) as [H1 H2].
      auto.
  - (* register *)
    unfold register_view. destruct (String.eqb _ _); [|exact Hkeys].
    now apply signup_keeps_keys.
  - (* logout *)
    unfold logout_view. split_cases; open_keys; saved_same.
  - (* dashboard *)
    unfold dashboard_view. split_cases; open_keys.
  - (* add_user *)
    unfold add_user_view. guard_keys.
    destruct (String.eqb _ _); [|exact Hkeys]. now apply signup_keeps_keys.
  - (* list_users *)
    unfold list_users_view. guard_keys. exact Hkeys.
  - (* delete_user *)
    unfold delete_user_view. guard_keys. split_cases; open_keys;
      now apply NoDup_map_delete.
  - (* update_user *)
    unfold update_user_view. guard_keys.
    split_cases; try exact Hkeys;
      try (apply (tables_keyed_same w); [apply tables_report_all|exact Hkeys]);
      saved_email.
  - (* toggle_lock *)
    unfold toggle_lock_user. guard_keys. split_cases; open_keys; saved_same.
  - (* list_student *)
    unfold list_student_view. guard_keys. exact Hkeys.
  - (* delete_student *)
    unfold delete_student_view. guard_keys.
    split_cases; open_keys; now apply NoDup_map_delete.
  - (* manage_paths *)
    unfold manage_learning_paths. guard_keys. exact Hkeys.
  - (* add_path *)
    unfold add_learning_path. guard_keys.
    split_cases; try exact Hkeys;
      try (apply (tables_keyed_same w); [apply tables_report_form_errors|exact Hkeys]).
    match goal with H : create_path _ _ = Stored _ |- _ =>
      unfold create_path in H; destruct (order_refusal _) in H; [discriminate|];
      destruct (Db.exists_ _ _) eqn:Hfresh in H; [discriminate|];
      injection H as <- end.
    open_keys. apply NoDup_map_insert; [exact Hlp|].
    intros x Hx E.
    rewrite (exists_In _ _ x Hx) in Hfresh; [discriminate|].
    now apply has_path_id_true.
  - (* complete_path *)
    unfold complete_learning_path. guard_keys. split_cases; open_keys; saved_path.
  - (* unauthorized *)
    exact Hkeys.
  - (* delete_path *)
    unfold delete_learning_path. split_cases; open_keys; now apply NoDup_map_delete.
  - (* update_path *)
    unfold update_learning_path. guard_keys. split_cases; open_keys; saved_path.
Qed.

Ltac not_two_rows :=
  match goal with
  | Hk : List.NoDup (List.map User.email ?rows),
    H : Db.get (has_email ?e) ?rows = Db.MultipleObjectsReturned |- _ =>
      exfalso; exact (get_by_key User.email String.eqb rows e String_eqb_true Hk H)
  | Hk : List.NoDup (List.map User.id ?rows),
    H : Db.get (has_id ?i) ?rows = Db.MultipleObjectsReturned |- _ =>
      exfalso; exact (get_by_key User.id N.eqb rows i N_eqb_true Hk H)
  | Hk : List.NoDup (List.map Student.id ?rows),
    H : Db.get (has_student_id ?i) ?rows = Db.MultipleObjectsReturned |- _ =>
      exfalso; exact (get_by_key Student.id N.eqb rows i N_eqb_true Hk H)
  | Hk : List.NoDup (List.map LearningPath.id ?rows),
    H : Db.get (has_path_id ?i) ?rows = Db.MultipleObjectsReturned |- _ =>
      exfalso; exact (get_by_key LearningPath.id N.eqb rows i N_eqb_true Hk H)
  end.

Ltac guard_response :=
  match goal with |- context [admin_required ?parse ?view ?request ?w] =>
    let admin := fresh "admin" in
    let target := fresh "target" in
    let Hto := fresh "Hto" in
    let Hrun := fresh "Hrun" in
    destruct (guard_answers view request w) as [[[target Hto] _]|(admin & _ & Hrun)];
    [rewrite Hto; discriminate | rewrite Hrun; clear Hrun]
  end.

Lemma signup_response template admin ok_msg ok_target fail_msg request w :
  fst (signup hash_password validate_email
      save_refused template admin ok_msg ok_target fail_msg request w)
    <> Raise "MultipleObjectsReturned".
Proof.
  destruct (signup_outcome hash_password validate_email save_refused template admin ok_msg
              ok_target fail_msg request w)
    as [(e & p & _ & _ & _ & _ & _ & _ & _ & _ & _ & _ & _ & ->)|([-> | [-> | ->]] & _)];
    discriminate.
Qed.

(** With the keys in place no lookup finds two rows. *)
Lemma routes_find_one_row route request w :
  tables_keyed w -> fst (handle route request w) <> Raise "MultipleObjectsReturned".
Proof.
  intros (Hid & Hem & Hst & Hlp).
  destruct route; cbn [dispatch].
  - unfold login_view. split_cases; try discriminate; not_two_rows.
  - unfold register_view. destruct (String.eqb _ _); [apply signup_response|discriminate].
  - unfold logout_view. split_cases; try discriminate; not_two_rows.
  - unfold dashboard_view. split_cases; try discriminate; not_two_rows.
  - unfold add_user_view. guard_response.
    destruct (String.eqb _ _); [apply signup_response|discriminate].
  - unfold list_users_view. guard_response. discriminate.
  - unfold delete_user_view. guard_response. split_cases; try discriminate; not_two_rows.
  - unfold update_user_view. guard_response. split_cases; try discriminate; not_two_rows.
  - unfold toggle_lock_user. guard_response. split_cases; try discriminate; not_two_rows.
  - unfold list_student_view. guard_response. discriminate.
  - unfold delete_student_view. guard_response.
    split_cases; try discriminate; not_two_rows.
  - unfold manage_learning_paths. guard_response. discriminate.
  - unfold add_learning_path. guard_response.
    split_cases; try discriminate;
      try (match goal with H : create_path _ _ = Refused _ |- _ =>
             apply create_path_refusals in H as [-> | ->]; discriminate end);
      not_two_rows.
  - unfold complete_learning_path. guard_response.
    split_cases; try discriminate; not_two_rows.
  - discriminate.
  - unfold delete_learning_path. split_cases; try discriminate; not_two_rows.
  - unfold update_learning_path. guard_response.
    split_cases; try discriminate; not_two_rows.
Qed.

(** X12. The keys the lookups rely on are kept by the code's own checks.
    When user ids, user e-mail addresses, student ids and learning path ids
    are each without repetition, they still are after any list of requests
    served in turn, and in the state reached no route ends in the uncaught
    [MultipleObjectsReturned] of a [get]. *)
Theorem keys_are_kept calls w :
  tables_keyed w ->
  let w' := serve verify_password hash_password uuid_parse uuid_str validate_email save_refused
              calls w in
  tables_keyed w' /\
  forall route request,
    fst (handle route request w') <> Raise "MultipleObjectsReturned".
Proof.
  intros Hkeys w'.
  assert (H : tables_keyed w').
  { subst w'. revert w Hkeys.
    induction calls as [|[route request] calls IH]; intros w Hkeys; [exact Hkeys|].
    cbn [serve]. apply IH. now apply routes_keep_keys. }
  split; [exact H|]. intros route request. now apply routes_find_one_row.
Qed.

End Keys.

(** ** Further properties: the session *)

Lemma response_eq_dec (a b : Response) : {a = b} + {a <> b}.
Proof.
  decide equality; try apply string_dec; try apply Z.eq_dec.
  apply List.list_eq_dec. decide equality; apply string_dec.
Qed.

Section SessionWrites.

Variable verify_password : string -> string -> bool.
Variable hash_password : string -> string.
Variable uuid_parse : string -> option UUID.
Variable uuid_str : UUID -> string.
Variable validate_email : string -> bool.
Variable save_refused : User.t -> bool.

Local Abbreviation handle :=
  (dispatch verify_password hash_password uuid_parse uuid_str validate_email save_refused).

Ltac split_cases :=
  repeat match goal with
         | |- context [match ?x with _ => _ end] => destruct x eqn:?
         end.

Lemma session_report_all errors : forall w, session (report_all errors w) = session w.
Proof.
  unfold report_all. induction errors as [|e errors IH]; intros w; simpl; [reflexivity|].
  now rewrite IH.
Qed.

Lemma session_report_form_errors errors : forall w,
  session (report_form_errors errors w) = session w.
Proof.
  unfold report_form_errors.
  induction errors as [|[field es] errors IH]; intros w; simpl; [reflexivity|].
  rewrite IH. clear IH. revert w.
  induction es as [|e es IH]; intros w; simpl; [reflexivity|]. now rewrite IH.
Qed.

Lemma guard_session view request w :
  (session (snd (admin_required uuid_parse view request w)) = session w \/
   session (snd (admin_required uuid_parse view request w)) = ∅) \/
  (exists admin, admin_required uuid_parse view request w = view (set_user admin request) w).
Proof.
  unfold admin_required.
  destruct (negb (Py.truthy (session w !! "user_id"))); [left; left; reflexivity|].
  destruct (session w !! "user_id" ≫= uuid_parse) as [uid|]; [|left; right; reflexivity].
  destruct (Db.get (has_id uid) (users w)) as [user| |];
    [|left; right; reflexivity|left; left; reflexivity].
  destruct (User.is_admin user); [|left; left; reflexivity].
  right. exists user. reflexivity.
Qed.

Lemma signup_keeps_session template admin ok_msg ok_target fail_msg request w :
  session (snd (signup hash_password validate_email
      save_refused template admin ok_msg ok_target fail_msg
                  request w)) = session w.
Proof.
  destruct (signup_outcome hash_password validate_email save_refused template admin ok_msg
              ok_target fail_msg request w)
    as [(e & p & _ & _ & _ & _ & _ & _ & _ & _ & _ & _ & _ & ->)|(_ & _ & _ & _ & Hs)];
    [reflexivity|exact Hs].
Qed.

Ltac guard_then_same :=
  match goal with |- context [admin_required ?parse ?view ?request ?w] =>
    let admin := fresh "admin" in
    let Hs := fresh "Hs" in
    let Hrun := fresh "Hrun" in
    destruct (guard_session view request w) as [[Hs|Hs]|(admin & Hrun)];
    [left; exact Hs | right; left; exact Hs | rewrite Hrun; clear Hrun; left]
  end.

(** X13. The session is written in three ways only.  After a request, on
    any route, the session is what it was, or is empty, or the route is the
    login route and the session has received the id and the address of a
    user found by the posted address whose password was verified and who is
    an admin or not locked. *)
Theorem session_names_verified_users_only route request w :
  let w' := snd (handle route request w) in
  session w' = session w \/
  session w' = ∅ \/
  (route = login /\
   exists email password user,
     credentials_posted email password request /\
     Db.get (has_email email) (users w) = Db.Found user /\
     verify_password password (User.password user) = true /\
     (User.is_admin user = true \/ User.is_locked user = false) /\
     session w' = <["user_email" := User.email user]>
                    (<["user_id" := uuid_str (User.id user)]> (session w))).
Proof.
  cbn zeta. destruct route; cbn [dispatch].
  - (* login *)
    destruct (response_eq_dec (fst (login_view verify_password uuid_str request w))
                (Redirect "dashboard")) as [Hok|Hno].
    + right. right. split; [reflexivity|].
      destruct (login_redirect_inv verify_password uuid_str request w Hok)
        as (email & password & user & Hposted & Hget & Hallowed & Hv).
      exists email, password, user. do 4 (split; [assumption|]).
      now rewrite (login_success verify_password uuid_str request w email password
                     Hposted user Hget Hallowed Hv).
    + left. revert Hno. unfold login_view. split_cases; cbn [fst snd]; intros Hno;
        try reflexivity; now destruct Hno.
  - unfold register_view. destruct (String.eqb _ _); [|now left].
    left. apply signup_keeps_session.
  - unfold logout_view. split_cases; auto.
  - unfold dashboard_view. split_cases; auto.
  - unfold add_user_view. guard_then_same.
    destruct (String.eqb _ _); [apply signup_keeps_session|reflexivity].
  - unfold list_users_view. guard_then_same. reflexivity.
  - unfold delete_user_view. guard_then_same. split_cases; reflexivity.
  - unfold update_user_view. guard_then_same.
    split_cases; cbn [snd]; rewrite ?session_report_all; reflexivity.
  - unfold toggle_lock_user. guard_then_same. split_cases; reflexivity.
  - unfold list_student_view. guard_then_same. reflexivity.
  - unfold delete_student_view. guard_then_same. split_cases; reflexivity.
  - unfold manage_learning_paths. guard_then_same. reflexivity.
  - unfold add_learning_path. guard_then_same.
    split_cases; cbn [snd]; rewrite ?session_report_form_errors; try reflexivity.
    match goal with H : create_path _ _ = Stored _ |- _ =>
      unfold create_path in H; destruct (order_refusal _) in H; [discriminate|];
      destruct (Db.exists_ _ _) in H; [discriminate|];
      injection H as <- end.
    reflexivity.
  - unfold complete_learning_path. guard_then_same. split_cases; reflexivity.
  - now left.
  - unfold delete_learning_path. split_cases; auto.
  - unfold update_learning_path. guard_then_same. split_cases; reflexivity.
Qed.

End SessionWrites.

(** ** Further properties: editing a user *)

Section EditingUsers.

Variable verify_password : string -> string -> bool.
Variable hash_password : string -> string.
Variable uuid_parse : string -> option UUID.
Variable validate_email : string -> bool.
Variable save_refused : User.t -> bool.





End EditingUsers.

(** ** Further properties: learning paths *)

Section SavingARow.

Context {A : Type}.
Variables (p : A -> bool) (rows : list A) (old new : A).
Hypothesis found : Db.get p rows = Db.Found old.

Lemma save_is_update : Db.save p new rows = Db.update p new rows.
Proof. unfold Db.save. now rewrite (get_Found_exists _ _ _ found). Qed.

Lemma get_after_save : p new = true -> Db.get p (Db.save p new rows) = Db.Found new.
Proof.
  intros Hnew. rewrite save_is_update. apply get_Found_filter. unfold Db.update.
  rewrite filter_map_commute.
  - rewrite (proj1 (get_Found_filter _ _ _) found). simpl.
    destruct (get_Found_In _ _ _ found) as [_ ->]. reflexivity.
  - intros x _. destruct (p x) eqn:E; congruence.
Qed.

Lemma In_save_found x :
  In x (Db.save p new rows) <-> x = new \/ (In x rows /\ p x = false).
Proof.
  rewrite save_is_update. split.
  - intros H. apply In_update in H. tauto.
  - intros [->|[H1 H2]].
    + destruct (get_Found_In _ _ _ found) as [Hin Hp]. exact (update_puts _ _ _ old Hin Hp).
    + now apply update_keeps.
Qed.

Lemma save_again : Db.save p old rows = rows.
Proof.
  unfold Db.save. rewrite (get_Found_exists _ _ _ found). unfold Db.update.
  rewrite <- (List.map_id rows) at 2. apply List.map_ext_in.
  intros x Hx. destruct (p x) eqn:E; [|reflexivity].
  symmetry. exact (get_Found_only _ _ _ _ found Hx E).
Qed.

End SavingARow.

Lemma has_path_id_false i p : has_path_id i p = false <-> LearningPath.id p <> i.
Proof. unfold has_path_id. apply N.eqb_neq. Qed.

Lemma logged_in_same uuid_parse user w w' :
  session w' = session w -> users w' = users w ->
  logged_in uuid_parse user w -> logged_in uuid_parse user w'.
Proof. intros Hs Hu (text & H). exists text. now rewrite Hs, Hu. Qed.

Section PathsMore.

Variable uuid_parse : string -> option UUID.

(** What [complete_learning_path] does for an admin, a POST and a stored
    path. *)
Lemma complete_learning_path_runs path_id request w caller path :
  logged_in uuid_parse caller w -> User.is_admin caller = true ->
  method request = "POST" ->
  Db.get (has_path_id path_id) (learning_paths w) = Db.Found path ->
  complete_learning_path uuid_parse path_id request w =
    (Redirect "dashboard",
     message SUCCESS "Learning path marked as completed!"
       (set_learning_paths
          (Db.save (has_path_id path_id) (LearningPath.set_is_completed true path)
             (learning_paths w)) w)).
Proof.
  intros Hlog Hadm Hm Hget. unfold complete_learning_path.
  rewrite (guard_admits _ _ _ _ caller Hlog Hadm). cbn [method set_user].
  rewrite Hm, String.eqb_refl, Hget.
  destruct (get_Found_In _ _ _ Hget) as [_ Hid]. apply has_path_id_true in Hid.
  cbn [LearningPath.id LearningPath.set_is_completed]. now rewrite Hid.
Qed.

(** X15. [complete_learning_path], for an admin, a POST and a stored path,
    sets the completed flag of that row and changes nothing else: the row
    keeps its student, its order and its other fields, every other row stays,
    and the users, the students and the session are untouched.  Completing
    the same path again leaves the table as it is. *)
Theorem complete_learning_path_idempotent path_id request again w caller path :
  logged_in uuid_parse caller w -> User.is_admin caller = true ->
  method request = "POST" -> method again = "POST" ->
  Db.get (has_path_id path_id) (learning_paths w) = Db.Found path ->
  let w1 := snd (complete_learning_path uuid_parse path_id request w) in
  fst (complete_learning_path uuid_parse path_id request w) = Redirect "dashboard" /\
  Db.get (has_path_id path_id) (learning_paths w1)
    = Db.Found (LearningPath.set_is_completed true path) /\
  (forall other, LearningPath.id other <> path_id ->
                 (In other (learning_paths w1) <-> In other (learning_paths w))) /\
  (forall student, orders_of student (learning_paths w1)
                   = orders_of student (learning_paths w)) /\
  users w1 = users w /\ students w1 = students w /\ session w1 = session w /\
  learning_paths (snd (complete_learning_path uuid_parse path_id again w1))
    = learning_paths w1.
Proof.
  intros Hlog Hadm Hm Hm' Hget w1. subst w1.
  rewrite (complete_learning_path_runs path_id request w caller path Hlog Hadm Hm Hget).
  cbn [fst snd learning_paths users students session message set_learning_paths].
  destruct (get_Found_In _ _ _ Hget) as [_ Hid].
  assert (Hdone : Db.get (has_path_id path_id)
                    (Db.save (has_path_id path_id)
                       (LearningPath.set_is_completed true path) (learning_paths w))
                  = Db.Found (LearningPath.set_is_completed true path))
    by (apply (get_after_save _ _ path); assumption).
  split; [reflexivity|]. split; [exact Hdone|]. split.
  { intros other Hother. rewrite (In_save_found _ _ path _ Hget).
    rewrite has_path_id_false. split; [intros [->|[H _]]; [|exact H]|intros H; right; auto].
    exfalso. apply Hother. apply has_path_id_true in Hid. exact Hid. }
  split; [intros student; now apply (orders_of_save student _ _ path)|].
  do 3 (split; [reflexivity|]).
  rewrite (complete_learning_path_runs path_id again _ caller
             (LearningPath.set_is_completed true path)); [|now apply (logged_in_same _ _ w)
                                                         |exact Hadm|exact Hm'|exact Hdone].
  cbn [snd learning_paths message set_learning_paths].
  change (LearningPath.set_is_completed true (LearningPath.set_is_completed true path))
    with (LearningPath.set_is_completed true path).
  now apply save_again.
Qed.

(** X16. [update_learning_path], for an admin, a POST and a stored path:
    with a valid form it saves the row with the cleaned task name, dates
    (the timestamps as posted, not cut to their day), duration, leave and
    notes, and keeps its id, its student, its order and its completed flag,
    so the orders of every student are as before; with an invalid form it
    answers with status 400 and the state is the one it was given. *)
Theorem update_learning_path_keeps_position path_id request w caller path :
  logged_in uuid_parse caller w -> User.is_admin caller = true ->
  method request = "POST" ->
  Db.get (has_path_id path_id) (learning_paths w) = Db.Found path ->
  let r := update_learning_path uuid_parse path_id request w in
  (is_valid (now request) (Some (LearningPath.id path)) (path_form request) = true ->
   exists task start end_ duration leave notes,
     path_form request
       = mkFields (Cleaned task) (Cleaned start) (Cleaned end_) (Cleaned duration)
                  (Cleaned leave) (Cleaned notes) /\
     fst r = JsonResponse 200 [("status", "success")] /\
     Db.get (has_path_id path_id) (learning_paths (snd r))
       = Db.Found
           (LearningPath.mk (LearningPath.id path) (LearningPath.student path) task
              start end_ (strip_or_none leave) (strip_or_none notes) (Py.strip duration)
              (LearningPath.is_completed path) (LearningPath.order path)) /\
     (forall other, LearningPath.id other <> path_id ->
                    (In other (learning_paths (snd r)) <-> In other (learning_paths w))) /\
     (forall student, orders_of student (learning_paths (snd r))
                      = orders_of student (learning_paths w))) /\
  (is_valid (now request) (Some (LearningPath.id path)) (path_form request) = false ->
   exists payload, r = (JsonResponse 400 payload, w)).
Proof.
  intros Hlog Hadm Hm Hget. cbn zeta. unfold update_learning_path.
  rewrite (guard_admits _ _ _ _ caller Hlog Hadm). rewrite Hget.
  cbn [method set_user now path_form]. rewrite Hm, String.eqb_refl.
  destruct (get_Found_In _ _ _ Hget) as [_ Hid]. pose proof Hid as Hid'.
  apply has_path_id_true in Hid'. subst path_id.
  split; intros Hvalid; rewrite Hvalid; [|eauto].
  apply is_valid_characterised in Hvalid as (task & start & end_ & duration & leave & notes
                                   & Hform & Hdur & _).
  exists task, start, end_, duration, leave, notes. split; [exact Hform|].
  split; [reflexivity|].
  assert (Hnew : construct_instance (cleaned_data (path_form request)) path
                 = LearningPath.mk (LearningPath.id path) (LearningPath.student path) task
                     start end_ (strip_or_none leave) (strip_or_none notes)
                     (Py.strip duration) (LearningPath.is_completed path)
                     (LearningPath.order path)).
  { rewrite Hform. unfold construct_instance, cleaned_data, clean_required_duration.
    cbn [f_task_name f_start_date f_estimated_end_date f_required_duration f_used_leave
         f_notes]. rewrite truthy_Some by assumption. reflexivity. }
  rewrite Hnew.
  cbn [snd learning_paths message set_learning_paths LearningPath.id].
  split; [apply (get_after_save _ _ path); [exact Hget|exact Hid]|split].
  - intros other Hother. rewrite (In_save_found _ _ path _ Hget).
    rewrite has_path_id_false. split; [intros [->|[H _]]; [|exact H]|intros H; right; auto].
    exfalso. apply Hother. reflexivity.
  - intros student. now apply (orders_of_save student _ _ path).
Qed.

End PathsMore.

Section PathsMore2.

Variable uuid_parse : string -> option UUID.

(** X17. Deleting a student, for an admin and a POST, removes the student
    and with it exactly the learning paths of that student; the learning
    paths of the other students and the users stay.  Deleting a learning
    path, on the other hand, never touches the students. *)
Theorem delete_student_cascades student_id request w caller student :
  logged_in uuid_parse caller w -> User.is_admin caller = true ->
  method request = "POST" ->
  Db.get (has_student_id student_id) (students w) = Db.Found student ->
  let r := delete_student_view uuid_parse student_id request w in
  fst r = Redirect "list_student" /\
  (forall s, In s (students (snd r)) <-> In s (students w) /\ Student.id s <> student_id) /\
  (forall p, In p (learning_paths (snd r))
             <-> In p (learning_paths w) /\ LearningPath.student p <> student_id) /\
  users (snd r) = users w /\
  forall path_id request',
    students (snd (delete_learning_path path_id request' w)) = students w.
Proof.
  intros Hlog Hadm Hm Hget. cbn zeta. unfold delete_student_view.
  rewrite (guard_admits _ _ _ _ caller Hlog Hadm). rewrite Hget.
  cbn [method set_user]. rewrite Hm, String.eqb_refl.
  destruct (get_Found_In _ _ _ Hget) as [_ Hid].
  unfold has_student_id in Hid. apply N.eqb_eq in Hid. rewrite Hid.
  cbn [fst snd students learning_paths users message set_students set_learning_paths].
  split; [reflexivity|]. split.
  { intros s. rewrite In_delete. unfold has_student_id. now rewrite N.eqb_neq. }
  split.
  { intros p. rewrite In_delete. unfold of_student. now rewrite N.eqb_neq. }
  split; [reflexivity|].
  intros path_id request'. unfold delete_learning_path.
  destruct (String.eqb _ _); try reflexivity.
  all: destruct (Db.get (has_path_id path_id) (learning_paths w)); reflexivity.
Qed.

Lemma max_of_app_top l k :
  (forall j, In j l -> j <= k) -> Db.max_of (l ++ [k]) = Some k.
Proof.
  induction l as [|x l IH]; intros Hle; [reflexivity|].
  simpl. rewrite IH by (intros j Hj; apply Hle; now right).
  f_equal. apply Z.max_r. apply Hle. now left.
Qed.

(** After a row with the next order is appended, the largest order of its
    student is that order. *)
Lemma max_order_after_insert student new paths :
  LearningPath.student new = student ->
  LearningPath.order new = max_order student paths + 1 ->
  orders_of student (paths ++ [new]) = (orders_of student paths ++ [LearningPath.order new])%list /\
  max_order student (paths ++ [new]) = LearningPath.order new.
Proof.
  intros Hs Ho.
  assert (E : orders_of student (paths ++ [new])
              = (orders_of student paths ++ [LearningPath.order new])%list).
  { rewrite orders_of_app. f_equal. unfold orders_of. simpl.
    replace (of_student student new) with true; [reflexivity|].
    symmetry. now apply of_student_true. }
  split; [exact E|].
  unfold max_order. fold (orders_of student (paths ++ [new])). rewrite E.
  rewrite max_of_app_top; [apply or_zero_Some|].
  intros j Hj. apply max_order_bound in Hj. lia.
Qed.

(** X18. Stages added in turn are numbered consecutively.  When an admin
    adds stages to one student with [n] accepted requests, the orders of
    the student become the former ones followed by [m + 1], ..., [m + n],
    where [m] is the largest former order, or 0 when there was none,
    provided these orders fit the column: [0 <= m + 1] and
    [m + n <= 2147483647]. *)
Theorem additions_are_numbered_in_turn student_id requests : forall w caller student,
  logged_in uuid_parse caller w -> User.is_admin caller = true ->
  Db.get (has_student_id student_id) (students w) = Db.Found student ->
  accepted_additions requests (learning_paths w) ->
  0 <= max_order student_id (learning_paths w) + 1 ->
  max_order student_id (learning_paths w) + Z.of_nat (length requests) <= 2147483647 ->
  orders_of student_id
    (learning_paths (after (add_learning_path uuid_parse student_id) requests w))
  = (orders_of student_id (learning_paths w) ++
     List.map (fun i => max_order student_id (learning_paths w) + Z.of_nat i)
              (seq 1 (length requests)))%list.
Proof.
  induction requests as [|request rest IH];
    intros w caller student Hlog Hadm Hget [Hall Hnd] Hlo Hhi.
  - simpl. now rewrite List.app_nil_r.
  - inversion Hall as [|? ? (Hm & Hvalid & Hfresh) Hrest]; subst.
    inversion Hnd as [|? ? Hnew Hnd']; subst.
    cbn [after]. cbn [length] in Hhi.
    rewrite (add_learning_path_runs uuid_parse student_id request w caller student
               Hlog Hadm Hm Hget Hvalid Hfresh ltac:(lia)).
    cbn [snd].
    destruct (get_Found_In _ _ _ Hget) as [_ Hid].
    unfold has_student_id in Hid. apply N.eqb_eq in Hid. rewrite Hid.
    set (new := LearningPath.set_order
                  (max_order student_id (learning_paths w) + 1)
                  (LearningPath.set_student student_id
                     (construct_instance (cleaned_data (path_form request))
                        (LearningPath.blank (uuid4 request))))).
    set (w1 := message SUCCESS _ _).
    assert (Hpaths : learning_paths w1 = (learning_paths w ++ [new])%list) by reflexivity.
    destruct (max_order_after_insert student_id new (learning_paths w) eq_refl eq_refl)
      as [Horders Hmax].
    rewrite (IH w1 caller student).
    + rewrite Hpaths, Horders, Hmax. cbn [LearningPath.order LearningPath.set_order new].
      rewrite <- List.app_assoc. f_equal. cbn [length seq List.map app]. f_equal.
      rewrite <- (List.seq_shift (length rest) 1), List.map_map.
      apply List.map_ext. intros i. lia.
    + now apply (logged_in_same _ _ w).
    + exact Hadm.
    + exact Hget.
    + split; [|exact Hnd'].
      rewrite Hpaths. apply List.Forall_forall. intros r Hr.
      rewrite List.Forall_forall in Hrest. destruct (Hrest r Hr) as (H1 & H2 & H3).
      split; [exact H1|]. split; [exact H2|].
      unfold Db.exists_. rewrite existsb_app. unfold Db.exists_ in H3. rewrite H3.
      simpl. rewrite orb_false_r. unfold has_path_id. apply N.eqb_neq.
      cbn [LearningPath.id new LearningPath.set_order LearningPath.set_student
           construct_instance LearningPath.blank].
      intros E. apply Hnew.
      assert (Hin : In (uuid4 r) (List.map uuid4 rest)) by now apply List.in_map.
      congruence.
    + rewrite Hpaths, Hmax. cbn [LearningPath.order LearningPath.set_order new]. lia.
    + rewrite Hpaths, Hmax. cbn [LearningPath.order LearningPath.set_order new]. lia.
Qed.

End PathsMore2.

(** ** The lockout under the routes of the application *)

Lemma filter_map_fixed {A} (q : A -> bool) (g : A -> A) rows :
  (forall x, In x rows -> q (g x) = q x /\ (q x = true -> g x = x)) ->
  List.filter q (List.map g rows) = List.filter q rows.
Proof.
  induction rows as [|x rows IH]; simpl; intros H; [reflexivity|].
  destruct (H x (or_introl eq_refl)) as [Hq Hfix]. rewrite Hq.
  destruct (q x) eqn:E.
  - rewrite (Hfix eq_refl). f_equal. apply IH. intros y Hy. apply H. now right.
  - apply IH. intros y Hy. apply H. now right.
Qed.

Lemma filter_swap {A} (p q : A -> bool) rows :
  List.filter p (List.filter q rows) = List.filter q (List.filter p rows).
Proof.
  induction rows as [|x rows IH]; simpl; [reflexivity|].
  destruct (p x) eqn:Hp, (q x) eqn:Hq; simpl; rewrite ?Hp, ?Hq, IH; reflexivity.
Qed.

Section LockedOut.

Variable verify_password : string -> string -> bool.
Variable hash_password : string -> string.
Variable uuid_parse : string -> option UUID.
Variable uuid_str : UUID -> string.
Variable validate_email : string -> bool.
Variable save_refused : User.t -> bool.

Local Abbreviation handle :=
  (dispatch verify_password hash_password uuid_parse uuid_str validate_email save_refused).

Ltac split_cases :=
  repeat match goal with
         | |- context [match ?x with _ => _ end] => destruct x eqn:?
         end.

(** The row with the address of the locked account is that account. *)
Lemma locked_out_row e i rows v :
  locked_out e i rows -> In v rows ->
  (User.email v = e -> User.id v = i) /\
  (User.id v = i ->
   User.email v = e /\ User.is_admin v = false /\ User.is_locked v = true).
Proof.
  intros (Hk & u & Hget & Hid & Ha & Hl) Hin.
  pose proof (get_Found_In _ _ _ Hget) as [Hu He].
  unfold has_email in He. apply String.eqb_eq in He.
  split.
  - intros Hv. rewrite <- Hid. f_equal.
    apply (get_Found_only _ _ _ _ Hget Hin). unfold has_email. now apply String.eqb_eq.
  - intros Hv.
    assert (E : v = u) by (apply (keyed_same_id rows); congruence).
    subst v. auto.
Qed.

(** A save keeps the locked account as it is when it writes another account
    without giving it the address, or the account itself with its address
    and its two flags. *)
Lemma locked_out_save e i rows v new t :
  locked_out e i rows -> In v rows -> User.id new = User.id v ->
  (User.id v = i ->
   User.email new = e /\ User.is_admin new = false /\ User.is_locked new = true) ->
  (User.id v <> i -> User.email new <> e) ->
  locked_out e i (User_save t new rows).
Proof.
  intros Hout Hin Hnew Hself Hother.
  destruct (locked_out_row e i rows v Hout Hin) as [Haddr Hrow].
  destruct Hout as (Hk & u & Hget & Hid & Ha & Hl).
  split; [now apply (User_save_keyed rows v new t Hk Hin Hnew)|].
  destruct (N.eq_dec (User.id v) i) as [E|E].
  - destruct (Hself E) as (He & Hna & Hnl).
    destruct (Hrow E) as (Hve & _ & _).
    exists (User.set_updated_at t new). split.
    + assert (Huv : v = u).
      { pose proof (get_Found_In _ _ _ Hget) as [Hu _].
        apply (keyed_same_id rows); congruence. }
      subst u.
      apply (get_after_User_save rows v new t Hk Hin Hnew _ Hget).
      unfold has_email. cbn [User.email User.set_updated_at]. now rewrite He, Hve.
    + cbn [User.id User.is_admin User.is_locked User.set_updated_at]. split; [congruence|auto].
  - exists u. split; [|auto].
    rewrite (User_save_is_update rows v new t Hin Hnew).
    apply get_Found_filter. apply get_Found_filter in Hget.
    unfold Db.update. rewrite filter_map_fixed; [exact Hget|].
    intros x Hx. destruct (has_id (User.id v) x) eqn:Hx_id; [|auto].
    apply has_id_true in Hx_id.
    assert (Hxv : x = v) by now apply (keyed_same_id rows).
    subst x.
    assert (Hnot : has_email e v = false).
    { unfold has_email. apply String.eqb_neq. intros Hv. apply E. now apply Haddr. }
    rewrite Hnot. split; [|discriminate].
    unfold has_email. cbn [User.email User.set_updated_at].
    apply String.eqb_neq. now apply Hother.
Qed.

(** A save of a row the view has loaded and whose address, admin flag and
    lock flag it has not touched. *)
Lemma locked_out_resave e i rows v new t :
  locked_out e i rows -> In v rows -> User.id new = User.id v ->
  User.email new = User.email v -> User.is_admin new = User.is_admin v ->
  User.is_locked new = User.is_locked v ->
  locked_out e i (User_save t new rows).
Proof.
  intros Hout Hin Hid He Ha Hl.
  destruct (locked_out_row e i rows v Hout Hin) as [Haddr Hrow].
  apply (locked_out_save e i rows v); try assumption.
  - intros E. destruct (Hrow E) as (? & ? & ?). split; [|split]; congruence.
  - intros E Hnew. apply E, Haddr. congruence.
Qed.

Lemma locked_out_insert e i rows new :
  locked_out e i rows ->
  Db.exists_ (has_email (User.email new)) rows = false ->
  Db.exists_ (has_id (User.id new)) rows = false ->
  locked_out e i (Db.insert new rows).
Proof.
  intros (Hk & u & Hget & Hid & Ha & Hl) Hfree Hfresh.
  pose proof (get_Found_In _ _ _ Hget) as [Hu He].
  split.
  - apply NoDup_map_insert; [exact Hk|].
    intros x Hx E.
    rewrite (exists_In _ _ x Hx) in Hfresh; [discriminate|].
    unfold has_id. now apply N.eqb_eq.
  - exists u. split; [|auto].
    apply get_Found_filter. apply get_Found_filter in Hget.
    unfold Db.insert. rewrite List.filter_app, Hget. simpl.
    replace (has_email e new) with false; [reflexivity|].
    symmetry. unfold has_email. apply String.eqb_neq. intros E.
    rewrite (exists_In _ _ u Hu) in Hfree; [discriminate|].
    unfold has_email in *. now rewrite E.
Qed.

Lemma locked_out_delete e i rows j :
  locked_out e i rows -> j <> i -> locked_out e i (Db.delete (has_id j) rows).
Proof.
  intros (Hk & u & Hget & Hid & Ha & Hl) Hne.
  split; [now apply NoDup_map_delete|].
  exists u. split; [|auto].
  apply get_Found_filter. apply get_Found_filter in Hget.
  unfold Db.delete. rewrite filter_swap, Hget. simpl.
  replace (has_id j u) with false; [reflexivity|].
  symmetry. unfold has_id. apply N.eqb_neq. congruence.
Qed.

Lemma signup_keeps_locked_out e i template admin ok_msg ok_target fail_msg request w :
  locked_out e i (users w) ->
  locked_out e i
    (users (snd (signup hash_password validate_email save_refused template admin ok_msg
                   ok_target fail_msg request w))).
Proof.
  intros Hout.
  destruct (signup_outcome hash_password validate_email save_refused template admin ok_msg
              ok_target fail_msg request w)
    as [(email & p & _ & _ & _ & _ & _ & _ & _ & _ & Hfree & Hfresh & _ & ->)
       |(_ & -> & _)]; [|exact Hout].
  cbn [snd users message set_users].
  now apply (locked_out_insert e i (users w)).
Qed.

Ltac guard_locked :=
  match goal with
  | |- context [admin_required ?parse ?view ?request ?w] =>
      let Hu := fresh "Hu" in
      let admin := fresh "admin" in
      let Hrun := fresh "Hrun" in
      destruct (guard_cases parse view request w) as [(Hu & _ & _)|(admin & _ & Hrun)];
      [rewrite Hu; assumption | rewrite Hrun; clear Hrun]
  end.

(** Every route keeps a locked account locked, the three routes on which an
    admin edits that account apart. *)
Lemma routes_keep_locked_out e i route request w :
  locked_out e i (users w) -> ~ edits_account i route ->
  locked_out e i (users (snd (handle route request w))).
Proof.
  intros Hout Hroute.
  destruct route; cbn [dispatch].
  - (* login *)
    unfold login_view.
    split_cases; cbn [snd users message set_users set_session]; try exact Hout.
    all: match goal with Hget : Db.get _ _ = Db.Found ?v |- _ =>
           pose proof (get_Found_In _ _ _ Hget) as [Hin _];
           destruct (locked_out_row e i (users w) v Hout Hin) as [Haddr Hrow];
           apply (locked_out_save e i (users w) v); [exact Hout|exact Hin|reflexivity| |]
         end.
    all: try (intros E; destruct (Hrow E) as (_ & Hna & Hnl);
              rewrite ?Hna, ?Hnl in *; cbn [negb andb] in *; congruence).
    all: intros E Hnew; apply E, Haddr; exact Hnew.
  - (* register *)
    unfold register_view.
    destruct (String.eqb _ _); [now apply signup_keeps_locked_out|exact Hout].
  - (* logout *)
    unfold logout_view.
    split_cases; cbn [snd users message session_flush set_session set_users];
      try exact Hout.
    match goal with Hget : Db.get _ _ = Db.Found ?v |- _ =>
      pose proof (get_Found_In _ _ _ Hget) as [Hin _];
      apply (locked_out_resave e i (users w) v); auto end.
  - (* dashboard *)
    unfold dashboard_view. split_cases; exact Hout.
  - (* add_user *)
    unfold add_user_view. guard_locked.
    destruct (String.eqb _ _); [now apply signup_keeps_locked_out|exact Hout].
  - (* list_users *)
    unfold list_users_view. guard_locked. exact Hout.
  - (* delete_user *)
    unfold delete_user_view. guard_locked.
    split_cases; cbn [snd users message set_users]; try exact Hout.
    match goal with Hget : Db.get _ _ = Db.Found ?v |- _ =>
      pose proof (get_Found_In _ _ _ Hget) as [_ Hv]; apply has_id_true in Hv;
      rewrite Hv end.
    apply locked_out_delete; [exact Hout|].
    intros ->. apply Hroute. right. right. reflexivity.
  - (* update_user *)
    assert (Hne : user_id <> i) by (intros ->; apply Hroute; right; left; reflexivity).
    unfold update_user_view. guard_locked.
    split_cases; cbn [snd users message set_users]; rewrite ?users_report_all;
      try exact Hout.
    all: match goal with Hget : Db.get _ _ = Db.Found ?v |- _ =>
           pose proof (get_Found_In _ _ _ Hget) as [Hin Hv]; apply has_id_true in Hv;
           apply (locked_out_save e i (users w) v);
             [exact Hout|exact Hin|reflexivity|intros E; congruence|intros _]
         end.
    all: cbn [User.email User.set_is_admin User.set_last_name User.set_first_name
              User.set_email User.set_password].
    all: intros ->.
    all: destruct Hout as (_ & u & Hu & Hid & _);
         pose proof (get_Found_In _ _ _ Hu) as [Hu_in Hu_e].
    all: match goal with Hfree : Db.exists_ _ _ = false |- _ =>
           rewrite (exists_In _ _ u Hu_in) in Hfree; [discriminate|] end.
    all: rewrite Hu_e; cbn [andb]; unfold has_id; apply negb_true_iff, N.eqb_neq;
         congruence.
  - (* toggle_lock *)
    assert (Hne : user_id <> i) by (intros ->; apply Hroute; left; reflexivity).
    unfold toggle_lock_user. guard_locked.
    split_cases; cbn [snd users message set_users]; try exact Hout.
    all: match goal with Hget : Db.get _ _ = Db.Found ?v |- _ =>
           pose proof (get_Found_In _ _ _ Hget) as [Hin Hv]; apply has_id_true in Hv;
           destruct (locked_out_row e i (users w) v Hout Hin) as [Haddr _];
           apply (locked_out_save e i (users w) v);
             [exact Hout|exact Hin|reflexivity|intros E; congruence
             |intros _ Hnew; apply Hne; rewrite <- Hv; apply Haddr; exact Hnew]
         end.
  - (* list_student *)
    unfold list_student_view. guard_locked. exact Hout.
  - (* delete_student *)
    unfold delete_student_view. guard_locked. split_cases; exact Hout.
  - (* manage_paths *)
    unfold manage_learning_paths. guard_locked. exact Hout.
  - (* add_path *)
    unfold add_learning_path. guard_locked.
    split_cases; cbn [snd users message]; rewrite ?users_report_form_errors;
      try exact Hout.
    match goal with H : create_path _ _ = Stored _ |- _ =>
      unfold create_path in H; destruct (order_refusal _) in H; [discriminate|];
      destruct (Db.exists_ _ _) in H; [discriminate|];
      injection H as <- end.
    exact Hout.
  - (* complete_path *)
    unfold complete_learning_path. guard_locked. split_cases; exact Hout.
  - (* unauthorized *)
    exact Hout.
  - (* delete_path *)
    unfold delete_learning_path. split_cases; exact Hout.
  - (* update_path *)
    unfold update_learning_path. guard_locked. split_cases; exact Hout.
Qed.

Lemma serve_keeps_locked_out e i calls : forall w,
  locked_out e i (users w) ->
  Forall (fun call => ~ edits_account i (fst call)) calls ->
  locked_out e i
    (users (serve verify_password hash_password uuid_parse uuid_str validate_email
              save_refused calls w)).
Proof.
  induction calls as [|[route request] calls IH]; intros w Hout Hall; [exact Hout|].
  inversion Hall as [|? ? Hroute Hrest]; subst.
  cbn [serve]. apply IH; [|exact Hrest]. now apply routes_keep_locked_out.
Qed.

(** C2, as the code has it.  A non-admin account that is not locked and
    fails a login: at the fifth failure (counter at 4 before) the counter
    becomes 5, the account is locked and the account-locked message is
    shown.  From then on, whatever requests are served in turn on whatever
    routes, as long as none of them is for the lock toggle, the update or
    the deletion of that account, a login attempt for its address ends on
    the login page, whatever the password and whatever the password check
    answers, and writes neither the users table nor the session.  An admin
    toggle that does not ask for a lock unlocks the account and resets the
    counter.  A failure that leaves the counter below 5 shows the attempt
    count out of 5 instead and does not lock. *)
Theorem lockout_on_fifth_failure request w email password user :
  credentials_posted email password request ->
  users_keyed (users w) ->
  Db.get (has_email email) (users w) = Db.Found user ->
  User.is_admin user = false ->
  User.is_locked user = false ->
  verify_password password (User.password user) = false ->
  (User.failed_login_attempts user = 4 ->
   exists w' locked,
     login_view verify_password uuid_str request w = (Render "login.html", w') /\
     flash w' = (flash w ++ [(ERROR, msg_now_locked)])%list /\
     session w' = session w /\
     users_keyed (users w') /\
     Db.get (has_email email) (users w') = Db.Found locked /\
     User.id locked = User.id user /\
     User.failed_login_attempts locked = 5 /\
     User.is_locked locked = true /\
     (forall calls verify attempt,
        Forall (fun call => ~ edits_account (User.id user) (fst call)) calls ->
        POST attempt !! "email" = Some email ->
        let w1 := serve verify_password hash_password uuid_parse uuid_str validate_email
                    save_refused calls w' in
        fst (login_view verify uuid_str attempt w1) = Render "login.html" /\
        users (snd (login_view verify uuid_str attempt w1)) = users w1 /\
        session (snd (login_view verify uuid_str attempt w1)) = session w1) /\
     (forall admin unlock w1,
        users w1 = users w' ->
        logged_in uuid_parse admin w1 -> User.is_admin admin = true ->
        method unlock = "POST" -> POST unlock !! "is_locked" <> Some "on" ->
        exists w2 unlocked,
          toggle_lock_user uuid_parse (User.id user) unlock w1
            = (Redirect "list_users", w2) /\
          Db.get (has_id (User.id user)) (users w2) = Db.Found unlocked /\
          User.is_locked unlocked = false /\
          User.failed_login_attempts unlocked = 0)) /\
  (User.failed_login_attempts user + 1 < 5 ->
   exists w' counted,
     login_view verify_password uuid_str request w = (Render "login.html", w') /\
     flash w' =
       (flash w ++ [(ERROR, msg_attempt (User.failed_login_attempts user + 1))])%list /\
     Db.get (has_email email) (users w') = Db.Found counted /\
     User.failed_login_attempts counted = User.failed_login_attempts user + 1 /\
     User.is_locked counted = false).
Proof.
  intros Hposted Hk Hget Ha Hl Hv.
  pose proof (get_Found_In _ _ _ Hget) as [Hin _].
  split.
  - intros H4.
    rewrite (login_failure_locks verify_password uuid_str request w email password
               Hposted user Hget Ha Hl Hv) by lia.
    set (new := User.set_is_locked true (failed_once user)).
    set (locked := User.set_updated_at (now request) new).
    assert (Hget' : Db.get (has_email email)
                      (User_save (now request) new (users w)) = Db.Found locked).
    { apply (get_after_User_save (users w) user new (now request) Hk Hin eq_refl _ Hget).
      reflexivity. }
    assert (Hk' : users_keyed (User_save (now request) new (users w))).
    { apply (User_save_keyed (users w) user new (now request) Hk Hin eq_refl). }
    set (w' := message ERROR msg_now_locked
                 (set_users (User_save (now request) new (users w)) w)).
    assert (Hu' : users w' = User_save (now request) new (users w)) by reflexivity.
    exists w', locked.
    split; [reflexivity|]. split; [reflexivity|]. split; [reflexivity|].
    split; [rewrite Hu'; exact Hk'|]. split; [rewrite Hu'; exact Hget'|].
    split; [reflexivity|]. split; [simpl; lia|]. split; [reflexivity|].
    split.
    + intros calls verify attempt Hall He w1.
      assert (Hout : locked_out email (User.id user) (users w')).
      { split; [rewrite Hu'; exact Hk'|]. exists locked.
        split; [rewrite Hu'; exact Hget'|]. split; [reflexivity|]. split; [exact Ha|].
        reflexivity. }
      destruct (serve_keeps_locked_out email (User.id user) calls w' Hout Hall)
        as (_ & u1 & Hget1 & _ & Ha1 & Hl1).
      apply (locked_attempt uuid_str verify attempt w1 email u1 He Hget1 Ha1 Hl1).
    + intros admin unlock w1 Hsame Hlog Hadm Hm Hoff.
      assert (Hid : Db.get (has_id (User.id user)) (users w1) = Db.Found locked).
      { rewrite Hsame, Hu'.
        apply (get_id_after_User_save (users w) user new (now request) Hk Hin eq_refl). }
      destruct (toggle_sets_lock uuid_parse admin locked (User.id user) unlock w1
                  Hlog Hadm Hm) as (w2 & Hrun & Hfound & Hlock & Hcount);
        [rewrite Hsame, Hu'; exact Hk'|exact Hid|].
      exists w2. eexists. split; [exact Hrun|]. split; [exact Hfound|].
      split; [|exact Hcount].
      rewrite Hlock. apply bool_decide_eq_false. exact Hoff.
  - intros Hlt.
    rewrite (login_failure_counted verify_password uuid_str request w email password
               Hposted user Hget Ha Hl Hv Hlt).
    eexists. exists (User.set_updated_at (now request) (failed_once user)).
    split; [reflexivity|].
    cbn [flash users message set_users].
    split; [reflexivity|]. split; [|simpl; auto].
    apply (get_after_User_save (users w) user (failed_once user) (now request)
             Hk Hin eq_refl _ Hget).
    reflexivity.
Qed.

End LockedOut.

(** C2 as stated fails: an admin who ticks the admin box of a locked
    account in [update_user_view] lifts the lockout without the toggle,
    because admins are exempt from the lock.  The account logs in with its
    password and its lock flag still set. *)
Lemma locked_account_made_admin_logs_in :
  ~ locked_until_toggle Sample.verify_password Sample.hash_password Sample.uuid_parse
      Sample.uuid_str Sample.validate_email Sample.save_refused.
Proof.
  intros H.
  set (promote := Sample.post {[ "email" := "bob@school.org"; "is_admin" := "on" ]}
                    Sample.no_form).
  specialize (H [(update_user 2, promote)]
                (Sample.world [Sample.ada; Sample.bob 5 true] [] (Sample.signed_in Sample.ada))
                "bob@school.org" (Sample.bob 5 true)
                (Sample.login_as "bob@school.org" "Secret12#")
                ltac:(keyed) eq_refl eq_refl eq_refl).
  assert (Hno_toggle : Forall (fun call : Route * Request =>
                                 forall i, fst call <> toggle_lock i)
                         [(update_user 2, promote)])
    by (constructor; [intros i; discriminate|constructor]).
  specialize (H Hno_toggle eq_refl).
  vm_compute in H. discriminate H.
Qed.

(** C2 at a user with four failures: the fifth locks the account; after a
    registration and a visit to the dashboard the right password is still
    turned away. *)
Lemma lockout_on_fifth_failure_witness :
  let w := Sample.world [Sample.ada; Sample.bob 4 false] [] ∅ in
  let join :=
    Sample.post (Sample.credentials "eve@school.org" "Abcdef1!") Sample.no_form in
  let visit := Sample.post ∅ Sample.no_form in
  Sample.verify_password "Secret12#" (User.password (Sample.bob 4 false)) = true /\
  exists w' locked,
    login_view Sample.verify_password Sample.uuid_str
      (Sample.login_as "bob@school.org" "wrong") w = (Render "login.html", w') /\
    Db.get (has_email "bob@school.org") (users w') = Db.Found locked /\
    User.failed_login_attempts locked = 5 /\
    User.is_locked locked = true /\
    fst (login_view Sample.verify_password Sample.uuid_str
           (Sample.login_as "bob@school.org" "Secret12#")
           (serve Sample.verify_password Sample.hash_password Sample.uuid_parse
              Sample.uuid_str Sample.validate_email Sample.save_refused
              [(register, join); (dashboard, visit)] w'))
      = Render "login.html".
Proof.
  intros w join visit. split; [check|].
  destruct (lockout_on_fifth_failure Sample.verify_password Sample.hash_password
              Sample.uuid_parse Sample.uuid_str Sample.validate_email Sample.save_refused
              (Sample.login_as "bob@school.org" "wrong") w
              "bob@school.org" "wrong" (Sample.bob 4 false)
              ltac:(posted) ltac:(keyed) eq_refl eq_refl eq_refl eq_refl)
    as [Hfifth _].
  destruct (Hfifth eq_refl)
    as (w' & locked & Hrun & _ & _ & _ & Hget & _ & Hcount & Hlock & Hthen & _).
  exists w', locked.
  split; [exact Hrun|]. split; [exact Hget|]. split; [exact Hcount|].
  split; [exact Hlock|].
  destruct (Hthen [(register, join); (dashboard, visit)] Sample.verify_password
              (Sample.login_as "bob@school.org" "Secret12#"))
    as [Hturned _]; [|reflexivity|exact Hturned].
  constructor; [|constructor; [|constructor]];
    cbn [fst]; intros [E|[E|E]]; discriminate E.
Defined.

(** ** The further properties at concrete inputs *)

(** X5 at a visitor who registers and then logs in. *)
Lemma register_then_login_witness :
  let w := Sample.world [Sample.ada] [] ∅ in
  let request :=
    Sample.post (Sample.credentials "eve@school.org" "Abcdef1!") Sample.no_form in
  let attempt := Sample.login_as "eve@school.org" "Abcdef1!" in
  let w1 := snd (register_view Sample.hash_password Sample.validate_email
      Sample.save_refused request w) in
  let w2 := snd (login_view Sample.verify_password Sample.uuid_str attempt w1) in
  fst (login_view Sample.verify_password Sample.uuid_str attempt w1) = Redirect "dashboard" /\
  session w2 !! "user_id" = Some (Sample.uuid_str 99) /\
  session w2 !! "user_email" = Some "eve@school.org".
Proof.
  intros w request attempt.
  apply (register_then_login Sample.verify_password Sample.hash_password Sample.uuid_str
           Sample.validate_email Sample.save_refused request attempt w "eve@school.org" "Abcdef1!");
    [check|check|check|check|posted].
Defined.

(** X6 at a user who logs in with the right password. *)
Lemma login_opens_session_witness :
  let w := Sample.world [Sample.ada; Sample.bob 3 false] [] ∅ in
  let request := Sample.login_as "bob@school.org" "Secret12#" in
  let w' := snd (login_view Sample.verify_password Sample.uuid_str request w) in
  exists user,
    logged_in Sample.uuid_parse user w' /\
    User.failed_login_attempts user = 0 /\
    User.last_login user = Some (Sample.at_ Sample.today 12).
Proof.
  intros w request w'.
  destruct (login_opens_session Sample.verify_password Sample.uuid_parse Sample.uuid_str
              request w)
    as (email & password & before & user & _ & _ & _ & _ & Hlog & _ & _ & Hzero & Hlast & _).
  - keyed.
  - intros u [<-|[<-|[]]]; split; check.
  - check.
  - exists user. split; [exact Hlog|]. split; [exact Hzero|exact Hlast].
Defined.

(** X7 at a user who logs out. *)
Lemma logout_clears_session_witness :
  let bob := Sample.bob 0 false in
  let w := Sample.world [Sample.ada; bob] [] (Sample.signed_in bob) in
  let request := Sample.post ∅ Sample.no_form in
  let w' := snd (logout_view Sample.uuid_parse request w) in
  session w' = ∅ /\
  Db.get (has_id 2) (users w')
    = Db.Found (User.set_updated_at (Sample.at_ Sample.today 12)
                  (User.set_last_logout (Some (Sample.at_ Sample.today 12)) bob)).
Proof.
  intros bob w request w'.
  destruct (logout_clears_session Sample.uuid_parse request w ltac:(keyed))
    as (_ & Hsession & _ & Hrow & _).
  split; [exact Hsession|].
  exact (proj1 (Hrow bob ltac:(signed_in_as bob))).
Defined.

(** X8 at an admin who opens the address that deletes a user with a GET. *)
Lemma only_post_writes_witness :
  let rows := [Sample.ada; Sample.bob 0 false] in
  let w := Sample.world rows [] (Sample.signed_in Sample.ada) in
  let request := mkRequest "GET" ∅ Sample.no_form None (Sample.at_ Sample.today 12) 99 in
  tables (snd (dispatch Sample.verify_password Sample.hash_password Sample.uuid_parse
                 Sample.uuid_str Sample.validate_email
                     Sample.save_refused (delete_user 2) request w))
  = (rows, [Sample.sam], []).
Proof.
  intros rows w request.
  rewrite (only_post_writes Sample.verify_password Sample.hash_password Sample.uuid_parse
             Sample.uuid_str Sample.validate_email Sample.save_refused (delete_user 2) request w);
    [reflexivity|discriminate|discriminate].
Defined.

(** X9 at a user without the admin flag who posts to the lock toggle of the
    admin. *)
Lemma writes_need_admin_witness :
  let bob := Sample.bob 0 false in
  let rows := [Sample.ada; bob] in
  let w := Sample.world rows [] (Sample.signed_in bob) in
  let request := Sample.post {[ "is_locked" := "on" ]} Sample.no_form in
  tables (snd (dispatch Sample.verify_password Sample.hash_password Sample.uuid_parse
                 Sample.uuid_str Sample.validate_email
                     Sample.save_refused (toggle_lock 1) request w))
  = (rows, [Sample.sam], []).
Proof.
  intros bob rows w request.
  rewrite (writes_need_admin Sample.verify_password Sample.hash_password Sample.uuid_parse
             Sample.uuid_str Sample.validate_email Sample.save_refused (toggle_lock 1) request w);
    [reflexivity| |discriminate|discriminate|discriminate|discriminate].
  intros user (text & Hsession & _ & Hparse & Hget).
  vm_compute in Hsession. injection Hsession as <-.
  assert (Hid : Some (User.id user) = Some 2%N) by (rewrite <- Hparse; check).
  injection Hid as Hid. rewrite Hid in Hget.
  vm_compute in Hget. injection Hget as <-. reflexivity.
Defined.

(** X10 at an admin who deletes a user: the user goes, the admin stays. *)
Lemma delete_user_spares_admins_witness :
  let bob := Sample.bob 0 false in
  let w := Sample.world [Sample.ada; bob] [] (Sample.signed_in Sample.ada) in
  let request := Sample.post ∅ Sample.no_form in
  In Sample.ada (users (snd (delete_user_view Sample.uuid_parse 1 request w))) /\
  ~ In bob (users (snd (delete_user_view Sample.uuid_parse 2 request w))).
Proof.
  intros bob w request. split.
  - apply (proj1 (delete_user_spares_admins Sample.uuid_parse 1 request w));
      [now left|reflexivity].
  - destruct (proj2 (delete_user_spares_admins Sample.uuid_parse 2 request w)
                Sample.ada bob ltac:(signed_in_as Sample.ada) eq_refl eq_refl eq_refl eq_refl)
      as [_ Hrows].
    intros Hin. apply Hrows in Hin. destruct Hin as [_ Hid]. now apply Hid.
Defined.

(** X11 at a user with four failures who enters a wrong password twice. *)
Lemma counter_stays_in_range_witness :
  let w := Sample.world [Sample.ada; Sample.bob 4 false] [] ∅ in
  let wrong := Sample.login_as "bob@school.org" "wrong" in
  every_user counter_in_range
    (serve Sample.verify_password Sample.hash_password Sample.uuid_parse Sample.uuid_str
       Sample.validate_email Sample.save_refused [(login, wrong); (login, wrong)] w).
Proof.
  intros w wrong.
  apply (counter_stays_in_range Sample.verify_password Sample.hash_password
           Sample.uuid_parse Sample.uuid_str Sample.validate_email Sample.save_refused).
  intros u [<-|[<-|[]]]; (split; [cbn; lia|cbn; intros; lia || discriminate]).
Defined.

(** X12 at a registration followed by the addition of a stage. *)
Lemma keys_are_kept_witness :
  let w := Sample.world [Sample.ada] [Sample.stage 10 1] (Sample.signed_in Sample.ada) in
  let join :=
    Sample.post (Sample.credentials "eve@school.org" "Abcdef1!") Sample.no_form in
  let form := Sample.stage_form (Sample.at_ Sample.today 9) (Sample.at_ Sample.today 17) in
  let add := mkRequest "POST" ∅ form None (Sample.at_ Sample.today 13) 21 in
  tables_keyed
    (serve Sample.verify_password Sample.hash_password Sample.uuid_parse Sample.uuid_str
       Sample.validate_email Sample.save_refused [(register, join); (add_path 7, add)] w).
Proof.
  intros w join form add.
  apply (keys_are_kept Sample.verify_password Sample.hash_password Sample.uuid_parse
           Sample.uuid_str Sample.validate_email
               Sample.save_refused [(register, join); (add_path 7, add)] w).
  unfold tables_keyed. cbn.
  repeat split; repeat (constructor; [cbn; intuition discriminate|]); constructor.
Defined.


(** X15 at an admin who completes a stage twice. *)
Lemma complete_learning_path_idempotent_witness :
  let w := Sample.world [Sample.ada] [Sample.stage 10 1; Sample.stage 11 2]
             (Sample.signed_in Sample.ada) in
  let request := Sample.post ∅ Sample.no_form in
  let w1 := snd (complete_learning_path Sample.uuid_parse 10 request w) in
  Db.get (has_path_id 10) (learning_paths w1)
    = Db.Found (LearningPath.set_is_completed true (Sample.stage 10 1)) /\
  learning_paths (snd (complete_learning_path Sample.uuid_parse 10 request w1))
    = learning_paths w1.
Proof.
  intros w request w1.
  destruct (complete_learning_path_idempotent Sample.uuid_parse 10 request request w
              Sample.ada (Sample.stage 10 1)
              ltac:(signed_in_as Sample.ada) eq_refl eq_refl eq_refl eq_refl)
    as (_ & Hrow & _ & _ & _ & _ & _ & Hagain).
  split; [exact Hrow|exact Hagain].
Defined.

(** X16 at an admin who moves the dates of the second stage. *)
Lemma update_learning_path_keeps_position_witness :
  let w := Sample.world [Sample.ada] [Sample.stage 10 1; Sample.stage 11 2]
             (Sample.signed_in Sample.ada) in
  let form :=
    Sample.stage_form (Sample.at_ (Sample.today + 1) 9) (Sample.at_ (Sample.today + 3) 9) in
  let request := Sample.post ∅ form in
  let r := update_learning_path Sample.uuid_parse 11 request w in
  fst r = JsonResponse 200 [("status", "success")] /\
  orders_of 7 (learning_paths (snd r)) = [1; 2].
Proof.
  intros w form request r.
  destruct (update_learning_path_keeps_position Sample.uuid_parse 11 request w
              Sample.ada (Sample.stage 11 2)
              ltac:(signed_in_as Sample.ada) eq_refl eq_refl eq_refl)
    as [Hvalid _].
  destruct (Hvalid ltac:(check))
    as (task & start & end_ & duration & leave & notes & _ & Hr & _ & _ & Horders).
  split; [exact Hr|]. exact (Horders 7%N).
Defined.

(** X17 at an admin who deletes the one student. *)
Lemma delete_student_cascades_witness :
  let w := Sample.world [Sample.ada] [Sample.stage 10 1; Sample.stage 11 2]
             (Sample.signed_in Sample.ada) in
  let request := Sample.post ∅ Sample.no_form in
  let r := delete_student_view Sample.uuid_parse 7 request w in
  fst r = Redirect "list_student" /\
  ~ In (Sample.stage 10 1) (learning_paths (snd r)) /\
  users (snd r) = [Sample.ada].
Proof.
  intros w request r.
  destruct (delete_student_cascades Sample.uuid_parse 7 request w Sample.ada Sample.sam
              ltac:(signed_in_as Sample.ada) eq_refl eq_refl eq_refl)
    as (Hr & _ & Hpaths & Husers & _).
  split; [exact Hr|]. split; [|exact Husers].
  intros Hin. apply Hpaths in Hin. destruct Hin as [_ Hother]. now apply Hother.
Defined.

(** X18 at a student with stages 1, 3 and 7 who gets two more: they are
    numbered 8 and 9. *)
Lemma additions_are_numbered_in_turn_witness :
  let form := Sample.stage_form (Sample.at_ Sample.today 9) (Sample.at_ Sample.today 17) in
  let first := mkRequest "POST" ∅ form None (Sample.at_ Sample.today 12) 20 in
  let second := mkRequest "POST" ∅ form None (Sample.at_ Sample.today 13) 21 in
  let w := Sample.world [Sample.ada]
             [Sample.stage 10 1; Sample.stage 11 3; Sample.stage 12 7]
             (Sample.signed_in Sample.ada) in
  orders_of 7
    (learning_paths (after (add_learning_path Sample.uuid_parse 7) [first; second] w))
  = [1; 3; 7; 8; 9].
Proof.
  intros form first second w.
  rewrite (additions_are_numbered_in_turn Sample.uuid_parse 7 [first; second] w
             Sample.ada Sample.sam);
    [reflexivity|signed_in_as Sample.ada|reflexivity|reflexivity|
     |vm_compute; discriminate|vm_compute; discriminate].
  split.
  - constructor; [repeat split; check|].
    constructor; [repeat split; check|constructor].
  - repeat (constructor; [cbn; intuition discriminate|]); constructor.
Defined.
